(* ===== verification/_CoqProject ===== *)
-Q . S2P
Prelude.v
Js.v
Web.v
Async.v
Runtime.v
Invariants.v
Embedding.v
Client.v
ChatPanel.v
ChatMachine.v
AdminPanel.v
UploadPanel.v
AppShell.v
