(* ===== verification/Prelude.v ===== *)
(** * Verification of the document-search chat front end

    The program under [src/frontend/src] is a React user interface: a shared
    HTTP client ([api/client.ts]) and four components ([App.tsx],
    [components/Chat.tsx], [components/Admin.tsx],
    [components/DocumentUpload.tsx]).  Every component keeps its state in
    [useState] hooks, and its event handlers are [async] functions that
    read the state of the render they were created in, write through the
    hook setters, and suspend at every [await].  What can go wrong in such
    code is exactly what happens between an [await] and its continuation:
    other events run, and the continuation still holds the values it
    captured before.  The development models that, and nothing less.

    ** Files

    - [Prelude] (this file): the [result] type of fallible operations, the
      tactics and the hint databases [webui] and [webui_rw] shared by all files, list lemmas.
    - [Js]: the fragment of JavaScript the sources rely on: dynamic values
      ([jsval]), truthiness and [||], property access with its
      [TypeError], [ToString], thrown values and [instanceof Error],
      [String.prototype.trim].
    - [Async]: the execution model.  [prog S R] is the type of an [async]
      function body over component state [S]: a finite tree of hook
      writes, [confirm] dialogs, [fetch] and [response.json()] awaits,
      un-awaited calls and DOM effects, with [try]/[catch]/[finally].
      [run] executes a body up to its first [await]; a [world] holds the
      hook state, the suspended continuations and the log of observable
      effects; [step] is the labelled transition relation (a user event
      offered by the rendered tree, a network reply, a body becoming
      readable) and [reachable] its closure from the mount state.
    - [Client]: [ApiClient.request], [uploadDocument] and the twelve
      endpoint methods of [api/client.ts] as [prog]s.
    - [ChatPanel]: the state, the handlers ([handleSend], [handleKeyPress],
      [clearChat]) and the rendered tree of [components/Chat.tsx].

    ** Correspondence with the code

    A [useState] hook is a field of the component's state record and its
    setter a [SetState] node.  A handler is a function of the render's
    state (the closure) to a [prog]: reads go to that snapshot, writes to
    the live state of the [world], as in React.  [await e] is an [Await]
    node whose continuation is stored in [w_pending] until the environment
    answers; any other enabled step may run in between.  The JSX returned
    by a component is a [vnode] tree whose elements carry their handlers
    and their [disabled] flag; a user event is possible only on an element
    of the tree rendered from the current state.

    ** Theorems

    For each handler: its behaviour on every branch (guards, success,
    failure), as equations on [run]/[step_fn].  For each component: the
    invariants of its reachable worlds, by induction on [reachable].  For
    the client: what is sent and which message an error carries.

    ** Bounds and assumptions

    Strings are Rocq [string]s read as the UTF-8 encoding of the
    JavaScript string (lone surrogates are not representable).  Numbers are
    integers ([Z]); fractional JSON numbers are not representable, and no
    modelled code path computes with one.  React's batching is not
    modelled separately: a handler never reads a hook after writing it, so
    applying each write at once yields the same committed state.  Replies
    arrive in any order and at any time; there is no fuel anywhere, every
    definition is structurally recursive.

    ** Not modelled

    CSS class names and styles have no behaviour and are kept only as
    data of the rendered tree; [scrollIntoView] (Chat.tsx, lines 12-18) is
    a DOM effect without influence on the state. *)

From stdpp Require Export base tactics option list strings.

(** ** Results of fallible operations *)

Inductive result (E A : Type) : Type :=
| Ok (a : A)
| Err (e : E).
Arguments Ok {E A} a.
Arguments Err {E A} e.

#[export] Instance result_eq_dec {E A} `{EqDecision E, EqDecision A} :
  EqDecision (result E A).
Proof. solve_decision. Defined.

Definition is_ok {E A} (r : result E A) : bool :=
  match r with Ok _ => true | Err _ => false end.

Definition result_map {E A B} (f : A -> B) (r : result E A) : result E B :=
  match r with Ok a => Ok (f a) | Err e => Err e end.

(** A failure ends a sequence of fallible operations. *)
#[export] Instance result_ret {E} : MRet (result E) := fun _ a => Ok a.
#[export] Instance result_fmap {E} : FMap (result E) := fun _ _ f => result_map f.
#[export] Instance result_bind {E} : MBind (result E) :=
  fun _ _ f r => match r with Ok a => f a | Err e => Err e end.

(** ** Tactics *)

(** Case analysis on the scrutinee of the first [if] or [match] of the goal,
    keeping the equation. *)
Ltac case_branch :=
  match goal with
  | |- context [if ?b then _ else _] => destruct b eqn:?
  | |- context [match ?x with _ => _ end] => destruct x eqn:?
  end.

Create HintDb webui discriminated.
Create Rewrite HintDb webui_rw.

(** ** Lists *)

Section lists.
Context {A : Type}.
Implicit Types l k : list A.

Lemma snoc_not_nil l (x : A) : l ++ [x] ≠ [].
Proof. by destruct l. Qed.

Lemma length_snoc l (x : A) : length (l ++ [x]) = S (length l).
Proof. rewrite length_app. simpl. lia. Qed.

Lemma delete_lookup_length l i (x : A) :
  l !! i = Some x -> S (length (delete i l)) = length l.
Proof.
  intros Hi. rewrite length_delete; [|by eauto].
  apply lookup_lt_Some in Hi. lia.
Qed.

Lemma elem_of_delete l i (x : A) : x ∈ delete i l -> x ∈ l.
Proof.
  revert i. induction l as [|y l IH]; intros [|i]; simpl;
    rewrite ?elem_of_cons; naive_solver.
Qed.

Lemma Forall_delete (P : A -> Prop) l i : Forall P l -> Forall P (delete i l).
Proof. rewrite !Forall_forall. eauto using elem_of_delete. Qed.
End lists.

(** [mapM] over results succeeds when every element does. *)
Lemma mapM_Ok {E A B} (f : A -> result E B) l k :
  mapM f l = Ok k <-> Forall2 (fun x y => f x = Ok y) l k.
Proof.
  revert k. induction l as [|x l IH]; intros k; simpl.
  - split; [by intros [= <-]|by inversion 1].
  - unfold mbind, result_bind. destruct (f x) as [y|e] eqn:Hx; simpl.
    + destruct (mapM f l) as [k'|e'] eqn:Hl; simpl.
      * split; [intros [= <-]; constructor; [done|by apply IH]|].
        inversion 1 as [|? y' ? k'' Hy Hk]; subst.
        apply IH in Hk as [= ->]. rewrite Hx in Hy. by injection Hy as ->.
      * split; [done|]. inversion 1 as [|? y' ? k'' Hy Hk]; subst.
        by apply IH in Hk.
    + split; [done|]. inversion 1 as [|? y' ? k'' Hy Hk]; subst. congruence.
Qed.

#[export] Hint Resolve Forall_delete : webui.
#[export] Hint Rewrite @length_snoc : webui_rw.
