(* ===== verification/Js.v ===== *)
(** * The JavaScript fragment the sources rely on

    Dynamic values as [JSON.parse] and the language produce them, the
    operators the sources apply to values of unknown shape ([||], property
    access, template literals, [instanceof Error]) and
    [String.prototype.trim].  These are the language's own operations, not
    code of the repository; the components and the client are written in
    terms of them. *)

From Stdlib Require Import Ascii.
From stdpp Require Import pretty.
From S2P Require Import Prelude.

#[local] Open Scope string_scope.
#[local] Open Scope list_scope.

(** ** Values *)

(** A number is an integer here: byte counts, item counts.  An object is
    its list of own properties in insertion order. *)
#[local] Unset Elimination Schemes.
Inductive jsval : Type :=
| JUndefined
| JNull
| JBool (b : bool)
| JNum (n : Z)
| JStr (s : string)
| JArr (xs : list jsval)
| JObj (fields : list (string * jsval)).
#[local] Set Elimination Schemes.

(** What a [throw] carries: an [Error] object (or an object of one of its
    subclasses: [TypeError], [SyntaxError]) with its [name] and [message],
    or any other value. *)
Inductive thrown : Type :=
| ErrorObj (name : string) (message : string)
| ThrownValue (v : jsval).

(** ** Truthiness and [||] *)

Definition truthy (v : jsval) : bool :=
  match v with
  | JUndefined | JNull => false
  | JBool b => b
  | JNum n => bool_decide (n ≠ 0%Z)
  | JStr s => bool_decide (s ≠ "")
  | JArr _ | JObj _ => true
  end.

(** [a || b] *)
Definition js_or (a b : jsval) : jsval := if truthy a then a else b.

(** ** Property access *)

Fixpoint assoc_lookup {V} (k : string) (fields : list (string * V)) : option V :=
  match fields with
  | [] => None
  | (k', v) :: rest => if decide (k = k') then Some v else assoc_lookup k rest
  end.

(** The message of the [TypeError] that reading a property of [null] or
    [undefined] raises (the wording is V8's). *)
Definition type_error_message (v : jsval) (k : string) : string :=
  "Cannot read properties of "
    +:+ (if v is JNull then "null" else "undefined")
    +:+ " (reading '" +:+ k +:+ "')".

(** [v.k], for a key [k] that is not a property of the built-in
    prototypes: the own property of an object, [undefined] on any other
    value, a [TypeError] on [null] and [undefined]. *)
Definition get_prop (v : jsval) (k : string) : result thrown jsval :=
  match v with
  | JUndefined | JNull => Err (ErrorObj "TypeError" (type_error_message v k))
  | JObj fields => Ok (default JUndefined (assoc_lookup k fields))
  | _ => Ok JUndefined
  end.

(** ** [ToString] *)

Definition join_comma (parts : list string) : string :=
  String.concat "," parts.

(** The conversion a template literal and [new Error(v)] apply. *)
Fixpoint to_string (v : jsval) : string :=
  match v with
  | JUndefined => "undefined"
  | JNull => "null"
  | JBool b => if b then "true" else "false"
  | JNum n => pretty n
  | JStr s => s
  | JArr xs =>
      join_comma
        (List.map (fun x => match x with
                            | JUndefined | JNull => ""
                            | _ => to_string x
                            end) xs)
  | JObj _ => "[object Object]"
  end.

(** ** Errors *)

(** [new Error(v)] *)
Definition new_Error (v : jsval) : thrown :=
  ErrorObj "Error" (if v is JUndefined then "" else to_string v).

(** [err instanceof Error] *)
Definition instanceof_Error (e : thrown) : bool :=
  match e with ErrorObj _ _ => true | ThrownValue _ => false end.

(** [err instanceof Error ? err.message : fallback], the expression every
    [catch] block of the components evaluates. *)
Definition error_message_or (e : thrown) (fallback : string) : string :=
  match e with
  | ErrorObj _ message => message
  | ThrownValue _ => fallback
  end.

(** ** [String.prototype.trim] *)

(** The white space and line terminators of ECMAScript that fit one byte. *)
Definition ws_byte (c : ascii) : bool :=
  match c with
  | "009" | "010" | "011" | "012" | "013" | " " => true
  | _ => false
  end%char.

(** The other white space code points, by the bytes of their UTF-8
    encoding: U+00A0 is C2 A0. *)
Definition ws_two (c0 c1 : ascii) : bool :=
  bool_decide (nat_of_ascii c0 = 194 ∧ nat_of_ascii c1 = 160)%nat.

(** U+1680 (E1 9A 80); U+2000 to U+200A, U+2028, U+2029, U+202F
    (E2 80 80..8A, A8, A9, AF); U+205F (E2 81 9F); U+3000 (E3 80 80);
    U+FEFF (EF BB BF). *)
Definition ws_three (c0 c1 c2 : ascii) : bool :=
  let '(b0, b1, b2) := (nat_of_ascii c0, nat_of_ascii c1, nat_of_ascii c2) in
  bool_decide
    ((b0 = 225 ∧ b1 = 154 ∧ b2 = 128)
     ∨ (b0 = 226 ∧ b1 = 128 ∧ (128 ≤ b2 ≤ 138 ∨ b2 = 168 ∨ b2 = 169 ∨ b2 = 175))
     ∨ (b0 = 226 ∧ b1 = 129 ∧ b2 = 159)
     ∨ (b0 = 227 ∧ b1 = 128 ∧ b2 = 128)
     ∨ (b0 = 239 ∧ b1 = 187 ∧ b2 = 191))%nat.

(** Whether the string consists of white space only. *)
Fixpoint blank (s : string) : bool :=
  match s with
  | "" => true
  | String c0 r0 =>
      if ws_byte c0 then blank r0
      else match r0 with
           | "" => false
           | String c1 r1 =>
               if ws_two c0 c1 then blank r1
               else match r1 with
                    | "" => false
                    | String c2 r2 => ws_three c0 c1 c2 && blank r2
                    end
           end
  end.

(** [s.trimStart()] *)
Fixpoint trim_start (s : string) : string :=
  match s with
  | "" => ""
  | String c0 r0 =>
      if ws_byte c0 then trim_start r0
      else match r0 with
           | "" => s
           | String c1 r1 =>
               if ws_two c0 c1 then trim_start r1
               else match r1 with
                    | "" => s
                    | String c2 r2 =>
                        if ws_three c0 c1 c2 then trim_start r2 else s
                    end
           end
  end.

(** The longest prefix that does not end in white space. *)
Fixpoint trim_end (s : string) : string :=
  if blank s then ""
  else match s with
       | "" => ""
       | String c r => String c (trim_end r)
       end.

(** [s.trim()] *)
Definition trim (s : string) : string := trim_end (trim_start s).

(** [!s] for a string [s] *)
Definition str_falsy (s : string) : bool := bool_decide (s = "").

(** ** [encodeURIComponent] *)

(** The characters [encodeURIComponent] leaves alone: letters, digits and
    [- _ . ! ~ * ' ( )]. *)
Definition uri_unreserved (c : ascii) : bool :=
  let n := nat_of_ascii c in
  bool_decide (48 ≤ n ≤ 57 ∨ 65 ≤ n ≤ 90 ∨ 97 ≤ n ≤ 122)%nat
  || bool_decide (c ∈ ["-"; "_"; "."; "!"; "~"; "*"; "'"; "("; ")"]%char).

Definition hex_digit (n : nat) : ascii :=
  match n with
  | 0 => "0" | 1 => "1" | 2 => "2" | 3 => "3" | 4 => "4" | 5 => "5"
  | 6 => "6" | 7 => "7" | 8 => "8" | 9 => "9" | 10 => "A" | 11 => "B"
  | 12 => "C" | 13 => "D" | 14 => "E" | _ => "F"
  end%char.

(** Every other byte of the UTF-8 encoding becomes [%XX]. *)
Definition percent_encode (c : ascii) : string :=
  let n := nat_of_ascii c in
  String "%" (String (hex_digit (n / 16)) (String (hex_digit (n mod 16)) "")).

Fixpoint encodeURIComponent (s : string) : string :=
  match s with
  | "" => ""
  | String c r =>
      (if uri_unreserved c then String c "" else percent_encode c)
        +:+ encodeURIComponent r
  end.

(** The characters of an encoded component: unreserved ones, [%] and
    hexadecimal digits (which are unreserved). *)
Definition uri_safe (c : ascii) : bool :=
  uri_unreserved c || bool_decide (c = "%"%char).

Fixpoint string_forallb (f : ascii -> bool) (s : string) : bool :=
  match s with
  | "" => true
  | String c r => f c && string_forallb f r
  end.

(** The inverse, used to show that distinct names are encoded
    differently: [%XX] is the byte [XX], any other character is itself. *)
Definition hex_value (c : ascii) : option nat :=
  let n := nat_of_ascii c in
  if bool_decide (48 ≤ n ≤ 57)%nat then Some (n - 48)%nat
  else if bool_decide (65 ≤ n ≤ 70)%nat then Some (n - 55)%nat
  else if bool_decide (97 ≤ n ≤ 102)%nat then Some (n - 87)%nat
  else None.

Fixpoint decodeURIComponent (s : string) : option string :=
  match s with
  | "" => Some ""
  | String c r =>
      if bool_decide (c = "%"%char) then
        match r with
        | String h (String l r') =>
            match hex_value h, hex_value l, decodeURIComponent r' with
            | Some n1, Some n0, Some d => Some (String (ascii_of_nat (16 * n1 + n0)) d)
            | _, _, _ => None
            end
        | _ => None
        end
      else String c <$> decodeURIComponent r
  end.

(** ** String literals *)

(** The line feed that ["\n"] denotes in a string literal of the sources. *)
Definition LF : string := String "010"%char "".

(** ** [JSON.stringify] *)

(** The value the text [JSON.stringify(v)] denotes: a property whose
    value is [undefined] is left out, an [undefined] element of an array
    becomes [null]. *)
Fixpoint JSON_stringify (v : jsval) : jsval :=
  match v with
  | JArr xs =>
      JArr (List.map (fun x => match x with
                               | JUndefined => JNull
                               | _ => JSON_stringify x
                               end) xs)
  | JObj fields =>
      JObj ((fix props (fs : list (string * jsval)) : list (string * jsval) :=
               match fs with
               | [] => []
               | (k, x) :: fs' =>
                   match x with
                   | JUndefined => props fs'
                   | _ => (k, JSON_stringify x) :: props fs'
                   end
               end) fields)
  | _ => v
  end.

(** A value [JSON.stringify] writes as it is. *)
Fixpoint json_plain (v : jsval) : bool :=
  match v with
  | JUndefined => false
  | JArr xs => forallb json_plain xs
  | JObj fields => forallb (fun kv => json_plain kv.2) fields
  | _ => true
  end.

(** ** [length] *)

(** [v.length]: the number of elements of an array, the length of a
    string (counted here in bytes: the sources only compare it with 0),
    the own property of an object, [undefined] on a number or a boolean,
    a [TypeError] on [null] and [undefined]. *)
Definition js_length (v : jsval) : result thrown jsval :=
  match v with
  | JArr xs => Ok (JNum (Z.of_nat (length xs)))
  | JStr s => Ok (JNum (Z.of_nat (String.length s)))
  | _ => get_prop v "length"
  end.

(** ** [Number.prototype.toFixed] *)

(** [(a / b).toFixed(1)] for an integer [a >= 0] and a power of two [b]:
    the quotient is exact in floating point, and [toFixed] rounds it to
    the nearest tenth, a half upwards. *)
Definition toFixed1 (a b : Z) : string :=
  let tenths := ((20 * a + b) / (2 * b))%Z in
  pretty (tenths / 10)%Z +:+ "." +:+ pretty (tenths mod 10)%Z.

(** ** Prefixes *)

(** What follows the prefix [p] in [s]. *)
Fixpoint after_prefix (p s : string) : option string :=
  match p, s with
  | "", _ => Some s
  | String a p', String b s' => if decide (a = b) then after_prefix p' s' else None
  | String _ _, "" => None
  end.

(** ** Decidable equality *)

Section jsval_ind.
Variable P : jsval -> Prop.
Hypothesis Hundef : P JUndefined.
Hypothesis Hnull : P JNull.
Hypothesis Hbool : forall b, P (JBool b).
Hypothesis Hnum : forall n, P (JNum n).
Hypothesis Hstr : forall s, P (JStr s).
Hypothesis Harr : forall xs, Forall P xs -> P (JArr xs).
Hypothesis Hobj : forall fields, Forall (fun kv => P kv.2) fields -> P (JObj fields).

(** Induction with the hypothesis on every element of an array and
    every property of an object. *)
Fixpoint jsval_nested_ind (v : jsval) : P v :=
  match v with
  | JUndefined => Hundef
  | JNull => Hnull
  | JBool b => Hbool b
  | JNum n => Hnum n
  | JStr s => Hstr s
  | JArr xs =>
      Harr xs ((fix go xs : Forall P xs :=
                  match xs with
                  | [] => Forall_nil_2 _
                  | x :: xs' => Forall_cons_2 _ _ _ (jsval_nested_ind x) (go xs')
                  end) xs)
  | JObj fields =>
      Hobj fields
        ((fix go fs : Forall (fun kv => P kv.2) fs :=
            match fs with
            | [] => Forall_nil_2 _
            | kv :: fs' =>
                Forall_cons_2 (fun kv => P kv.2) _ _ (jsval_nested_ind kv.2) (go fs')
            end) fields)
  end.
End jsval_ind.

Fixpoint jsval_eqb (v w : jsval) : bool :=
  match v, w with
  | JUndefined, JUndefined | JNull, JNull => true
  | JBool b, JBool b' => bool_decide (b = b')
  | JNum n, JNum n' => bool_decide (n = n')
  | JStr s, JStr s' => bool_decide (s = s')
  | JArr xs, JArr ys =>
      (fix go xs ys :=
         match xs, ys with
         | [], [] => true
         | x :: xs', y :: ys' => jsval_eqb x y && go xs' ys'
         | _, _ => false
         end) xs ys
  | JObj fs, JObj gs =>
      (fix go fs gs :=
         match fs, gs with
         | [], [] => true
         | (k, x) :: fs', (k', y) :: gs' =>
             bool_decide (k = k') && jsval_eqb x y && go fs' gs'
         | _, _ => false
         end) fs gs
  | _, _ => false
  end.

Lemma jsval_eqb_eq v w : jsval_eqb v w = true <-> v = w.
Proof.
  revert w.
  induction v as [| |b|n|s|xs IH|fields IH] using jsval_nested_ind;
    intros [| |b'|n'|s'|ys|gs]; simpl; try (by split);
    rewrite ?bool_decide_eq_true; try (split; congruence).
  - revert ys. induction IH as [|x xs Hx _ IHxs]; intros [|y ys];
      try (by split).
    rewrite andb_true_iff, Hx, IHxs. split; [intros [-> ?]|intros [= -> ->]]; 
      [congruence|done].
  - revert gs. induction IH as [|[k x] fs Hx _ IHfs]; intros [|[k' y] gs];
      try (by split).
    simpl in Hx. rewrite !andb_true_iff, bool_decide_eq_true, Hx, IHfs.
    split; [intros [[-> ->] ?]|intros [= -> -> ->]]; [congruence|done].
Qed.

#[export] Instance jsval_eq_dec : EqDecision jsval.
Proof.
  intros v w. destruct (jsval_eqb v w) eqn:E.
  - left. by apply jsval_eqb_eq.
  - right. intros ?%jsval_eqb_eq. congruence.
Defined.

#[export] Instance thrown_eq_dec : EqDecision thrown.
Proof. solve_decision. Defined.

(** ** Lemmas *)

Lemma js_or_truthy a b : truthy a = true -> js_or a b = a.
Proof. unfold js_or. by intros ->. Qed.

Lemma js_or_falsy a b : truthy a = false -> js_or a b = b.
Proof. unfold js_or. by intros ->. Qed.

Lemma truthy_js_or a b : truthy b = true -> truthy (js_or a b) = true.
Proof. unfold js_or. by destruct (truthy a) eqn:?. Qed.

Lemma get_prop_obj fields k :
  get_prop (JObj fields) k = Ok (default JUndefined (assoc_lookup k fields)).
Proof. done. Qed.

Lemma get_prop_ok_iff v k :
  is_ok (get_prop v k) = true <-> v ≠ JUndefined ∧ v ≠ JNull.
Proof. destruct v; simpl; split; try done; intros []; congruence. Qed.

Lemma error_message_or_error e fallback :
  instanceof_Error e = true ->
  exists name, e = ErrorObj name (error_message_or e fallback).
Proof. destruct e; [eauto|done]. Qed.

Lemma new_Error_is_error v : instanceof_Error (new_Error v) = true.
Proof. done. Qed.

Lemma new_Error_str s fallback : error_message_or (new_Error (JStr s)) fallback = s.
Proof. done. Qed.

Lemma blank_trim_start s : blank s = true <-> trim_start s = "".
Proof.
  remember (String.length s) as n eqn:Hn. revert s Hn.
  induction n as [n IH] using lt_wf_ind. intros [|c0 r0] ->; [done|].
  assert (forall r, String.length r < String.length (String c0 r0) ->
            blank r = true <-> trim_start r = "") as IH'.
  { intros r Hr. by eapply IH. }
  clear IH. simpl in *. destruct (ws_byte c0); [apply IH'; lia|].
  destruct r0 as [|c1 r1]; [done|]. simpl in *.
  destruct (ws_two c0 c1); [apply IH'; lia|].
  destruct r1 as [|c2 r2]; [done|]. simpl in *.
  destruct (ws_three c0 c1 c2); [apply IH'; lia|done].
Qed.

(** ** [encodeURIComponent] *)

Lemma string_forallb_app f s t :
  string_forallb f (s +:+ t) = string_forallb f s && string_forallb f t.
Proof.
  induction s as [|c s IH]; simpl; [done|]. by rewrite IH, andb_assoc.
Qed.

Lemma hex_digit_unreserved n : uri_unreserved (hex_digit n) = true.
Proof. do 16 (destruct n as [|n]; [done|]). done. Qed.

Lemma encodeURIComponent_safe s :
  string_forallb uri_safe (encodeURIComponent s) = true.
Proof.
  induction s as [|c s IH]; simpl; [done|].
  rewrite string_forallb_app, IH, andb_true_r.
  destruct (uri_unreserved c) eqn:Hc; simpl.
  - unfold uri_safe. by rewrite Hc.
  - unfold uri_safe. by rewrite !hex_digit_unreserved.
Qed.

Lemma hex_digits_byte c :
  let n := nat_of_ascii c in
  hex_value (hex_digit (n / 16)) = Some (n / 16)%nat
  ∧ hex_value (hex_digit (n mod 16)) = Some (n mod 16)%nat
  ∧ ascii_of_nat (16 * (n / 16) + n mod 16) = c.
Proof. by destruct c as [[] [] [] [] [] [] [] []]. Qed.

Lemma uri_unreserved_not_percent c : uri_unreserved c = true -> c ≠ "%"%char.
Proof. by intros Hc ->. Qed.

Lemma decodeURIComponent_plain c r :
  c ≠ "%"%char ->
  decodeURIComponent (String c "" +:+ r) = String c <$> decodeURIComponent r.
Proof.
  intros Hc. change (String c "" +:+ r) with (String c r).
  change (decodeURIComponent (String c r))
    with (if bool_decide (c = "%"%char)
          then match r with
               | String h (String l r') =>
                   match hex_value h, hex_value l, decodeURIComponent r' with
                   | Some n1, Some n0, Some d =>
                       Some (String (ascii_of_nat (16 * n1 + n0)) d)
                   | _, _, _ => None
                   end
               | _ => None
               end
          else String c <$> decodeURIComponent r).
  by rewrite bool_decide_eq_false_2.
Qed.

Lemma decodeURIComponent_percent c r :
  decodeURIComponent (percent_encode c +:+ r) = String c <$> decodeURIComponent r.
Proof.
  destruct (hex_digits_byte c) as (Hh & Hl & Hb).
  change (decodeURIComponent (percent_encode c +:+ r))
    with (match hex_value (hex_digit (nat_of_ascii c / 16)),
                hex_value (hex_digit (nat_of_ascii c mod 16)),
                decodeURIComponent r with
          | Some n1, Some n0, Some d => Some (String (ascii_of_nat (16 * n1 + n0)) d)
          | _, _, _ => None
          end).
  rewrite Hh, Hl, Hb. by destruct (decodeURIComponent r).
Qed.

(** Decoding undoes encoding. *)
Lemma decode_encodeURIComponent s :
  decodeURIComponent (encodeURIComponent s) = Some s.
Proof.
  induction s as [|c s IH]; [done|]. cbn [encodeURIComponent].
  destruct (uri_unreserved c) eqn:Hc.
  - rewrite decodeURIComponent_plain by by apply uri_unreserved_not_percent.
    by rewrite IH.
  - by rewrite decodeURIComponent_percent, IH.
Qed.

Lemma encodeURIComponent_inj s t :
  encodeURIComponent s = encodeURIComponent t -> s = t.
Proof.
  intros Heq. apply (f_equal decodeURIComponent) in Heq.
  rewrite !decode_encodeURIComponent in Heq. congruence.
Qed.

(** ** [JSON.stringify] *)

Lemma JSON_stringify_plain v : json_plain v = true -> JSON_stringify v = v.
Proof.
  induction v as [| | | | |xs IH|fields IH] using jsval_nested_ind; simpl; try done.
  - intros Hxs. f_equal. induction IH as [|x xs Hx _ IHxs]; simpl in *; [done|].
    apply andb_true_iff in Hxs as [Hp Hxs]. rewrite IHxs by done.
    rewrite <-(Hx Hp) at 2. by destruct x.
  - intros Hfs. f_equal. induction IH as [|[k x] fs Hx _ IHfs]; simpl in *; [done|].
    apply andb_true_iff in Hfs as [Hp Hfs]. rewrite IHfs by done.
    rewrite <-(Hx Hp) at 2. by destruct x.
Qed.

Lemma after_prefix_app p s : after_prefix p (p +:+ s) = Some s.
Proof. induction p as [|a p IH]; simpl; [done|]. by rewrite decide_True. Qed.

Lemma js_length_zero v :
  js_length v = Ok (JNum 0) ->
  v = JArr [] ∨ v = JStr "" ∨ exists fields, v = JObj fields.
Proof.
  destruct v as [| |b|n|s|xs|fields]; simpl; try done; intros [= Hl].
  - destruct s; [auto|done].
  - destruct xs; [auto|done].
  - eauto.
Qed.

Lemma after_prefix_app_l p a b : after_prefix (p +:+ a) (p +:+ b) = after_prefix a b.
Proof. induction p as [|c p IH]; simpl; [done|]. by rewrite decide_True. Qed.
