(* ===== verification/Web.v ===== *)
(** * The browser interfaces the sources call

    The data of the Fetch API ([RequestInit], [Response], [FormData]
    bodies), of DOM events, and of the element tree a component returns.
    A tree is parameterised by the type [H] of what an event handler
    does, which [Async] instantiates with its [prog]. *)

From S2P Require Import Prelude Js.

#[local] Open Scope string_scope.
#[local] Open Scope list_scope.

(** ** Fetch *)

(** A [File] picked or dropped by the user; the sources read its [name]. *)
Record File : Type := mkFile { file_name : string }.

(** The [body] of a request: a JSON text, given by the value it denotes,
    or a [FormData] with its appended entries. *)
Inductive Body : Type :=
| BodyJson (v : jsval)
| BodyForm (entries : list (string * File)).

(** The second argument of [fetch]; an absent key is [None]. *)
Record RequestInit : Type := mkInit {
  method : option string;
  headers : option (list (string * string));
  body : option Body;
}.

(** What the sources read of a [Response]: [ok], and what [json()]
    resolves or rejects with. *)
Record Response : Type := mkResponse {
  ok : bool;
  json : result thrown jsval;
}.

#[export] Instance File_eq_dec : EqDecision File.
Proof. solve_decision. Defined.
#[export] Instance Body_eq_dec : EqDecision Body.
Proof. solve_decision. Defined.
#[export] Instance RequestInit_eq_dec : EqDecision RequestInit.
Proof. solve_decision. Defined.
#[export] Instance Response_eq_dec : EqDecision Response.
Proof. solve_decision. Defined.

(** [{...base, ...extra}] on objects with string values: the keys of
    [base] keep their position and take the value [extra] gives them, the
    new keys of [extra] follow. *)
Fixpoint obj_set {V} (k : string) (v : V) (o : list (string * V)) : list (string * V) :=
  match o with
  | [] => [(k, v)]
  | (k', v') :: rest =>
      if decide (k = k') then (k', v) :: rest else (k', v') :: obj_set k v rest
  end.

Definition obj_spread {V} (base extra : list (string * V)) : list (string * V) :=
  foldl (fun o kv => obj_set kv.1 kv.2 o) base extra.

(** ** DOM events *)

Inductive ev_kind : Type :=
| OnClick | OnChange | OnKeyPress | OnKeyDown | OnDrop | OnDragOver | OnDragLeave.

#[export] Instance ev_kind_eq_dec : EqDecision ev_kind.
Proof. solve_decision. Defined.

(** The fields of an event object the handlers read: [e.target.value],
    [e.target.checked], [e.target.files] or [e.dataTransfer.files],
    [e.key], [e.shiftKey]. *)
Record dom_event : Type := mkEvent {
  kind : ev_kind;
  target_value : string;
  target_checked : bool;
  files : list File;
  key : string;
  shiftKey : bool;
}.

Definition click : dom_event := mkEvent OnClick "" false [] "" false.
Definition change_value (v : string) : dom_event := mkEvent OnChange v false [] "" false.
Definition change_checked (b : bool) : dom_event := mkEvent OnChange "" b [] "" false.
Definition change_files (fs : list File) : dom_event := mkEvent OnChange "" false fs "" false.
Definition key_press (k : string) (shift : bool) : dom_event :=
  mkEvent OnKeyPress "" false [] k shift.
Definition key_down (k : string) : dom_event := mkEvent OnKeyDown "" false [] k false.
Definition drop_files (fs : list File) : dom_event := mkEvent OnDrop "" false fs "" false.

(** Effects on the document that leave the hooks alone. *)
Inductive dom_op : Type :=
| PreventDefault
| ScrollIntoView
| ClickFileInput
| ResetFileInput.

#[export] Instance dom_op_eq_dec : EqDecision dom_op.
Proof. solve_decision. Defined.

(** ** Element trees *)

Inductive attr : Type :=
| AStr (s : string)
| ABool (b : bool)
| AStyle (decls : list (string * string)).

#[local] Unset Elimination Schemes.
(** What a component returns.  [VNone] is a child that renders nothing
    ([false], [null]); [VFrag] a fragment or an array child; [VExpr v] a
    value in child position. *)
Inductive vnode (H : Type) : Type :=
| VNone
| VText (s : string)
| VExpr (v : jsval)
| VFrag (children : list (vnode H))
| VElem (tag : string) (attrs : list (string * attr))
    (on : list (ev_kind * (dom_event -> H))) (children : list (vnode H)).
#[local] Set Elimination Schemes.
Arguments VNone {H}.
Arguments VText {H} s.
Arguments VExpr {H} v.
Arguments VFrag {H} children.
Arguments VElem {H} tag attrs on children.

(** The tree of a child in the tree of its parent: the same elements,
    each handler turned into a handler of the parent by [g]. *)
Fixpoint vnode_map {H H' : Type} (g : H -> H') (n : vnode H) : vnode H' :=
  match n with
  | VNone => VNone
  | VText s => VText s
  | VExpr v => VExpr v
  | VFrag cs => VFrag (List.map (vnode_map g) cs)
  | VElem tag attrs on cs =>
      VElem tag attrs (List.map (fun kf => (kf.1, fun ev => g (kf.2 ev))) on)
        (List.map (vnode_map g) cs)
  end.

Section vnode.
Context {H : Type}.
Implicit Types (n : vnode H) (path : list nat).

Definition children_of n : list (vnode H) :=
  match n with
  | VFrag cs | VElem _ _ _ cs => cs
  | _ => []
  end.

(** The node a path of child positions leads to. *)
Fixpoint node_at path n : option (vnode H) :=
  match path with
  | [] => Some n
  | i :: path' =>
      match children_of n !! i with
      | Some c => node_at path' c
      | None => None
      end
  end.

Definition attr_of (name : string) n : option attr :=
  match n with
  | VElem _ attrs _ _ => assoc_lookup name attrs
  | _ => None
  end.

(** The [disabled] attribute of a form control. *)
Definition is_disabled n : bool :=
  match attr_of "disabled" n with
  | Some (ABool b) => b
  | _ => false
  end.

Fixpoint handler_lookup (k : ev_kind) (on : list (ev_kind * (dom_event -> H)))
  : option (dom_event -> H) :=
  match on with
  | [] => None
  | (k', h) :: rest => if decide (k = k') then Some h else handler_lookup k rest
  end.

Definition handler_of (k : ev_kind) n : option (dom_event -> H) :=
  match n with
  | VElem _ _ on _ => handler_lookup k on
  | _ => None
  end.

(** What the event [ev] on the element at [path] runs: the handler the
    element registers for the kind of [ev], unless the element is
    disabled (a disabled control receives no event). *)
Definition dispatch (root : vnode H) path (ev : dom_event) : option H :=
  match node_at path root with
  | Some n =>
      if is_disabled n then None
      else match handler_of (kind ev) n with
           | Some h => Some (h ev)
           | None => None
           end
  | None => None
  end.

(** The elements of a tree that listen to some event, with their paths. *)
Definition listens n : bool :=
  match n with
  | VElem _ _ (_ :: _) _ => true
  | _ => false
  end.

Fixpoint listeners_from (go : vnode H -> list (list nat * vnode H))
  (i : nat) (cs : list (vnode H)) : list (list nat * vnode H) :=
  match cs with
  | [] => []
  | c :: cs' => (prod_map (cons i) id <$> go c) ++ listeners_from go (S i) cs'
  end.

Fixpoint listeners n : list (list nat * vnode H) :=
  (if listens n then [([], n)] else [])
  ++ match n with
     | VFrag cs | VElem _ _ _ cs => listeners_from listeners 0 cs
     | _ => []
     end.

(** [{msg && f(msg)}] for a [msg] that is a string or [null]: nothing
    for [null], the empty string itself when [msg] is empty. *)
Definition and_then (msg : option string) (f : string -> vnode H) : vnode H :=
  match msg with
  | Some m => if str_falsy m then VText "" else f m
  | None => VNone
  end.

(** A value React accepts in child position: anything but an object
    (an array is accepted when its elements are). *)
Fixpoint valid_child (v : jsval) : bool :=
  match v with
  | JObj _ => false
  | JArr xs => forallb valid_child xs
  | _ => true
  end.

(** Every handler of every element of a tree satisfies [P], on every
    event. *)
Fixpoint every_handler (P : H -> Prop) n : Prop :=
  match n with
  | VElem _ _ on cs =>
      Forall (fun kf => forall ev, P (kf.2 ev)) on
      ∧ (fix go cs := match cs with
                      | [] => True
                      | c :: cs' => every_handler P c ∧ go cs'
                      end) cs
  | VFrag cs =>
      (fix go cs := match cs with
                    | [] => True
                    | c :: cs' => every_handler P c ∧ go cs'
                    end) cs
  | _ => True
  end.

(** The text a tree shows, in document order. *)
Fixpoint text_of n : list string :=
  match n with
  | VNone => []
  | VText s => [s]
  | VExpr v => match v with
               | JStr s => [s]
               | JNum _ => [to_string v]
               | _ => []
               end
  | VFrag cs | VElem _ _ _ cs => concat (List.map text_of cs)
  end.

Lemma node_at_nil n : node_at [] n = Some n.
Proof. done. Qed.

Lemma node_at_app p q n :
  node_at (p ++ q) n = node_at p n ≫= node_at q.
Proof.
  revert n. induction p as [|i p IH]; intros n; simpl; [done|].
  destruct (children_of n !! i); simpl; auto.
Qed.

Lemma handler_of_listens k n f : handler_of k n = Some f -> listens n = true.
Proof. by destruct n as [| | | |? ? [|] ?]. Qed.

Lemma listeners_from_lookup go i cs j c p n :
  cs !! j = Some c -> (p, n) ∈ go c ->
  ((i + j)%nat :: p, n) ∈ listeners_from go i cs.
Proof.
  revert i j. induction cs as [|c' cs IH]; intros i [|j] Hj Hin; simplify_eq/=.
  - apply elem_of_app. left. rewrite Nat.add_0_r.
    by apply (list_elem_of_fmap_2 (prod_map (cons i) id) _ (p, n)).
  - apply elem_of_app. right. rewrite <-Nat.add_succ_comm. by apply IH.
Qed.

Lemma node_at_listeners path root n :
  node_at path root = Some n -> listens n = true -> (path, n) ∈ listeners root.
Proof.
  revert root. induction path as [|i path IH]; intros root; simpl.
  - intros [= ->] Hn. destruct n; try done. simpl in *. rewrite Hn. by left.
  - destruct (children_of root !! i) as [c|] eqn:Hc; [|done]. intros Hp Hn.
    specialize (IH _ Hp Hn).
    destruct root; simpl in *; try done; try (apply elem_of_app; right);
      by apply (listeners_from_lookup listeners 0 _ i c).
Qed.

(** An event can only reach an element that listens. *)
Lemma dispatch_listener root path ev h :
  dispatch root path ev = Some h ->
  exists n f, (path, n) ∈ listeners root ∧ is_disabled n = false
              ∧ handler_of (kind ev) n = Some f ∧ h = f ev.
Proof.
  unfold dispatch. destruct (node_at path root) as [n|] eqn:Hn; [|done].
  destruct (is_disabled n) eqn:?; [done|].
  destruct (handler_of (kind ev) n) as [f|] eqn:Hf; [|done].
  intros [= <-]. exists n, f. split_and!; [|done..].
  eauto using node_at_listeners, handler_of_listens.
Qed.

Lemma listeners_from_nil go i cs :
  (forall c, c ∈ cs -> go c = []) -> listeners_from go i cs = [].
Proof.
  revert i. induction cs as [|c cs IH]; intros i Hcs; simpl; [done|].
  rewrite Hcs, IH; [done| |by left]. intros c' Hc'. apply Hcs. by right.
Qed.

Lemma dispatch_Some root path ev h :
  dispatch root path ev = Some h <->
  exists n f, node_at path root = Some n ∧ is_disabled n = false
              ∧ handler_of (kind ev) n = Some f ∧ h = f ev.
Proof.
  unfold dispatch. split.
  - destruct (node_at path root) as [n|]; [|done].
    destruct (is_disabled n) eqn:?; [done|].
    destruct (handler_of (kind ev) n) as [f|] eqn:?; [|done].
    intros [= <-]. eauto 10.
  - intros (n & f & -> & -> & -> & ->). done.
Qed.

(** An event on an element of a sub-tree. *)
Lemma dispatch_under root place sub path ev :
  node_at place root = Some sub -> dispatch root (place ++ path) ev = dispatch sub path ev.
Proof. intros Hsub. unfold dispatch. by rewrite node_at_app, Hsub. Qed.

(** ** Properties of all handlers *)

Lemma every_handler_children P n :
  every_handler P n <->
  match n with
  | VElem _ _ on cs =>
      Forall (fun kf => forall ev, P (kf.2 ev)) on ∧ Forall (every_handler P) cs
  | VFrag cs => Forall (every_handler P) cs
  | _ => True
  end.
Proof.
  assert (forall cs,
    (fix go cs := match cs with
                  | [] => True
                  | c :: cs' => every_handler P c ∧ go cs'
                  end) cs <-> Forall (every_handler P) cs) as Hgo.
  { induction cs as [|c cs IH]; [by split|]. rewrite Forall_cons, <-IH. done. }
  destruct n; simpl; rewrite ?Hgo; done.
Qed.

Lemma every_handler_node_at P path root n :
  every_handler P root -> node_at path root = Some n -> every_handler P n.
Proof.
  revert root. induction path as [|i path IH]; intros root Hroot; simpl.
  - by intros [= <-].
  - destruct (children_of root !! i) as [c|] eqn:Hc; [|done].
    apply IH. apply every_handler_children in Hroot.
    destruct root; simpl in Hc; try done; [|destruct Hroot as [_ Hroot]];
      by eapply Forall_lookup_1 in Hroot.
Qed.

Lemma handler_lookup_elem_of k on f :
  handler_lookup k on = Some f -> (k, f) ∈ on.
Proof.
  induction on as [|[k' f'] on IH]; simpl; [done|].
  case_decide; [intros [= <-]; subst; by left|]. intros ?. right. auto.
Qed.

Lemma every_handler_and_then P m (f : string -> vnode H) :
  (forall x, every_handler P (f x)) -> every_handler P (and_then m f).
Proof.
  intros Hf. unfold and_then. destruct m as [x|]; [|done]. by destruct (str_falsy x).
Qed.

(** What holds of every handler of a tree holds of what an event runs. *)
Lemma dispatch_every_handler P root path ev h :
  every_handler P root -> dispatch root path ev = Some h -> P h.
Proof.
  intros Hroot (n & f & Hn & _ & Hf & ->)%dispatch_Some.
  apply (every_handler_node_at P _ _ _ Hroot) in Hn.
  destruct n; try done. simpl in Hf. apply handler_lookup_elem_of in Hf.
  apply every_handler_children in Hn as [Hon _].
  rewrite Forall_forall in Hon. by apply (Hon _ Hf).
Qed.
End vnode.

(** ** Induction on trees *)

Section vnode_ind.
Context {H : Type}.
Variable P : vnode H -> Prop.
Hypothesis Hnone : P VNone.
Hypothesis Htext : forall s, P (VText s).
Hypothesis Hexpr : forall v, P (VExpr v).
Hypothesis Hfrag : forall cs, Forall P cs -> P (VFrag cs).
Hypothesis Helem : forall tag attrs on cs, Forall P cs -> P (VElem tag attrs on cs).

Fixpoint vnode_nested_ind (n : vnode H) : P n :=
  match n with
  | VNone => Hnone
  | VText s => Htext s
  | VExpr v => Hexpr v
  | VFrag cs =>
      Hfrag cs
        ((fix go (l : list (vnode H)) : Forall P l :=
            match l with
            | [] => Forall_nil_2 P
            | c :: l' => Forall_cons_2 P c l' (vnode_nested_ind c) (go l')
            end) cs)
  | VElem tag attrs on cs =>
      Helem tag attrs on cs
        ((fix go (l : list (vnode H)) : Forall P l :=
            match l with
            | [] => Forall_nil_2 P
            | c :: l' => Forall_cons_2 P c l' (vnode_nested_ind c) (go l')
            end) cs)
  end.
End vnode_ind.

Lemma every_handler_impl {H} (P Q : H -> Prop) (n : vnode H) :
  (forall h, P h -> Q h) -> every_handler P n -> every_handler Q n.
Proof.
  intros HPQ.
  induction n as [| | |cs IH|tag attrs on cs IH] using vnode_nested_ind;
    try done; intros Hn%every_handler_children; apply every_handler_children.
  - rewrite Forall_forall in IH, Hn. apply Forall_forall. auto.
  - destruct Hn as [Hon Hn]. split.
    + eapply Forall_impl; [done|]. simpl. auto.
    + rewrite Forall_forall in IH, Hn. apply Forall_forall. auto.
Qed.

(** ** Trees of a child component *)

Section vnode_map.
Context {H H' : Type} (g : H -> H').

Lemma children_of_vnode_map n :
  children_of (vnode_map g n) = vnode_map g <$> children_of n.
Proof. by destruct n. Qed.

Lemma node_at_vnode_map path n :
  node_at path (vnode_map g n) = vnode_map g <$> node_at path n.
Proof.
  revert n. induction path as [|i path IH]; intros n; simpl; [done|].
  rewrite children_of_vnode_map, list_lookup_fmap.
  destruct (children_of n !! i) as [c|]; simpl; [apply IH|done].
Qed.

Lemma handler_lookup_map k (on : list (ev_kind * (dom_event -> H))) :
  handler_lookup k (List.map (fun kf => (kf.1, fun ev => g (kf.2 ev))) on)
  = (fun f ev => g (f ev)) <$> handler_lookup k on.
Proof.
  induction on as [|[k' f] on IH]; simpl; [done|]. by case_decide.
Qed.

Lemma every_handler_vnode_map (P : H' -> Prop) n :
  every_handler (fun h => P (g h)) n -> every_handler P (vnode_map g n).
Proof.
  assert (forall cs,
    Forall (fun c => every_handler (fun h => P (g h)) c ->
                     every_handler P (vnode_map g c)) cs ->
    Forall (every_handler (fun h => P (g h))) cs ->
    Forall (every_handler P) (vnode_map g <$> cs)) as Hcs.
  { intros cs IH Hn. apply Forall_fmap, Forall_forall. intros c Hc.
    rewrite Forall_forall in IH, Hn. simpl. auto. }
  induction n as [| | |cs IH|tag attrs on cs IH] using vnode_nested_ind;
    try done; intros Hn%every_handler_children; apply every_handler_children; simpl.
  - by apply Hcs.
  - destruct Hn as [Hon Hn]. split; [|by apply Hcs].
    apply Forall_fmap. by eapply Forall_impl.
Qed.

(** An event on the tree of the child runs, in the parent, what it runs
    in the child. *)
Lemma dispatch_vnode_map root path ev :
  dispatch (vnode_map g root) path ev = g <$> dispatch root path ev.
Proof.
  unfold dispatch. rewrite node_at_vnode_map.
  destruct (node_at path root) as [n|]; simpl; [|done].
  destruct n as [| | | |tag attrs on cs]; simpl; try done.
  unfold is_disabled. simpl. destruct (assoc_lookup "disabled" attrs) as [[]|];
    try destruct b; simpl; rewrite ?handler_lookup_map;
    try (by destruct (handler_lookup (kind ev) on)); done.
Qed.
End vnode_map.

(** ** Walking through a tree *)

(** One level of a tree: the handlers of the element and its children. *)
Ltac handlers_step := apply every_handler_children; cbv beta iota.

(** Closes a goal on the handlers of a tree that has been computed, from
    what the context knows of each handler. *)
Ltac handlers_done :=
  repeat first [assumption|split|apply Forall_nil_2|apply Forall_cons_2|intros ?];
  simpl; auto.
