(* ===== verification/Async.v ===== *)
(** * Bodies of [async] functions

    [prog S R] is the body of an [async] function of a component with hook
    state [S] that returns an [R]: a finite tree of the effects the sources
    perform, one constructor per effect.  [bind] sequences, [try_catch]
    and [try_finally] are the [try] statement, and the notations of
    stdpp's monads ([x ← p; q], [p;; q]) read like the statements of the
    source.  What the effects do to a component is in [Runtime]. *)

From S2P Require Import Prelude Js Web.

(** Timers are identified by the number [setInterval] returns. *)
Definition timer_id : Type := nat.

Inductive prog (S : Type) (R : Type) : Type :=
| Ret (r : R)
    (** [return r], or the end of the body *)
| Throw (e : thrown)
    (** [throw e] *)
| SetState (f : S -> S) (k : prog S R)
    (** a hook setter: [setX(v)] or [setX(prev => ...)] *)
| Confirm (msg : string) (k : bool -> prog S R)
    (** [confirm(msg)] *)
| AwaitFetch (url : string) (init : RequestInit)
    (k : result thrown Response -> prog S R)
    (** [await fetch(url, init)]: resumes with the response, or with the
        value the promise rejects with *)
| AwaitJson (r : Response) (k : result thrown jsval -> prog S R)
    (** [await r.json()] *)
| Spawn (p : prog S unit) (k : prog S R)
    (** a call of an [async] function whose promise is dropped *)
| SetTimeout (cb : prog S unit) (ms : N) (k : prog S R)
| SetInterval (cb : prog S unit) (ms : N) (k : timer_id -> prog S R)
| ClearInterval (id : timer_id) (k : prog S R)
| Dom (op : dom_op) (k : prog S R).
Arguments Ret {S R} r.
Arguments Throw {S R} e.
Arguments SetState {S R} f k.
Arguments Confirm {S R} msg k.
Arguments AwaitFetch {S R} url init k.
Arguments AwaitJson {S R} r k.
Arguments Spawn {S R} p k.
Arguments SetTimeout {S R} cb ms k.
Arguments SetInterval {S R} cb ms k.
Arguments ClearInterval {S R} id k.
Arguments Dom {S R} op k.

Section combinators.
Context {S : Type}.

(** [p] and then [f] on its result; a [throw] in [p] skips [f]. *)
Fixpoint bind {A B} (p : prog S A) (f : A -> prog S B) : prog S B :=
  match p with
  | Ret r => f r
  | Throw e => Throw e
  | SetState g k => SetState g (bind k f)
  | Confirm msg k => Confirm msg (fun b => bind (k b) f)
  | AwaitFetch url init k => AwaitFetch url init (fun o => bind (k o) f)
  | AwaitJson r k => AwaitJson r (fun o => bind (k o) f)
  | Spawn q k => Spawn q (bind k f)
  | SetTimeout cb ms k => SetTimeout cb ms (bind k f)
  | SetInterval cb ms k => SetInterval cb ms (fun id => bind (k id) f)
  | ClearInterval id k => ClearInterval id (bind k f)
  | Dom op k => Dom op (bind k f)
  end.

(** [try { p } catch (err) { h err }].  A call whose promise is dropped
    is outside the [try]: its rejection is not caught here. *)
Fixpoint try_catch {A} (p : prog S A) (h : thrown -> prog S A) : prog S A :=
  match p with
  | Ret r => Ret r
  | Throw e => h e
  | SetState g k => SetState g (try_catch k h)
  | Confirm msg k => Confirm msg (fun b => try_catch (k b) h)
  | AwaitFetch url init k => AwaitFetch url init (fun o => try_catch (k o) h)
  | AwaitJson r k => AwaitJson r (fun o => try_catch (k o) h)
  | Spawn q k => Spawn q (try_catch k h)
  | SetTimeout cb ms k => SetTimeout cb ms (try_catch k h)
  | SetInterval cb ms k => SetInterval cb ms (fun id => try_catch (k id) h)
  | ClearInterval id k => ClearInterval id (try_catch k h)
  | Dom op k => Dom op (try_catch k h)
  end.

(** [try { p } finally { c }]: [c] runs after [p] however [p] ends, and
    the outcome of [p] stands unless [c] throws. *)
Fixpoint try_finally {A} (p : prog S A) (c : prog S unit) : prog S A :=
  match p with
  | Ret r => bind c (fun _ => Ret r)
  | Throw e => bind c (fun _ => Throw e)
  | SetState g k => SetState g (try_finally k c)
  | Confirm msg k => Confirm msg (fun b => try_finally (k b) c)
  | AwaitFetch url init k => AwaitFetch url init (fun o => try_finally (k o) c)
  | AwaitJson r k => AwaitJson r (fun o => try_finally (k o) c)
  | Spawn q k => Spawn q (try_finally k c)
  | SetTimeout cb ms k => SetTimeout cb ms (try_finally k c)
  | SetInterval cb ms k => SetInterval cb ms (fun id => try_finally (k id) c)
  | ClearInterval id k => ClearInterval id (try_finally k c)
  | Dom op k => Dom op (try_finally k c)
  end.

(** The value of a promise that has settled. *)
Definition settled {A} (o : result thrown A) : prog S A :=
  match o with Ok a => Ret a | Err e => Throw e end.

(** The statements of the sources. *)
Definition set_state (f : S -> S) : prog S unit := SetState f (Ret tt).
Definition confirm (msg : string) : prog S bool := Confirm msg Ret.
Definition fetch (url : string) (init : RequestInit) : prog S Response :=
  AwaitFetch url init settled.
Definition response_json (r : Response) : prog S jsval := AwaitJson r settled.
Definition spawn (p : prog S unit) : prog S unit := Spawn p (Ret tt).
Definition setTimeout (cb : prog S unit) (ms : N) : prog S unit :=
  SetTimeout cb ms (Ret tt).
Definition setInterval (cb : prog S unit) (ms : N) : prog S timer_id :=
  SetInterval cb ms Ret.
Definition clearInterval (id : timer_id) : prog S unit := ClearInterval id (Ret tt).
Definition dom (op : dom_op) : prog S unit := Dom op (Ret tt).
Definition skip : prog S unit := Ret tt.
End combinators.

(** ** Bodies of a child component *)

(** A body over the hooks [C] of a child, as a body over the hooks [S] of
    the component that holds the child.  [upd f] is what a setter of the
    child called with [f] does to the hooks of the parent; everything else
    the body does is unchanged. *)
Fixpoint prog_lift {C S : Type} (upd : (C -> C) -> S -> S) {R : Type} (p : prog C R)
  : prog S R :=
  match p with
  | Ret r => Ret r
  | Throw e => Throw e
  | SetState f k => SetState (upd f) (prog_lift upd k)
  | Confirm msg k => Confirm msg (fun b => prog_lift upd (k b))
  | AwaitFetch url init k => AwaitFetch url init (fun o => prog_lift upd (k o))
  | AwaitJson r k => AwaitJson r (fun o => prog_lift upd (k o))
  | Spawn q k => Spawn (prog_lift upd q) (prog_lift upd k)
  | SetTimeout cb ms k => SetTimeout (prog_lift upd cb) ms (prog_lift upd k)
  | SetInterval cb ms k =>
      SetInterval (prog_lift upd cb) ms (fun id => prog_lift upd (k id))
  | ClearInterval id k => ClearInterval id (prog_lift upd k)
  | Dom op k => Dom op (prog_lift upd k)
  end.

#[export] Instance prog_ret {S} : MRet (prog S) := fun _ r => Ret r.
#[export] Instance prog_bind {S} : MBind (prog S) := fun _ _ f p => bind p f.

Declare Scope prog_scope.
Delimit Scope prog_scope with prog.
Bind Scope prog_scope with prog.

(** [try p catch err => h finally c] *)
Notation "'try' p 'catch' e '=>' h 'finally' c" :=
  (try_finally (try_catch p (fun e => h)) c)
  (at level 10, p at level 200, e name, h at level 200, c at level 200,
   format "'[v' 'try'  '[' p ']' '/' 'catch'  e  '=>'  '[' h ']' '/' 'finally'  '[' c ']' ']'")
  : prog_scope.

(** [try p catch err => h] *)
Notation "'try' p 'catch' e '=>' h" :=
  (try_catch p (fun e => h))
  (at level 10, p at level 200, e name, h at level 200,
   format "'[v' 'try'  '[' p ']' '/' 'catch'  e  '=>'  '[' h ']' ']'")
  : prog_scope.

(** ** Laws *)

Section laws.
Context {S : Type}.

Lemma bind_ret_l {A B} (a : A) (f : A -> prog S B) : bind (Ret a) f = f a.
Proof. done. Qed.

Lemma bind_throw {A B} (e : thrown) (f : A -> prog S B) :
  bind (Throw e) f = Throw e.
Proof. done. Qed.

Lemma try_catch_ret {A} (a : A) (h : thrown -> prog S A) :
  try_catch (Ret a) h = Ret a.
Proof. done. Qed.

Lemma try_catch_throw {A} (e : thrown) (h : thrown -> prog S A) :
  try_catch (Throw e) h = h e.
Proof. done. Qed.

Lemma try_finally_ret {A} (a : A) (c : prog S unit) :
  try_finally (Ret a) c = bind c (fun _ => Ret a).
Proof. done. Qed.

Lemma try_finally_throw {A} (e : thrown) (c : prog S unit) :
  try_finally (Throw e : prog S A) c = bind c (fun _ => Throw e).
Proof. done. Qed.

Lemma settled_ok {A} (a : A) : settled (Ok a) = (Ret a : prog S A).
Proof. done. Qed.

Lemma settled_err {A} (e : thrown) : settled (Err e) = (Throw e : prog S A).
Proof. done. Qed.
End laws.

#[export] Hint Rewrite @bind_ret_l @bind_throw @try_catch_ret @try_catch_throw
  @try_finally_ret @try_finally_throw @settled_ok @settled_err : webui_rw.
