(* ===== verification/Runtime.v ===== *)
(** * Execution of a mounted component

    A [world] is a mounted component between two events: its hook state,
    the [async] bodies suspended at an [await], its timers, and the log of
    what it has done to the outside (requests sent, dialogs shown, DOM
    effects).  [run] executes a body up to its first [await];
    [step_fn] is one event of the browser's loop: a user event on an
    element of the rendered tree, the reply to a pending [fetch], a response
    body that has been read, a timer that fires.  Events are atomic and
    interleave freely, as in the single-threaded event loop the sources
    run in. *)

From S2P Require Import Prelude Js Web Async.

(** ** Components *)

(** What a component is to the runtime: the initial value of its hooks
    and the tree it returns for a state, whose handlers are bodies over
    that state. *)
Class Component (S : Type) : Type := {
  init : S;
  render : S -> vnode (prog S unit);
}.

(** ** Worlds *)

(** A body suspended at an [await], with what it waits for. *)
Inductive awaiting (S R : Type) : Type :=
| OnFetch (url : string) (init : RequestInit) (k : result thrown Response -> prog S R)
| OnJson (r : Response) (k : result thrown jsval -> prog S R).
Arguments OnFetch {S R} url init k.
Arguments OnJson {S R} r k.

(** What a body has come to when control returns to the event loop. *)
Inductive outcome (S R : Type) : Type :=
| Done (r : R)
| Raised (e : thrown)
| Blocked (a : awaiting S R).
Arguments Done {S R} r.
Arguments Raised {S R} e.
Arguments Blocked {S R} a.

Inductive timer_kind : Type := Timeout | Interval.

Record timer (S : Type) : Type := mkTimer {
  t_id : timer_id;
  t_kind : timer_kind;
  t_ms : N;
  t_callback : prog S unit;
}.
Arguments mkTimer {S} t_id t_kind t_ms t_callback.
Arguments t_id {S} t.
Arguments t_kind {S} t.
Arguments t_ms {S} t.
Arguments t_callback {S} t.

(** What the outside sees of a component. *)
Inductive output : Type :=
| OFetch (url : string) (init : RequestInit)
| OConfirm (msg : string) (answer : bool)
| ODom (op : dom_op)
| OUnhandled (e : thrown).

#[export] Instance output_eq_dec : EqDecision output.
Proof. solve_decision. Defined.

Record world (S : Type) : Type := mkWorld {
  w_state : S;
  w_pending : list (awaiting S unit);
  w_timers : list (timer S);
  w_next_timer : timer_id;
  w_log : list output;
}.
Arguments mkWorld {S} w_state w_pending w_timers w_next_timer w_log.
Arguments w_state {S} w.
Arguments w_pending {S} w.
Arguments w_timers {S} w.
Arguments w_next_timer {S} w.
Arguments w_log {S} w.

Section runtime.
Context {S : Type}.
Implicit Types (w : world S) (ans : string -> bool).

Definition with_state (f : S -> S) w : world S :=
  mkWorld (f (w_state w)) (w_pending w) (w_timers w) (w_next_timer w) (w_log w).

Definition with_pending (f : list (awaiting S unit) -> list (awaiting S unit)) w
  : world S :=
  mkWorld (w_state w) (f (w_pending w)) (w_timers w) (w_next_timer w) (w_log w).

Definition emit (o : output) w : world S :=
  mkWorld (w_state w) (w_pending w) (w_timers w) (w_next_timer w) (w_log w ++ [o]).

Definition add_timer (k : timer_kind) (ms : N) (cb : prog S unit) w : world S :=
  mkWorld (w_state w) (w_pending w)
    (w_timers w ++ [mkTimer (w_next_timer w) k ms cb])
    (Datatypes.S (w_next_timer w)) (w_log w).

Definition remove_timer (id : timer_id) w : world S :=
  mkWorld (w_state w) (w_pending w)
    (filter (fun t => t_id t ≠ id) (w_timers w))
    (w_next_timer w) (w_log w).

(** The rest of a suspended body, once it resumes, goes on as [g] says. *)
Definition awaiting_map {A B : Type} (g : prog S A -> prog S B)
  (a : awaiting S A) : awaiting S B :=
  match a with
  | OnFetch url init k => OnFetch url init (fun o => g (k o))
  | OnJson r k => OnJson r (fun o => g (k o))
  end.

(** Control returns to the event loop: a suspended body joins the
    pending ones, a rejection nobody awaits is reported. *)
Definition settle (wo : world S * outcome S unit) : world S :=
  match wo.2 with
  | Done _ => wo.1
  | Raised e => emit (OUnhandled e) wo.1
  | Blocked a => with_pending (fun ps => ps ++ [a]) wo.1
  end.

(** Run a body until it returns, throws or reaches an [await].  [ans]
    is what the user answers to a [confirm] dialog. *)
Fixpoint run {R : Type} ans (p : prog S R) w : world S * outcome S R :=
  match p with
  | Ret r => (w, Done r)
  | Throw e => (w, Raised e)
  | SetState f k => run ans k (with_state f w)
  | Confirm msg k => run ans (k (ans msg)) (emit (OConfirm msg (ans msg)) w)
  | AwaitFetch url init k => (emit (OFetch url init) w, Blocked (OnFetch url init k))
  | AwaitJson r k => (w, Blocked (OnJson r k))
  | Spawn q k => run ans k (settle (run ans q w))
  | SetTimeout cb ms k => run ans k (add_timer Timeout ms cb w)
  | SetInterval cb ms k => run ans (k (w_next_timer w)) (add_timer Interval ms cb w)
  | ClearInterval id k => run ans k (remove_timer id w)
  | Dom op k => run ans k (emit (ODom op) w)
  end.

(** Run a body nobody awaits: an event handler, a continuation, a timer
    callback. *)
Definition run_task ans (p : prog S unit) w : world S := settle (run ans p w).

(** The user who declines every dialog, and the one who accepts them. *)
Definition deny : string -> bool := fun _ => false.
Definition accept : string -> bool := fun _ => true.

(** ** Uninterrupted execution *)

(** What the network answers to a request. *)
Definition network : Type := string -> RequestInit -> result thrown Response.

(** Run a body to its end when no other event comes between its awaits
    and the network answers by [net]: the world it leaves and what its
    promise settles with. *)
Fixpoint exec {R : Type} (net : network) ans (p : prog S R) w
  : world S * result thrown R :=
  match p with
  | Ret r => (w, Ok r)
  | Throw e => (w, Err e)
  | SetState f k => exec net ans k (with_state f w)
  | Confirm msg k => exec net ans (k (ans msg)) (emit (OConfirm msg (ans msg)) w)
  | AwaitFetch url init k => exec net ans (k (net url init)) (emit (OFetch url init) w)
  | AwaitJson r k => exec net ans (k (json r)) w
  | Spawn q k => exec net ans k (settle (run ans q w))
  | SetTimeout cb ms k => exec net ans k (add_timer Timeout ms cb w)
  | SetInterval cb ms k => exec net ans (k (w_next_timer w)) (add_timer Interval ms cb w)
  | ClearInterval id k => exec net ans k (remove_timer id w)
  | Dom op k => exec net ans k (emit (ODom op) w)
  end.

(** [exec] from a suspended body on. *)
Definition exec_awaiting {R : Type} (net : network) ans (a : awaiting S R) w
  : world S * result thrown R :=
  match a with
  | OnFetch url init k => exec net ans (k (net url init)) w
  | OnJson r k => exec net ans (k (json r)) w
  end.

(** ** Suspended bodies *)

(** How a suspended body goes on: with the settled [fetch] it waits for,
    or with the body of the response it reads. *)
Definition resume (a : awaiting S unit) (o : result thrown Response) : prog S unit :=
  match a with
  | OnFetch _ _ k => k o
  | OnJson r k => k (json r)
  end.

(** [a] is what [p] suspends as, whatever the world it runs in. *)
Definition suspends_as (p : prog S unit) (a : awaiting S unit) : Prop :=
  forall ans w, (run ans p w).2 = Blocked a.

(** ** Events *)

(** One turn of the event loop.  Every event comes with what the user
    answers to the dialogs it opens. *)
Inductive label : Type :=
| LUser (path : list nat) (ev : dom_event) (ans : string -> bool)
    (** the user acts on the element at [path] *)
| LReply (i : nat) (o : result thrown Response) (ans : string -> bool)
    (** the [fetch] of the [i]-th pending body settles *)
| LBody (i : nat) (ans : string -> bool)
    (** the body the [i]-th pending body reads has arrived *)
| LTimer (id : timer_id) (ans : string -> bool).
    (** the timer [id] fires *)

Definition find_timer (id : timer_id) w : option (timer S) :=
  List.find (fun t => bool_decide (t_id t = id)) (w_timers w).

Context `{!Component S}.

Definition step_fn (l : label) w : option (world S) :=
  match l with
  | LUser path ev ans =>
      match dispatch (render (w_state w)) path ev with
      | Some h => Some (run_task ans h w)
      | None => None
      end
  | LReply i o ans =>
      match w_pending w !! i with
      | Some (OnFetch _ _ k) => Some (run_task ans (k o) (with_pending (delete i) w))
      | _ => None
      end
  | LBody i ans =>
      match w_pending w !! i with
      | Some (OnJson r k) =>
          Some (run_task ans (k (json r)) (with_pending (delete i) w))
      | _ => None
      end
  | LTimer id ans =>
      match find_timer id w with
      | Some t =>
          Some (run_task ans (t_callback t)
                  (match t_kind t with
                   | Timeout => remove_timer id w
                   | Interval => w
                   end))
      | None => None
      end
  end.

(** The same, as a relation with one rule per kind of event. *)
Inductive step : world S -> label -> world S -> Prop :=
| step_user w path ev ans h :
    dispatch (render (w_state w)) path ev = Some h ->
    step w (LUser path ev ans) (run_task ans h w)
| step_reply w i o ans url init k :
    w_pending w !! i = Some (OnFetch url init k) ->
    step w (LReply i o ans) (run_task ans (k o) (with_pending (delete i) w))
| step_body w i ans r k :
    w_pending w !! i = Some (OnJson r k) ->
    step w (LBody i ans) (run_task ans (k (json r)) (with_pending (delete i) w))
| step_timeout w id ans t :
    find_timer id w = Some t -> t_kind t = Timeout ->
    step w (LTimer id ans) (run_task ans (t_callback t) (remove_timer id w))
| step_interval w id ans t :
    find_timer id w = Some t -> t_kind t = Interval ->
    step w (LTimer id ans) (run_task ans (t_callback t) w).

(** The world of a component that has just been mounted. *)
Definition init_world : world S := mkWorld init [] [] 0 [].

Fixpoint run_trace (ls : list label) w : option (world S) :=
  match ls with
  | [] => Some w
  | l :: ls' =>
      match step_fn l w with
      | Some w' => run_trace ls' w'
      | None => None
      end
  end.

(** The events by which the request of the [i]-th pending body is
    answered by [o]: the response and then its body, or the rejection. *)
Definition answer (i : nat) (o : result thrown Response) ans : list label :=
  match o with
  | Ok r => [LReply i (Ok r) ans; LBody i ans]
  | Err e => [LReply i (Err e) ans]
  end.

Inductive reachable_from (w0 : world S) : world S -> Prop :=
| reachable_refl : reachable_from w0 w0
| reachable_step w l w' :
    reachable_from w0 w -> step w l w' -> reachable_from w0 w'.

Definition reachable : world S -> Prop := reachable_from init_world.

(** ** The relation and the function agree *)

Lemma step_fn_step l w w' : step_fn l w = Some w' <-> step w l w'.
Proof.
  split.
  - destruct l as [path ev ans|i o ans|i ans|id ans]; simpl; intros Hs;
      repeat case_match; simplify_eq; eauto using step.
  - intros []; simpl; by repeat (case_match; simplify_eq).
Qed.

Lemma step_deterministic w l w1 w2 : step w l w1 -> step w l w2 -> w1 = w2.
Proof. rewrite <-!step_fn_step. congruence. Qed.

Lemma run_trace_app ls1 ls2 w :
  run_trace (ls1 ++ ls2) w = run_trace ls1 w ≫= run_trace ls2.
Proof.
  revert w. induction ls1 as [|l ls1 IH]; intros w; simpl; [done|].
  destruct (step_fn l w); simpl; auto.
Qed.

Lemma run_trace_reachable_from ls w w' :
  run_trace ls w = Some w' -> reachable_from w w'.
Proof.
  revert w'. induction ls as [|l ls IH] using rev_ind; intros w'; simpl.
  - intros [= <-]. constructor.
  - rewrite run_trace_app. destruct (run_trace ls w) as [w1|] eqn:E; [|done].
    simpl. case_match eqn:Hs; [|done]. intros [= <-].
    eapply reachable_step; [by apply IH|by apply step_fn_step].
Qed.

Lemma reachable_from_run_trace w w' :
  reachable_from w w' -> exists ls, run_trace ls w = Some w'.
Proof.
  induction 1 as [|w1 l w2 _ [ls Hls] Hstep]; [by exists []|].
  exists (ls ++ [l]). rewrite run_trace_app, Hls. simpl.
  apply step_fn_step in Hstep. by rewrite Hstep.
Qed.

Lemma reachable_from_trans w1 w2 w3 :
  reachable_from w1 w2 -> reachable_from w2 w3 -> reachable_from w1 w3.
Proof. induction 2; eauto using reachable_from. Qed.

(** ** The body suspended last *)

Lemma step_fn_reply_at w ps qs url init k o ans :
  w_pending w = ps ++ OnFetch url init k :: qs ->
  step_fn (LReply (length ps) o ans) w
  = Some (run_task ans (k o) (with_pending (fun _ => ps ++ qs) w)).
Proof.
  intros Hw. simpl. rewrite Hw, list_lookup_middle by done.
  unfold with_pending. by rewrite Hw, delete_middle.
Qed.

Lemma step_fn_reply_last w ps url init k o ans :
  w_pending w = ps ++ [OnFetch url init k] ->
  step_fn (LReply (length ps) o ans) w
  = Some (run_task ans (k o) (with_pending (fun _ => ps) w)).
Proof.
  intros Hw. simpl. rewrite Hw, list_lookup_middle by done.
  unfold with_pending. by rewrite Hw, delete_middle, app_nil_r.
Qed.

Lemma step_fn_body_last w ps r k ans :
  w_pending w = ps ++ [OnJson r k] ->
  step_fn (LBody (length ps) ans) w
  = Some (run_task ans (k (json r)) (with_pending (fun _ => ps) w)).
Proof.
  intros Hw. simpl. rewrite Hw, list_lookup_middle by done.
  unfold with_pending. by rewrite Hw, delete_middle, app_nil_r.
Qed.

Lemma step_fn_reply_nth w i ps qs url init k o ans :
  w_pending w = ps ++ OnFetch url init k :: qs -> length ps = i ->
  step_fn (LReply i o ans) w
  = Some (run_task ans (k o) (with_pending (fun _ => ps ++ qs) w)).
Proof. intros Hw <-. by eapply step_fn_reply_at. Qed.

Lemma step_fn_body_nth w i ps qs r k ans :
  w_pending w = ps ++ OnJson r k :: qs -> length ps = i ->
  step_fn (LBody i ans) w
  = Some (run_task ans (k (json r)) (with_pending (fun _ => ps ++ qs) w)).
Proof.
  intros Hw <-. simpl. rewrite Hw, list_lookup_middle by done.
  unfold with_pending. by rewrite Hw, delete_middle.
Qed.

(** ** Invariants *)

(** A property of worlds that holds initially and that every event
    preserves holds of every reachable world. *)
Lemma invariant_reachable (I : world S -> Prop) :
  I init_world ->
  (forall w l w', I w -> step w l w' -> I w') ->
  forall w, reachable w -> I w.
Proof. intros Hinit Hstep w Hw. induction Hw; eauto. Qed.

(** ** Sequencing and [try] under [run] and [exec] *)

Lemma run_bind {A B : Type} ans (p : prog S A) (f : A -> prog S B) w :
  run ans (bind p f) w =
  match run ans p w with
  | (w', Done a) => run ans (f a) w'
  | (w', Raised e) => (w', Raised e)
  | (w', Blocked a) => (w', Blocked (awaiting_map (fun q => bind q f) a))
  end.
Proof. revert w. induction p; intros w; simpl; auto. Qed.

Lemma run_try_catch {A : Type} ans (p : prog S A) (h : thrown -> prog S A) w :
  run ans (try_catch p h) w =
  match run ans p w with
  | (w', Done a) => (w', Done a)
  | (w', Raised e) => run ans (h e) w'
  | (w', Blocked a) => (w', Blocked (awaiting_map (fun q => try_catch q h) a))
  end.
Proof. revert w. induction p; intros w; simpl; auto. Qed.

Lemma run_try_finally {A : Type} ans (p : prog S A) (c : prog S unit) w :
  run ans (try_finally p c) w =
  match run ans p w with
  | (w', Done a) => run ans (bind c (fun _ => Ret a)) w'
  | (w', Raised e) => run ans (bind c (fun _ => Throw e)) w'
  | (w', Blocked a) => (w', Blocked (awaiting_map (fun q => try_finally q c) a))
  end.
Proof. revert w. induction p; intros w; simpl; auto. Qed.

Lemma exec_bind {A B : Type} net ans (p : prog S A) (f : A -> prog S B) w :
  exec net ans (bind p f) w =
  match exec net ans p w with
  | (w', Ok a) => exec net ans (f a) w'
  | (w', Err e) => (w', Err e)
  end.
Proof. revert w. induction p; intros w; simpl; auto. Qed.

Lemma exec_try_catch {A : Type} net ans (p : prog S A) (h : thrown -> prog S A) w :
  exec net ans (try_catch p h) w =
  match exec net ans p w with
  | (w', Ok a) => (w', Ok a)
  | (w', Err e) => exec net ans (h e) w'
  end.
Proof. revert w. induction p; intros w; simpl; auto. Qed.

Lemma exec_try_finally {A : Type} net ans (p : prog S A) (c : prog S unit) w :
  exec net ans (try_finally p c) w =
  match exec net ans p w with
  | (w', Ok a) => exec net ans (bind c (fun _ => Ret a)) w'
  | (w', Err e) => exec net ans (bind c (fun _ => Throw e)) w'
  end.
Proof. revert w. induction p; intros w; simpl; auto. Qed.

(** [exec] is [run] followed by the answers of the network. *)
Lemma exec_run {R : Type} net ans (p : prog S R) w :
  exec net ans p w =
  match run ans p w with
  | (w', Done r) => (w', Ok r)
  | (w', Raised e) => (w', Err e)
  | (w', Blocked a) => exec_awaiting net ans a w'
  end.
Proof. revert w. induction p; intros w; simpl; auto. Qed.

(** ** The log only grows *)

Lemma run_log_prefix {R : Type} ans (p : prog S R) w :
  w_log w `prefix_of` w_log (run ans p w).1.
Proof.
  revert w. induction p; intros w; simpl; try done;
    try (etrans; [|by eauto]); simpl; try done;
    try (by apply prefix_app_r).
  unfold settle. destruct (run ans p1 w) as [w1 o1] eqn:E.
  specialize (IHp1 w). rewrite E in IHp1. simpl in *.
  destruct o1; simpl; [done| |done]. by apply prefix_app_r.
Qed.

Lemma run_task_log_prefix ans (p : prog S unit) w :
  w_log w `prefix_of` w_log (run_task ans p w).
Proof.
  unfold run_task, settle. pose proof (run_log_prefix ans p w) as Hp.
  destruct (run ans p w) as [w1 [| |]]; simpl in *; [done| |done].
  by apply prefix_app_r.
Qed.

Lemma step_log_prefix w l w' : step w l w' -> w_log w `prefix_of` w_log w'.
Proof.
  intros []; (etrans; [|apply run_task_log_prefix]); done.
Qed.

Lemma reachable_from_log_prefix w w' :
  reachable_from w w' -> w_log w `prefix_of` w_log w'.
Proof. induction 1; [done|]. etrans; eauto using step_log_prefix. Qed.
End runtime.

Arguments label : clear implicits.
Arguments deny /.
Arguments accept /.

#[export] Hint Constructors step reachable_from : webui.
#[export] Hint Resolve run_task_log_prefix step_log_prefix : webui.

(** The event of the goal answers the body that was suspended last,
    whatever the number of bodies suspended before it. *)
Ltac reply_last :=
  erewrite (step_fn_reply_nth _ _ _ []);
  [rewrite ?app_nil_r|cbn; reflexivity|rewrite ?length_app; cbn; lia].
Ltac body_last :=
  erewrite (step_fn_body_nth _ _ _ []);
  [rewrite ?app_nil_r|cbn; reflexivity|rewrite ?length_app; cbn; lia].
