(* ===== verification/Invariants.v ===== *)
(** * Invariants of a component, handler by handler

    A property [J] of the hooks and of the log of a component holds in every
    reachable world as soon as it holds initially and every handler of the
    rendered tree keeps it: started where [J] holds, the handler
    re-establishes [J] each time it gives control back (at every [await]
    and at its end), given that [J] holds again when it resumes and that
    the log has only grown in between.  [keeps] is that condition, computed
    from the body of the handler; [invariant_by_handlers] is the rule. *)

From S2P Require Import Prelude Js Web Async Runtime.

Section keeps.
Context {S : Type} `{!Component S}.
Variable J : S -> list output -> Prop.

(** [keeps p Q s log]: run from hooks [s] and log [log], the body [p]
    establishes [Q] when it first gives control back, and [J] each time
    after that; the bodies it spawns and the callbacks it registers keep
    [J] too.  A rejection nobody handles is logged. *)
Fixpoint keeps {R : Type} (p : prog S R) (Q : S -> list output -> Prop)
  (s : S) (log : list output) : Prop :=
  match p with
  | Ret _ => Q s log
  | Throw e => Q s (log ++ [OUnhandled e])
  | SetState f k => keeps k Q (f s) log
  | Confirm msg k => forall b, keeps (k b) Q s (log ++ [OConfirm msg b])
  | AwaitFetch url init k =>
      Q s (log ++ [OFetch url init])
      ∧ forall o s' log', J s' log' -> (log ++ [OFetch url init]) `prefix_of` log' ->
          keeps (k o) J s' log'
  | AwaitJson r k =>
      Q s log
      ∧ forall s' log', J s' log' -> log `prefix_of` log' ->
          keeps (k (json r)) J s' log'
  | Spawn q k => keeps q (keeps k Q) s log
  | SetTimeout cb ms k =>
      (forall s' log', J s' log' -> log `prefix_of` log' -> keeps cb J s' log')
      ∧ keeps k Q s log
  | SetInterval cb ms k =>
      (forall s' log', J s' log' -> log `prefix_of` log' -> keeps cb J s' log')
      ∧ forall id, keeps (k id) Q s log
  | ClearInterval id k => keeps k Q s log
  | Dom op k => keeps k Q s (log ++ [ODom op])
  end.

(** A suspended body keeps [J] when it resumes after the log [log]. *)
Definition resumable {R : Type} (log : list output) (a : awaiting S R) : Prop :=
  match a with
  | OnFetch _ _ k =>
      forall o s' log', J s' log' -> log `prefix_of` log' -> keeps (k o) J s' log'
  | OnJson r k =>
      forall s' log', J s' log' -> log `prefix_of` log' -> keeps (k (json r)) J s' log'
  end.

Definition fireable (log : list output) (t : timer S) : Prop :=
  forall s' log', J s' log' -> log `prefix_of` log' -> keeps (t_callback t) J s' log'.

(** The suspended bodies and the timers of a world keep [J]. *)
Definition sound (w : world S) : Prop :=
  Forall (resumable (w_log w)) (w_pending w) ∧ Forall (fireable (w_log w)) (w_timers w).

(** What [keeps] promises of the outcome of a run. *)
Definition kept {R : Type} (Q : S -> list output -> Prop)
  (wo : world S * outcome S R) : Prop :=
  match wo.2 with
  | Done _ => Q (w_state wo.1) (w_log wo.1)
  | Raised e => Q (w_state wo.1) (w_log wo.1 ++ [OUnhandled e])
  | Blocked a => Q (w_state wo.1) (w_log wo.1) ∧ resumable (w_log wo.1) a
  end.

(** ** Soundness *)

Lemma resumable_prefix {R : Type} log log' (a : awaiting S R) :
  log `prefix_of` log' -> resumable log a -> resumable log' a.
Proof.
  intros Hl. destruct a; simpl; intros Ha; intros; apply Ha; auto; by etrans.
Qed.

Lemma fireable_prefix log log' t :
  log `prefix_of` log' -> fireable log t -> fireable log' t.
Proof. intros Hl Ht s' log'' ? ?. apply Ht; [done|by etrans]. Qed.

Lemma sound_prefix w w' :
  w_log w `prefix_of` w_log w' ->
  w_pending w' = w_pending w -> w_timers w' = w_timers w -> sound w -> sound w'.
Proof.
  intros Hl Hp Ht [Hps Hts]. split; rewrite ?Hp, ?Ht.
  - eapply Forall_impl; [done|]. eauto using @resumable_prefix.
  - eapply Forall_impl; [done|]. eauto using fireable_prefix.
Qed.

Lemma sound_with_state f w : sound w -> sound (with_state f w).
Proof. by apply sound_prefix. Qed.

Lemma sound_emit o w : sound w -> sound (emit o w).
Proof. apply sound_prefix; [by apply prefix_app_r|done..]. Qed.

Lemma sound_add_timer k ms cb w :
  fireable (w_log w) (mkTimer (w_next_timer w) k ms cb) ->
  sound w -> sound (add_timer k ms cb w).
Proof.
  intros Hcb [Hps Hts]. split; simpl; [done|].
  apply Forall_app. split; [done|]. by apply Forall_singleton.
Qed.

Lemma sound_remove_timer id w : sound w -> sound (remove_timer id w).
Proof.
  intros [Hps Hts]. split; simpl; [done|].
  apply Forall_forall. intros t [_ Ht]%list_elem_of_filter.
  by eapply Forall_forall in Hts.
Qed.

Lemma sound_settle (wo : world S * outcome S unit) :
  sound wo.1 -> (forall a, wo.2 = Blocked a -> resumable (w_log wo.1) a) ->
  sound (settle wo).
Proof.
  destruct wo as [w [r|e|a]]; unfold settle; simpl; intros Hw Ha; [done| |].
  - by apply sound_emit.
  - destruct Hw as [Hps Hts]. split; simpl; [|done].
    apply Forall_app. split; [done|]. apply Forall_singleton. by apply Ha.
Qed.

Lemma keeps_run {R : Type} (p : prog S R) Q ans w :
  keeps p Q (w_state w) (w_log w) -> sound w ->
  sound (run ans p w).1
  ∧ w_log w `prefix_of` w_log (run ans p w).1
  ∧ kept Q (run ans p w).
Proof.
  revert Q w.
  induction p as [R r|R e|R f k IH|R msg k IH|R url init k IH|R r k IH
                 |R q IHq k IHk|R cb IHcb ms k IH|R cb IHcb ms k IH
                 |R id k IH|R op k IH];
    intros Q w Hp Hw; simpl in *.
  - done.
  - done.
  - by apply (IH Q (with_state f w)), sound_with_state.
  - destruct (IH (ans msg) Q (emit (OConfirm msg (ans msg)) w))
      as (? & ? & ?); [done|by apply sound_emit|].
    split_and!; [done| |done]. etrans; [|done]. by apply prefix_app_r.
  - destruct Hp. split_and!; [by apply sound_emit|by apply prefix_app_r|done].
  - by destruct Hp.
  - destruct (IHq (keeps k Q) w Hp Hw) as (Hw1 & Hl1 & Hk).
    destruct (run ans q w) as [w1 o1]. unfold kept in Hk. simpl in Hw1, Hl1, Hk.
    assert (sound (settle (w1, o1)) ∧ w_log w1 `prefix_of` w_log (settle (w1, o1))
            ∧ keeps k Q (w_state (settle (w1, o1))) (w_log (settle (w1, o1))))
      as (Hws & Hls & Hks).
    { destruct o1 as [?|e|a]; unfold settle; simpl.
      - done.
      - split_and!; [by apply sound_emit|by apply prefix_app_r|done].
      - destruct Hk as [Hk Ha]. split_and!; [|done..].
        apply (sound_settle (w1, Blocked a)); [done|]. by intros ? [= <-]. }
    destruct (IHk Q _ Hks Hws) as (? & ? & ?).
    split_and!; [done| |done]. by do 2 (etrans; [|done]).
  - destruct Hp as [Hcb Hk]. by apply (IH Q (add_timer Timeout ms cb w)), sound_add_timer.
  - destruct Hp as [Hcb Hk].
    by apply (IH (w_next_timer w) Q (add_timer Interval ms cb w)), sound_add_timer.
  - by apply (IH Q (remove_timer id w)), sound_remove_timer.
  - destruct (IH Q (emit (ODom op) w)) as (? & ? & ?); [done|by apply sound_emit|].
    split_and!; [done| |done]. etrans; [|done]. by apply prefix_app_r.
Qed.

(** A world where [J] holds and that keeps it. *)
Definition good (w : world S) : Prop := J (w_state w) (w_log w) ∧ sound w.

Lemma keeps_run_task (p : prog S unit) ans w :
  keeps p J (w_state w) (w_log w) -> sound w -> good (run_task ans p w).
Proof.
  intros Hp Hw. destruct (keeps_run p J ans w Hp Hw) as (Hw1 & _ & Hk).
  unfold run_task. destruct (run ans p w) as [w1 [r|e|a]]; unfold kept in Hk; simpl in *.
  - done.
  - split; [done|by apply sound_emit].
  - destruct Hk as [Hk Ha]. split; [done|].
    apply (sound_settle (w1, Blocked a)); [done|]. by intros ? [= <-].
Qed.

Lemma sound_delete i w : sound w -> sound (with_pending (delete i) w).
Proof. intros [Hps Hts]. split; simpl; [by apply Forall_delete|done]. Qed.

(** ** The rule *)

Hypothesis J_init : J init [].
Hypothesis J_handlers :
  forall s log path ev h,
    J s log -> dispatch (render s) path ev = Some h -> keeps h J s log.

Lemma good_init : good init_world.
Proof. split; [done|]. by split. Qed.

Lemma good_step w l w' : good w -> step w l w' -> good w'.
Proof.
  intros [HJ Hw] Hstep.
  destruct Hstep as [w path ev ans h Hd|w i o ans url init k Hi
    |w i ans r k Hi|w id ans t Ht _|w id ans t Ht _].
  - apply keeps_run_task; eauto.
  - apply keeps_run_task; [|by apply sound_delete].
    destruct Hw as [Hps _]. rewrite Forall_lookup in Hps.
    by apply (Hps _ _ Hi o).
  - apply keeps_run_task; [|by apply sound_delete].
    destruct Hw as [Hps _]. rewrite Forall_lookup in Hps.
    by apply (Hps _ _ Hi).
  - apply keeps_run_task; [|by apply sound_remove_timer].
    destruct Hw as [_ Hts]. apply find_some in Ht as [Ht%list_elem_of_In _].
    rewrite Forall_forall in Hts. by apply (Hts _ Ht).
  - apply keeps_run_task; [|done].
    destruct Hw as [_ Hts]. apply find_some in Ht as [Ht%list_elem_of_In _].
    rewrite Forall_forall in Hts. by apply (Hts _ Ht).
Qed.

(** [J] holds in every reachable world of a component whose handlers keep
    it. *)
Lemma invariant_by_handlers w : reachable w -> J (w_state w) (w_log w).
Proof.
  intros Hw. apply (invariant_reachable good); eauto using good_init, good_step.
Qed.

End keeps.

Arguments keeps {S} J {R} p Q s log.
Arguments invariant_by_handlers {S _} J _ _ w _.

(** ** Properties of logs *)

(** No rejection was left unhandled. *)
Definition handled (log : list output) : Prop :=
  forall e, OUnhandled e ∉ log.

Section confirmed.
(** The outputs that need the consent of the user, and the dialogs that
    give it. *)
Variable needs_consent : output -> bool.
Variable allows : string -> output -> bool.

(** Every output of the log that needs consent comes after a dialog for
    it that the user accepted. *)
Definition confirmed (log : list output) : Prop :=
  forall pre o post, log = pre ++ o :: post -> needs_consent o = true ->
    exists msg, OConfirm msg true ∈ pre ∧ allows msg o = true.

Lemma confirmed_nil : confirmed [].
Proof. intros pre o post Heq. by destruct pre. Qed.

Lemma confirmed_snoc log o :
  confirmed log ->
  (needs_consent o = true ->
   exists msg, OConfirm msg true ∈ log ∧ allows msg o = true) ->
  confirmed (log ++ [o]).
Proof.
  intros Hlog Ho pre o' post Heq Hd.
  destruct post as [|o'' post _] using rev_ind.
  - apply app_inj_tail in Heq as [-> ->]. auto.
  - rewrite app_comm_cons, app_assoc in Heq. apply app_inj_tail in Heq as [-> _].
    by apply (Hlog pre o' post).
Qed.

Lemma confirmed_prefix log log' : log `prefix_of` log' -> confirmed log' -> confirmed log.
Proof.
  intros [k ->] Hlog pre o post -> Hd.
  apply (Hlog pre o (post ++ k)); [|done]. by rewrite <-app_assoc.
Qed.
End confirmed.

(** Every output of the log is one that [P] allows after the outputs
    before it. *)
Definition each_after (P : list output -> output -> Prop) (log : list output) : Prop :=
  forall pre o post, log = pre ++ o :: post -> P pre o.

Lemma each_after_nil P : each_after P [].
Proof. intros pre o post Heq. by destruct pre. Qed.

Lemma each_after_snoc P log o : each_after P log -> P log o -> each_after P (log ++ [o]).
Proof.
  intros Hlog Ho pre o' post Heq.
  destruct post as [|o'' post _] using rev_ind.
  - by apply app_inj_tail in Heq as [-> ->].
  - rewrite app_comm_cons, app_assoc in Heq. apply app_inj_tail in Heq as [-> _].
    by apply (Hlog pre o' post).
Qed.

Lemma handled_nil : handled [].
Proof. intros e. apply not_elem_of_nil. Qed.

Lemma handled_snoc log o :
  handled log -> (forall e, o ≠ OUnhandled e) -> handled (log ++ [o]).
Proof.
  intros Hlog Ho e [?|?%list_elem_of_singleton]%elem_of_app; [by apply (Hlog e)|].
  by apply (Ho e).
Qed.

(** ** Walking through a body *)

(** Unfolds [keeps] along a handler, one goal per place where the handler
    gives control back, in the context of what was known before. *)
Ltac keeps_walk :=
  repeat first
    [ progress cbn
    | match goal with
      | |- _ ∧ _ => split
      | |- forall _, _ => intro
      | |- keeps _ ?p _ _ _ =>
          match p with
          | context [if negb ?x then _ else _] => destruct x eqn:?
          | context [match ?x with _ => _ end] => destruct x eqn:?
          | context [settled ?x] => destruct x eqn:?
          end
      end ].

(** [x ∈ log] from the prefixes in the context. *)
Ltac in_log :=
  repeat first
    [ assumption
    | apply elem_of_app; right; apply list_elem_of_singleton; reflexivity
    | apply elem_of_app; left
    | match goal with
      | H : ?l `prefix_of` ?l' |- _ ∈ ?l' => apply (elem_of_prefix l l' _); [|exact H]
      end ].
