(* ===== verification/Embedding.v ===== *)
(** * A component inside another

    A parent component that renders a child holds the hooks of the child
    in its own state and runs the handlers of the child on them
    ([prog_lift]).  This file shows that a child mounted in a parent moves
    as the child alone does ([step_fn_embed]), and that a property of the
    log that the handlers of the child keep is kept by them in the parent
    ([keeps_prog_lift]). *)

From S2P Require Import Prelude Js Web Async Runtime Invariants.

(** ** Definitions *)

Section lift.
Context {C S : Type} (upd : (C -> C) -> S -> S).

Definition awaiting_lift {R : Type} (a : awaiting C R) : awaiting S R :=
  match a with
  | OnFetch url init k => OnFetch url init (fun o => prog_lift upd (k o))
  | OnJson r k => OnJson r (fun o => prog_lift upd (k o))
  end.

Definition outcome_lift {R : Type} (o : outcome C R) : outcome S R :=
  match o with
  | Done r => Done r
  | Raised e => Raised e
  | Blocked a => Blocked (awaiting_lift a)
  end.

Definition timer_lift (t : timer C) : timer S :=
  mkTimer (t_id t) (t_kind t) (t_ms t) (prog_lift upd (t_callback t)).

(** The world of the parent that holds the world [w] of the child and
    nothing else: [inj] gives the hooks of the parent from those of the
    child. *)
Definition embed (inj : C -> S) (w : world C) : world S :=
  mkWorld (inj (w_state w)) (awaiting_lift <$> w_pending w)
    (timer_lift <$> w_timers w) (w_next_timer w) (w_log w).
End lift.

(** An event of the child, as an event of the parent whose tree has the
    tree of the child at [place]. *)
Definition label_under (place : list nat) (l : label) : label :=
  match l with
  | LUser path ev ans => LUser (place ++ path) ev ans
  | _ => l
  end.

(** ** The child in the parent moves as the child alone *)

Section embed.
Context {C S : Type} `{!Component C, !Component S}.
Variable upd : (C -> C) -> S -> S.
Variable inj : C -> S.
Variable place : list nat.

Hypothesis upd_inj : forall f c, upd f (inj c) = inj (f c).
Hypothesis render_inj :
  forall c path ev,
    dispatch (render (inj c)) (place ++ path) ev
    = prog_lift upd <$> dispatch (render c) path ev.

#[local] Abbreviation emb := (embed upd inj).

Lemma settle_embed (w : world C) (o : outcome C unit) :
  settle (emb w, outcome_lift upd o) = emb (settle (w, o)).
Proof.
  destruct o as [r|e|a]; unfold settle, embed; simpl; [done..|].
  by rewrite fmap_app.
Qed.

Lemma remove_timer_embed id (w : world C) :
  remove_timer id (emb w) = emb (remove_timer id w).
Proof.
  unfold remove_timer, embed. simpl. f_equal.
  induction (w_timers w) as [|t ts IH]; [done|]. rewrite fmap_cons. simpl.
  rewrite !filter_cons. simpl. case_decide; simpl; by rewrite IH.
Qed.

Lemma run_embed {R : Type} ans (p : prog C R) (w : world C) :
  run ans (prog_lift upd p) (emb w)
  = (emb (run ans p w).1, outcome_lift upd (run ans p w).2).
Proof.
  revert w.
  induction p as [R r|R e|R f k IH|R msg k IH|R url init k IH|R r k IH
                 |R q IHq k IHk|R cb IHcb ms k IH|R cb IHcb ms k IH
                 |R id k IH|R op k IH];
    intros w; simpl; try done.
  - rewrite <-IH. f_equal. unfold with_state, embed. simpl. by rewrite upd_inj.
  - by rewrite <-IH.
  - by rewrite IHq, settle_embed, <-IHk.
  - rewrite <-IH. f_equal. unfold add_timer, embed. simpl. by rewrite fmap_app.
  - rewrite <-IH. f_equal. unfold add_timer, embed. simpl. by rewrite fmap_app.
  - by rewrite <-IH, remove_timer_embed.
  - by rewrite <-IH.
Qed.

Lemma run_task_embed ans (p : prog C unit) (w : world C) :
  run_task ans (prog_lift upd p) (emb w) = emb (run_task ans p w).
Proof.
  unfold run_task. rewrite run_embed, settle_embed. by destruct (run ans p w).
Qed.

Lemma find_timer_embed id (w : world C) :
  find_timer id (emb w) = timer_lift upd <$> find_timer id w.
Proof.
  unfold find_timer, embed. simpl.
  induction (w_timers w) as [|t ts IH]; [done|]. simpl.
  case_bool_decide; [done|apply IH].
Qed.

(** One event. *)
Lemma step_fn_embed l (w : world C) :
  step_fn (label_under place l) (emb w) = emb <$> step_fn l w.
Proof.
  destruct l as [path ev ans|i o ans|i ans|id ans]; simpl.
  - rewrite render_inj. destruct (dispatch (render (w_state w)) path ev); simpl; [|done].
    by rewrite run_task_embed.
  - rewrite list_lookup_fmap. destruct (w_pending w !! i) as [[url init k|r k]|]; simpl;
      [|done..].
    rewrite <-run_task_embed. do 2 f_equal. unfold with_pending, embed. simpl.
    by rewrite list_fmap_delete.
  - rewrite list_lookup_fmap. destruct (w_pending w !! i) as [[url init k|r k]|]; simpl;
      [done| |done].
    rewrite <-run_task_embed. do 2 f_equal. unfold with_pending, embed. simpl.
    by rewrite list_fmap_delete.
  - rewrite find_timer_embed. destruct (find_timer id w) as [t|]; simpl; [|done].
    rewrite <-run_task_embed. do 2 f_equal.
    destruct (t_kind t); [by rewrite remove_timer_embed|done].
Qed.

(** Any sequence of events. *)
Lemma run_trace_embed ls (w : world C) :
  run_trace (label_under place <$> ls) (emb w) = emb <$> run_trace ls w.
Proof.
  revert w. induction ls as [|l ls IH]; intros w; simpl; [done|].
  rewrite step_fn_embed. destruct (step_fn l w) as [w'|]; simpl; [apply IH|done].
Qed.
End embed.

(** ** Properties of the log *)

Section keeps_lift.
Context {C S : Type} (upd : (C -> C) -> S -> S).
Variable L : list output -> Prop.

(** A property of the log alone that a body of the child keeps, the body
    keeps in the parent. *)
Lemma keeps_prog_lift {R : Type} (p : prog C R)
    (Q : C -> list output -> Prop) (Q' : S -> list output -> Prop) c s log :
  (forall c s l, Q c l -> Q' s l) ->
  keeps (fun _ => L) p Q c log ->
  keeps (fun _ => L) (prog_lift upd p) Q' s log.
Proof.
  revert Q Q' c s log.
  induction p as [R r|R e|R f k IH|R msg k IH|R url init k IH|R r k IH
                 |R q IHq k IHk|R cb IHcb ms k IH|R cb IHcb ms k IH
                 |R id k IH|R op k IH];
    intros Q Q' c s log HQ; simpl; eauto.
  - intros [HQ1 Hk]. split; [eauto|]. intros o s' log' HL Hpre.
    apply (IH o (fun _ => L) (fun _ => L) c); [done|by apply Hk].
  - intros [HQ1 Hk]. split; [eauto|]. intros s' log' HL Hpre.
    apply (IH (json r) (fun _ => L) (fun _ => L) c); [done|by apply Hk].
  - intros [Hcb Hk]. split; [|eauto]. intros s' log' HL Hpre.
    apply (IHcb (fun _ => L) (fun _ => L) c); [done|by apply Hcb].
  - intros [Hcb Hk]. split; [|eauto]. intros s' log' HL Hpre.
    apply (IHcb (fun _ => L) (fun _ => L) c); [done|by apply Hcb].
Qed.
End keeps_lift.
