(* ===== verification/Client.v ===== *)
(** * The HTTP client ([api/client.ts])

    [ApiClient.request], [uploadDocument] and the endpoint methods as
    bodies over any component state (the client touches none), and the
    data types the file exports.  [exec] ([Runtime]) gives the result of a
    call for each way the network can answer. *)

From S2P Require Import Prelude Js Web Async Runtime.

#[local] Open Scope string_scope.
#[local] Open Scope list_scope.

(** ** Configuration *)

(** The build-time environment: [import.meta.env.VITE_API_BASE], absent
    when the variable is not set. *)
Class Env : Type := { VITE_API_BASE : option string }.

(** A build without the variable. *)
Definition default_env : Env := {| VITE_API_BASE := None |}.

(** [const API_BASE = import.meta.env.VITE_API_BASE || '/api'] *)
Definition API_BASE `{Env} : string :=
  match VITE_API_BASE with
  | Some base => if str_falsy base then "/api" else base
  | None => "/api"
  end.

(** Two paths under the base are the same URL only if they are equal. *)
Lemma url_eq `{Env} (e1 e2 : string) :
  bool_decide (API_BASE +:+ e1 = API_BASE +:+ e2) = bool_decide (e1 = e2).
Proof. apply bool_decide_ext. split; [apply String.app_inj|by intros ->]. Qed.

(** ** Exported data *)

Inductive Role : Type := user | assistant.

#[export] Instance Role_eq_dec : EqDecision Role.
Proof. solve_decision. Defined.

(** [interface ChatMessage].  The [content] of an assistant message is
    whatever the reply holds under [response]; the declared type [string]
    is not checked when the program runs. *)
Record ChatMessage : Type := mkMessage {
  role : Role;
  content : jsval;
}.

#[export] Instance ChatMessage_eq_dec : EqDecision ChatMessage.
Proof. solve_decision. Defined.

Definition role_to_js (r : Role) : jsval :=
  JStr (match r with user => "user" | assistant => "assistant" end).

(** A message as the object [JSON.stringify] receives. *)
Definition message_to_js (m : ChatMessage) : jsval :=
  JObj [("role", role_to_js (role m)); ("content", content m)].

(** [interface Document] *)
Record Document : Type := mkDocument {
  name : string;
  size : Z;
  last_modified : option string;
}.

#[export] Instance Document_eq_dec : EqDecision Document.
Proof. solve_decision. Defined.

(** A document as the backend sends it in the list of [GET /documents]. *)
Definition document_to_js (d : Document) : jsval :=
  JObj [("name", JStr (name d)); ("size", JNum (size d));
        ("last_modified", from_option JStr JNull (last_modified d))].

(** ** [class ApiClient] *)

Module ApiClient.
Section client.
Context `{Env} {S : Type}.

(** [{ ...options, headers: { 'Content-Type': 'application/json',
    ...options?.headers } }] *)
Definition request_init (options : option RequestInit) : RequestInit :=
  {| method := options ≫= method;
     body := options ≫= body;
     headers :=
       Some (obj_spread [("Content-Type", "application/json")]
               (default [] (options ≫= headers))) |}.

(** The error a failed response is turned into:
    [const error = await response.json().catch(() => ({ detail: fallback }));
     throw new Error(error.detail || fallback)]. *)
Definition throw_detail {A} (response : Response) (fallback : string) : prog S A :=
  error ← (try response_json response
           catch _ => mret (JObj [("detail", JStr fallback)]))%prog;
  detail ← settled (get_prop error "detail");
  Throw (new_Error (js_or detail (JStr fallback))).

(** [private async request<T>(endpoint, options?)] *)
Definition request (endpoint : string) (options : option RequestInit)
  : prog S jsval :=
  response ← fetch (API_BASE +:+ endpoint) (request_init options);
  if negb (ok response) then throw_detail response "Request failed"
  else response_json response.

(** [async uploadDocument(file)] *)
Definition uploadDocument (file : File) : prog S jsval :=
  let formData := [("file", file)] in
  response ← fetch (API_BASE +:+ "/documents/upload")
               {| method := Some "POST"; headers := None;
                  body := Some (BodyForm formData) |};
  if negb (ok response) then throw_detail response "Upload failed"
  else response_json response.

(** [{ method: 'POST', body: JSON.stringify(v) }] *)
Definition post_json (v : jsval) : option RequestInit :=
  Some {| method := Some "POST"; headers := None;
          body := Some (BodyJson (JSON_stringify v)) |}.

Definition post_empty : option RequestInit :=
  Some {| method := Some "POST"; headers := None; body := None |}.

Definition listDocuments : prog S jsval := request "/documents" None.

Definition deleteDocument (fileName : string) : prog S jsval :=
  request ("/documents/" +:+ encodeURIComponent fileName)
    (Some {| method := Some "DELETE"; headers := None; body := None |}).

(** An omitted argument of a parameter with a default is [None]. *)
Definition search (query : string) (useVector : option bool) (top : option Z)
  : prog S jsval :=
  request "/search"
    (post_json (JObj [("query", JStr query);
                      ("use_vector", JBool (default false useVector));
                      ("top", JNum (default 5%Z top))])).

Definition summarize (text : string) (maxLength : option Z) : prog S jsval :=
  request "/ai/summarize"
    (post_json (JObj [("text", JStr text);
                      ("max_length", JNum (default 500%Z maxLength))])).

Definition askQuestion (question : string) (context : option string) : prog S jsval :=
  request "/ai/question"
    (post_json (JObj [("question", JStr question);
                      ("context", from_option JStr JUndefined context)])).

Definition chat (messages : list ChatMessage) (useSearch useSemantic : option bool)
  : prog S jsval :=
  request "/ai/chat"
    (post_json (JObj [("messages", JArr (message_to_js <$> messages));
                      ("use_search", JBool (default false useSearch));
                      ("use_semantic", JBool (default false useSemantic))])).

Definition createIndex : prog S jsval := request "/admin/create-index" post_empty.

Definition reindexAll : prog S jsval := request "/admin/reindex-all" post_empty.

Definition adminAuth (password : string) : prog S jsval :=
  request "/admin/auth" (post_json (JObj [("password", JStr password)])).

Definition clearSearch (password : string) : prog S jsval :=
  request "/admin/clear-search" (post_json (JObj [("password", JStr password)])).

Definition clearStorage (password : string) : prog S jsval :=
  request "/admin/clear-storage" (post_json (JObj [("password", JStr password)])).

(** ** What a call promises *)

(** The error a response that is not [ok] becomes: an [Error] with the
    [detail] of its JSON body when that is truthy, with the fallback when
    the body is not JSON or has no truthy [detail]; the [TypeError] of
    reading [detail] when the body is [null]. *)
Definition error_of_response (fallback : string) (r : Response) : thrown :=
  match json r with
  | Err _ => new_Error (JStr fallback)
  | Ok error =>
      match get_prop error "detail" with
      | Ok detail => new_Error (js_or detail (JStr fallback))
      | Err e => e
      end
  end.

(** What the promise of a call settles with, for each way the request can
    end: a rejected [fetch], a response that is not [ok], a response that
    is [ok] (its body, or the rejection of [json()]). *)
Definition call_result (fallback : string) (o : result thrown Response)
  : result thrown jsval :=
  match o with
  | Err e => Err e
  | Ok r => if ok r then json r else Err (error_of_response fallback r)
  end.

(** A body that sends exactly one request and settles by [call_result]. *)
Definition round_trip (url : string) (init : RequestInit) (fallback : string)
  (p : prog S jsval) : Prop :=
  forall net ans w,
    exec net ans p w = (emit (OFetch url init) w, call_result fallback (net url init)).

(** The [RequestInit] of a JSON call with the given method and the text
    of the given value as its body. *)
Definition json_init (m : option string) (b : option jsval) : RequestInit :=
  {| method := m;
     headers := Some [("Content-Type", "application/json")];
     body := BodyJson ∘ JSON_stringify <$> b |}.

(** The message of the error a response that is not [ok] becomes, when
    its JSON body is an object with the given fields. *)
Definition detail_message (fallback : string) (fields : list (string * jsval))
  : string :=
  match assoc_lookup "detail" fields with
  | Some detail => if truthy detail then to_string detail else fallback
  | None => fallback
  end.

Lemma request_round_trip endpoint options :
  round_trip (API_BASE +:+ endpoint) (request_init options) "Request failed"
    (request endpoint options).
Proof.
  intros net ans w. unfold request, call_result, error_of_response. simpl.
  destruct (net _ _) as [r|e]; simpl; [|done].
  destruct (ok r); simpl; [by destruct (json r)|].
  destruct (json r) as [error|e]; simpl; [|done].
  by destruct (get_prop error "detail").
Qed.

Lemma uploadDocument_round_trip file :
  round_trip (API_BASE +:+ "/documents/upload")
    {| method := Some "POST"; headers := None;
       body := Some (BodyForm [("file", file)]) |}
    "Upload failed" (uploadDocument file).
Proof.
  intros net ans w. unfold uploadDocument, call_result, error_of_response. simpl.
  destruct (net _ _) as [r|e]; simpl; [|done].
  destruct (ok r); simpl; [by destruct (json r)|].
  destruct (json r) as [error|e]; simpl; [|done].
  by destruct (get_prop error "detail").
Qed.

(** ** The contract with the backend *)

(** C22. Every endpoint method sends exactly one request, to the path
    and with the method and JSON body the backend expects, with the header
    [Content-Type: application/json], and settles with the body of an [ok]
    response or rejects with the error of the response. *)
Theorem endpoints_round_trip :
  let call url m b := round_trip (API_BASE +:+ url) (json_init m b) "Request failed" in
  call "/documents" None None listDocuments
  ∧ (forall fileName,
       call ("/documents/" +:+ encodeURIComponent fileName) (Some "DELETE") None
         (deleteDocument fileName))
  ∧ (forall query useVector top,
       call "/search" (Some "POST")
         (Some (JObj [("query", JStr query);
                      ("use_vector", JBool (default false useVector));
                      ("top", JNum (default 5%Z top))]))
         (search query useVector top))
  ∧ (forall text maxLength,
       call "/ai/summarize" (Some "POST")
         (Some (JObj [("text", JStr text);
                      ("max_length", JNum (default 500%Z maxLength))]))
         (summarize text maxLength))
  ∧ (forall question context,
       call "/ai/question" (Some "POST")
         (Some (JObj [("question", JStr question);
                      ("context", from_option JStr JUndefined context)]))
         (askQuestion question context))
  ∧ (forall messages useSearch useSemantic,
       call "/ai/chat" (Some "POST")
         (Some (JObj [("messages", JArr (message_to_js <$> messages));
                      ("use_search", JBool (default false useSearch));
                      ("use_semantic", JBool (default false useSemantic))]))
         (chat messages useSearch useSemantic))
  ∧ call "/admin/create-index" (Some "POST") None createIndex
  ∧ call "/admin/reindex-all" (Some "POST") None reindexAll
  ∧ (forall password,
       call "/admin/auth" (Some "POST")
         (Some (JObj [("password", JStr password)])) (adminAuth password))
  ∧ (forall password,
       call "/admin/clear-search" (Some "POST")
         (Some (JObj [("password", JStr password)])) (clearSearch password))
  ∧ (forall password,
       call "/admin/clear-storage" (Some "POST")
         (Some (JObj [("password", JStr password)])) (clearStorage password)).
Proof. split_and!; intros; apply request_round_trip. Qed.

(** C24. [uploadDocument] posts the file as the single entry [file] of
    a form, sets no [Content-Type] of its own, and settles like [request]
    with the fallback message of uploads. *)
Theorem uploadDocument_posts_form file net ans (w : world S) :
  exec net ans (uploadDocument file) w
  = (emit (OFetch (API_BASE +:+ "/documents/upload")
             {| method := Some "POST"; headers := None;
                body := Some (BodyForm [("file", file)]) |}) w,
     call_result "Upload failed"
       (net (API_BASE +:+ "/documents/upload")
          {| method := Some "POST"; headers := None;
             body := Some (BodyForm [("file", file)]) |})).
Proof. apply uploadDocument_round_trip. Qed.

(** C23. The error of a response that is not [ok]: when the body is a
    JSON object, its message is the [detail] of the body converted to a
    string if that is truthy, and ["Request failed"] otherwise; when the
    body is not JSON the message is ["Request failed"]. *)
Theorem failed_request_message endpoint options net ans (w : world S) r :
  net (API_BASE +:+ endpoint) (request_init options) = Ok r -> ok r = false ->
  (forall fields, json r = Ok (JObj fields) ->
     (exec net ans (request endpoint options) w).2
     = Err (ErrorObj "Error" (detail_message "Request failed" fields)))
  ∧ (forall e, json r = Err e ->
       (exec net ans (request endpoint options) w).2
       = Err (ErrorObj "Error" "Request failed")).
Proof.
  intros Hnet Hok. rewrite request_round_trip, Hnet. simpl.
  unfold error_of_response, detail_message. rewrite Hok.
  split; [intros fields ->|by intros e ->]. simpl.
  destruct (assoc_lookup "detail" fields) as [detail|]; [|done]. simpl.
  unfold js_or, new_Error. destruct (truthy detail) eqn:Ht; [|done].
  by destruct detail.
Qed.

(** C25. The request [deleteDocument] sends names the document in one
    path segment after [/documents/]: the segment holds unreserved
    characters and [%XX] escapes only, so no character of the name can
    end the segment or start a query, and decoding the segment gives the
    name back. *)
Theorem deleteDocument_names_one_document fileName :
  exists segment,
    round_trip (API_BASE +:+ "/documents/" +:+ segment)
      (json_init (Some "DELETE") None) "Request failed" (deleteDocument fileName)
    ∧ string_forallb uri_safe segment = true
    ∧ decodeURIComponent segment = Some fileName.
Proof.
  exists (encodeURIComponent fileName).
  split_and!; [apply request_round_trip|apply encodeURIComponent_safe|].
  apply decode_encodeURIComponent.
Qed.
End client.
End ApiClient.

(** ** Answered calls in a trace *)

(** One answered request of a handler that is suspended last: the answer
    [o] is split into its cases (a rejected [fetch], a response that is
    [ok] or not, a body that is JSON or not), and the handler is run
    through each. *)
Ltac answer_step o :=
  unfold ApiClient.call_result, ApiClient.error_of_response;
  destruct o as [?r|?e]; cbn [answer run_trace app];
  erewrite step_fn_reply_last by reflexivity; unfold run_task; cbn -[step_fn];
  [ match goal with |- context [ok ?r] => destruct (ok r) end; cbn -[step_fn];
    erewrite step_fn_body_last by reflexivity; unfold run_task; cbn -[step_fn];
    match goal with |- context [json ?r] => destruct (json r) as [?v|?e] end;
    cbn -[step_fn];
    try match goal with
        | |- context [get_prop ?v "detail"] =>
            destruct (get_prop v "detail"); cbn -[step_fn]
        end
  | ].

(** ** The theorems at sample answers *)

#[local] Existing Instance default_env.

(** The answer of the backend to a request that fails validation: its
    [detail] is a list of objects. *)
Definition r_invalid : Response :=
  mkResponse false
    (Ok (JObj [("detail",
                JArr [JObj [("loc", JArr [JStr "body"; JStr "messages"]);
                            ("msg", JStr "field required");
                            ("type", JStr "value_error.missing")]])])).

Definition always (r : Response) : network := fun _ _ => Ok r.

(** A component without hooks, to run the client in. *)
Definition no_hooks : world unit := mkWorld tt [] [] 0 [].

Lemma failed_request_message_witness :
  (exec (always r_invalid) deny (ApiClient.request "/ai/chat" None) no_hooks).2
  = Err (ErrorObj "Error" "[object Object]").
Proof.
  by apply (proj1 (ApiClient.failed_request_message "/ai/chat" None
                     (always r_invalid) deny no_hooks r_invalid eq_refl eq_refl)
              [("detail",
                JArr [JObj [("loc", JArr [JStr "body"; JStr "messages"]);
                            ("msg", JStr "field required");
                            ("type", JStr "value_error.missing")]])]).
Defined.
