(* ===== verification/ChatPanel.v ===== *)
(** * The chat panel ([components/Chat.tsx])

    The five hooks of [Chat], its handlers as bodies over them, and the
    tree it returns.  The theorems give what each handler does on each
    branch, what the replies of the backend do to a conversation that other
    events have changed in the meantime, and the invariants of every
    reachable world of the panel. *)

From S2P Require Import Prelude Js Web Async Runtime Client.

#[local] Open Scope string_scope.
#[local] Open Scope list_scope.

Module Chat.

(** ** State *)

(** The [useState] hooks of lines 5 to 9. *)
Record State : Type := mkState {
  messages : list ChatMessage;
  input : string;
  useSearch : bool;
  loading : bool;
  error : option string;
}.

#[export] Instance State_eq_dec : EqDecision State.
Proof. solve_decision. Defined.

Definition setMessages (v : list ChatMessage) (s : State) : State :=
  mkState v (input s) (useSearch s) (loading s) (error s).
Definition setInput (v : string) (s : State) : State :=
  mkState (messages s) v (useSearch s) (loading s) (error s).
Definition setUseSearch (v : bool) (s : State) : State :=
  mkState (messages s) (input s) v (loading s) (error s).
Definition setLoading (v : bool) (s : State) : State :=
  mkState (messages s) (input s) (useSearch s) v (error s).
Definition setError (v : option string) (s : State) : State :=
  mkState (messages s) (input s) (useSearch s) (loading s) v.

(** The initial values of the hooks. *)
Definition initial : State := mkState [] "" true false None.

Section chat.
Context `{Env}.

(** ** Handlers *)

(** Each handler is a function of the state of the render it belongs to. *)

Definition handleSend (s : State) : prog State unit :=
  if str_falsy (trim (input s)) || loading s then mret tt
  else
    let userMessage := mkMessage user (JStr (input s)) in
    let newMessages := messages s ++ [userMessage] in
    set_state (setMessages newMessages);;
    set_state (setInput "");;
    set_state (setLoading true);;
    set_state (setError None);;
    (try
       response ← ApiClient.chat newMessages (Some (useSearch s)) None;
       reply ← settled (get_prop response "response");
       let assistantMessage := mkMessage assistant reply in
       set_state (setMessages (newMessages ++ [assistantMessage]))
     catch err =>
       set_state (setError (Some (error_message_or err "応答の取得に失敗しました")))
     finally
       set_state (setLoading false))%prog.

Definition handleKeyPress (s : State) (e : dom_event) : prog State unit :=
  if bool_decide (key e = "Enter") && negb (shiftKey e) then
    dom PreventDefault;;
    spawn (handleSend s)
  else mret tt.

Definition clearChat : prog State unit :=
  set_state (setMessages []);;
  set_state (setError None).

(** ** The rendered tree *)

Definition render_message (msg : ChatMessage) : vnode (prog State unit) :=
  VElem "div"
    [("className", AStr ("message " +:+ to_string (role_to_js (role msg))))] []
    [ (if bool_decide (role msg = assistant) then
         VElem "div"
           [("style", AStyle [("fontSize", "12px"); ("marginBottom", "8px");
                              ("opacity", "0.7"); ("color", "var(--primary)")])] []
           [VText "🤖 AI"]
       else VNone);
      VExpr (content msg) ].

Definition render_empty : vnode (prog State unit) :=
  VElem "div" [("className", AStr "chat-empty")] []
    [ VElem "div" [("className", AStr "chat-empty-icon")] [] [VText "🤖"];
      VElem "h3" [("style", AStyle [("marginBottom", "10px");
                                    ("color", "var(--primary)")])] []
        [VText "AIアシスタント"];
      VElem "p" [] [] [VText "アップロードしたドキュメントについて"];
      VElem "p" [] [] [VText "なんでも質問してください"];
      VElem "div" [("style", AStyle [("marginTop", "20px"); ("fontSize", "13px")])] []
        [ VElem "p" [("style", AStyle [("marginBottom", "8px")])] [] [VText "💡 質問例:"];
          VElem "p" [] [] [VText "「この資料の要点を教えて」"];
          VElem "p" [] [] [VText "「〇〇について詳しく説明して」"] ] ].

Definition render_thinking : vnode (prog State unit) :=
  VElem "div" [("className", AStr "message thinking")] []
    [ VElem "div"
        [("style", AStyle [("fontSize", "12px"); ("marginBottom", "8px");
                           ("opacity", "0.7"); ("color", "var(--secondary)")])] []
        [VText "🤖 AI が思考中..."];
      VElem "div" [("className", AStr "thinking-dots")] []
        [VElem "span" [] [] []; VElem "span" [] [] []; VElem "span" [] [] []] ].

(** The [return] of lines 53 to 141. *)
Definition Chat (s : State) : vnode (prog State unit) :=
  VElem "div" [("className", AStr "chat-container fade-in")] []
    [ and_then (error s) (fun e =>
        VElem "div" [("className", AStr "error")] [] [VText e]);
      VElem "div" [("className", AStr "chat-messages")] []
        [ if bool_decide (length (messages s) = 0) then render_empty
          else
            VFrag
              [ VFrag (render_message <$> messages s);
                (if loading s then render_thinking else VNone);
                VElem "div" [] [] [] ] ];
      VElem "div" [("className", AStr "chat-input-area")] []
        [ VElem "div" [("className", AStr "chat-options")] []
            [ VElem "label" [("className", AStr "toggle-label")] []
                [ VElem "span" [("className", AStr "toggle")] []
                    [ VElem "input"
                        [("type", AStr "checkbox"); ("checked", ABool (useSearch s))]
                        [(OnChange, fun e => set_state (setUseSearch (target_checked e)))]
                        [];
                      VElem "span" [("className", AStr "toggle-slider")] [] [] ];
                  VElem "span" [] [] [VText "📚 ドキュメント検索を使用（RAG）"] ];
              VElem "button"
                [("className", AStr "btn btn-secondary btn-sm");
                 ("style", AStyle [("opacity",
                                    if bool_decide (0 < length (messages s))
                                    then "1" else "0.5")])]
                [(OnClick, fun _ => clearChat)]
                [VText "🗑️ チャットをクリア"] ];
          VElem "div" [("className", AStr "chat-input")] []
            [ VElem "input"
                [("type", AStr "text");
                 ("placeholder", AStr "メッセージを入力... (Enterで送信)");
                 ("value", AStr (input s));
                 ("disabled", ABool (loading s))]
                [(OnChange, fun e => set_state (setInput (target_value e)));
                 (OnKeyPress, handleKeyPress s)]
                [];
              VElem "button"
                [("className", AStr "btn btn-primary");
                 ("disabled", ABool (loading s || str_falsy (trim (input s))))]
                [(OnClick, fun _ => handleSend s)]
                [VText (if loading s then "⏳" else "🚀"); VText " 送信"] ] ] ].

#[export] Instance chat_component : Component State :=
  {| init := initial; render := Chat |}.

(** Where the controls are in the tree. *)
Definition at_search_toggle : list nat := [2; 0; 0; 0; 0].
Definition at_clear : list nat := [2; 0; 1].
Definition at_input : list nat := [2; 1; 0].
Definition at_send : list nat := [2; 1; 1].

(** ** What the handlers promise *)

(** The guard of [handleSend] lets the message through. *)
Definition can_send (s : State) : bool :=
  negb (str_falsy (trim (input s)) || loading s).

(** The history a send from the state [s] posts: what was shown, and the
    text of the input as the last message. *)
Definition history_sent (s : State) : list ChatMessage :=
  messages s ++ [mkMessage user (JStr (input s))].

(** The request of a send from the state [s]. *)
Definition chat_request (s : State) : output :=
  OFetch (API_BASE +:+ "/ai/chat")
    {| method := Some "POST";
       headers := Some [("Content-Type", "application/json")];
       body := Some (BodyJson (JSON_stringify (JObj
         [("messages", JArr (message_to_js <$> history_sent s));
          ("use_search", JBool (useSearch s));
          ("use_semantic", JBool false)]))) |}.

(** The hooks right after a send from [s]. *)
Definition sent (s : State) : State :=
  mkState (history_sent s) "" (useSearch s) true None.

(** The reply a call that settled with [res] holds: the [response] of
    the body, or what reading it throws. *)
Definition reply_of (res : result thrown jsval) : result thrown jsval :=
  match res with
  | Ok response => get_prop response "response"
  | Err e => Err e
  end.

(** What the end of a call does to the hooks, [s0] being the state the
    send was made from: the reply joins the history that was posted, or
    the message of the error is shown; the panel stops loading. *)
Definition settle_reply (s0 : State) (res : result thrown jsval) (s : State) : State :=
  match reply_of res with
  | Ok reply =>
      setLoading false
        (setMessages (history_sent s0 ++ [mkMessage assistant reply]) s)
  | Err e =>
      setLoading false
        (setError (Some (error_message_or e "応答の取得に失敗しました")) s)
  end.

(** The bodies a panel can have suspended: [handleSend] of a state [s0]
    that passed its guard, waiting for the response ([None]) or reading
    the body of the response [r] ([Some r]). *)
Inductive chat_pending : State -> option Response -> awaiting State unit -> Prop :=
| pending_reply s0 a :
    can_send s0 = true -> suspends_as (handleSend s0) a ->
    chat_pending s0 None a
| pending_body s0 a r a' :
    chat_pending s0 None a -> suspends_as (resume a (Ok r)) a' ->
    chat_pending s0 (Some r) a'.

(** The events the rendered panel reacts to, with what they run. *)
Inductive chat_event (s : State) : list nat -> dom_event -> prog State unit -> Prop :=
| ev_toggle ev :
    kind ev = OnChange ->
    chat_event s at_search_toggle ev (set_state (setUseSearch (target_checked ev)))
| ev_clear ev :
    kind ev = OnClick -> chat_event s at_clear ev clearChat
| ev_type ev :
    kind ev = OnChange -> loading s = false ->
    chat_event s at_input ev (set_state (setInput (target_value ev)))
| ev_key ev :
    kind ev = OnKeyPress -> loading s = false ->
    chat_event s at_input ev (handleKeyPress s ev)
| ev_send ev :
    kind ev = OnClick -> can_send s = true ->
    chat_event s at_send ev (handleSend s).

(** ** Invariant *)

(** Every assistant message answers a user message: it is never first
    and never follows another assistant message. *)
Fixpoint answered_in_turn (after_user : bool) (ms : list ChatMessage) : bool :=
  match ms with
  | [] => true
  | m :: ms' =>
      match role m with
      | user => answered_in_turn true ms'
      | assistant => after_user && answered_in_turn false ms'
      end
  end.

Definition well_formed (ms : list ChatMessage) : bool := answered_in_turn false ms.

(** What the panel has done to the outside: posted histories, and
    suppressed the default action of the Enter key. *)
Definition chat_output (o : output) : Prop :=
  (exists s0, can_send s0 = true ∧ well_formed (messages s0) = true
              ∧ o = chat_request s0)
  ∨ o = ODom PreventDefault.

Record chat_inv (w : world State) : Prop := {
  inv_timers : w_timers w = [];
  inv_messages : well_formed (messages (w_state w)) = true;
  inv_log : Forall chat_output (w_log w);
  inv_pending :
    match w_pending w with
    | [] => loading (w_state w) = false
    | [a] =>
        loading (w_state w) = true
        ∧ exists s0 ro, chat_pending s0 ro a
                        ∧ well_formed (messages s0) = true
                        ∧ chat_request s0 ∈ w_log w
    | _ => False
    end;
}.

(** ** The events of the panel *)

Lemma listeners_render_message m : listeners (render_message m) = [].
Proof. unfold render_message. simpl. by destruct (bool_decide _). Qed.

Lemma chat_listeners s :
  fst <$> listeners (Chat s) = [at_search_toggle; at_clear; at_input; at_send].
Proof.
  unfold Chat, and_then. simpl.
  assert (listeners_from listeners 0 (render_message <$> messages s) = []) as Hm.
  { apply listeners_from_nil. intros c (m & -> & _)%list_elem_of_fmap.
    apply listeners_render_message. }
  destruct (error s) as [e|]; [destruct (str_falsy e)|];
   destruct (bool_decide (length (messages s) = 0)); simpl; rewrite ?Hm;
   destruct (loading s); reflexivity.
Qed.

Lemma can_send_guard s :
  can_send s = true <-> str_falsy (trim (input s)) || loading s = false.
Proof. unfold can_send. by rewrite negb_true_iff. Qed.

Lemma can_send_loading s : can_send s = true -> loading s = false.
Proof. rewrite can_send_guard. by intros [_ ?]%orb_false_iff. Qed.

Lemma chat_dispatch s path ev h :
  dispatch (Chat s) path ev = Some h <-> chat_event s path ev h.
Proof.
  split.
  - intros Hd. pose proof Hd as (n & f & Hin & _)%dispatch_listener.
    apply (list_elem_of_fmap_2 fst) in Hin. rewrite chat_listeners in Hin.
    simpl in Hin. revert Hd. unfold dispatch.
    repeat (apply elem_of_cons in Hin as [->|Hin]); [..|by apply elem_of_nil in Hin];
      cbn; unfold handler_of, is_disabled; cbn.
    + destruct (kind ev) eqn:?; cbn; intros [= <-]. by constructor.
    + destruct (kind ev) eqn:?; cbn; intros [= <-]. by constructor.
    + destruct (loading s) eqn:?; [done|].
      destruct (kind ev) eqn:?; cbn; intros [= <-]; by constructor.
    + destruct (loading s || str_falsy (trim (input s))) eqn:Hg; [done|].
      destruct (kind ev) eqn:?; cbn; intros [= <-]. constructor; [done|].
      apply can_send_guard. by rewrite orb_comm.
  - intros [ev' Hk|ev' Hk|ev' Hk Hl|ev' Hk Hl|ev' Hk Hg];
      unfold dispatch; cbn; unfold is_disabled; cbn; rewrite ?Hk, ?Hl; try done.
    apply can_send_guard in Hg. rewrite orb_comm in Hg. by rewrite Hg.
Qed.

Lemma chat_step_user w path ev ans h :
  chat_event (w_state w) path ev h ->
  step_fn (LUser path ev ans) w = Some (run_task ans h w).
Proof. intros Hd%chat_dispatch. simpl. by rewrite Hd. Qed.

(** *** [handleSend] *)

Lemma handleSend_refused s ans (w : world State) :
  can_send s = false -> run_task ans (handleSend s) w = w.
Proof.
  unfold can_send, handleSend. intros ->%negb_false_iff. done.
Qed.

Lemma handleSend_run s ans (w : world State) :
  can_send s = true ->
  exists a, chat_pending s None a ∧
    run ans (handleSend s) w =
      (emit (chat_request s)
         (with_state (fun s' => setError None (setLoading true (setInput ""
            (setMessages (history_sent s) s')))) w), Blocked a).
Proof.
  intros Hs. pose proof Hs as Hg%can_send_guard.
  unfold handleSend. rewrite Hg. eexists. split; [|reflexivity].
  apply pending_reply; [done|]. intros ans' w'. unfold handleSend. by rewrite Hg.
Qed.

(** The body [handleSend] suspends as, made explicit up to its continuation. *)
Lemma chat_pending_reply_shape s0 a :
  chat_pending s0 None a ->
  a = OnFetch (API_BASE +:+ "/ai/chat")
        (ApiClient.request_init (ApiClient.post_json (JObj
           [("messages", JArr (message_to_js <$> history_sent s0));
            ("use_search", JBool (useSearch s0));
            ("use_semantic", JBool false)])))
        (fun o => resume a o).
Proof.
  intros Hp. inversion Hp as [? ? Hg%can_send_guard Hs|]; subst.
  specialize (Hs deny init_world). revert Hs.
  unfold handleSend. rewrite Hg. cbn. by intros [= <-].
Qed.

Lemma chat_pending_step s0 ro a o ans (w : world State) :
  chat_pending s0 ro a ->
  match ro, o with
  | None, Ok r =>
      exists a', chat_pending s0 (Some r) a' ∧ run ans (resume a o) w = (w, Blocked a')
  | None, Err e =>
      run ans (resume a o) w = (with_state (settle_reply s0 (Err e)) w, Done tt)
  | Some r, _ =>
      run ans (resume a o) w =
        (with_state (settle_reply s0 (ApiClient.call_result "Request failed" (Ok r))) w, Done tt)
  end.
Proof.
  intros Hp. destruct ro as [r|].
  - inversion Hp as [|? a0 ? ? Hp0 Hs]; subst.
    rewrite (chat_pending_reply_shape _ _ Hp0) in Hs.
    inversion Hp0 as [? ? Hg%can_send_guard Hs0|]; subst.
    specialize (Hs0 deny init_world). specialize (Hs deny init_world).
    revert Hs0 Hs.
    unfold handleSend, ApiClient.call_result, ApiClient.error_of_response,
      settle_reply, reply_of.
    rewrite Hg. cbn. intros [= <-]. cbn.
    destruct (ok r); cbn; intros [= <-]; cbn; destruct (json r) as [v|e]; cbn; try done.
    + by destruct (get_prop v "response").
    + by destruct (get_prop v "detail").
  - pose proof (chat_pending_reply_shape _ _ Hp) as Ha.
    inversion Hp as [? ? Hg%can_send_guard Hs0|]; subst.
    specialize (Hs0 deny init_world). revert Hs0 Ha.
    unfold handleSend. rewrite Hg. cbn. intros [= <-] _.
    destruct o as [r|e]; [|done]. cbn.
    destruct (ok r) eqn:Hok; cbn; (eexists; split; [|reflexivity]);
      (eapply pending_body; [exact Hp|]); intros ans' w'; cbn; by rewrite Hok.
Qed.

(** *** Well-formed conversations *)

Lemma answered_in_turn_app b ms ms' :
  answered_in_turn b (ms ++ ms') =
  answered_in_turn b ms
  && answered_in_turn (from_option (fun m => bool_decide (role m = user)) b (last ms)) ms'.
Proof.
  revert b. induction ms as [|m ms IH]; intros b; simpl; [done|].
  rewrite last_cons. destruct (role m) eqn:Hm; rewrite IH, ?andb_assoc;
    destruct (last ms); simpl; by rewrite ?Hm.
Qed.

Lemma well_formed_sent s :
  well_formed (messages s) = true -> well_formed (history_sent s) = true.
Proof.
  unfold well_formed, history_sent. rewrite answered_in_turn_app. by intros ->.
Qed.

Lemma well_formed_answer s reply :
  well_formed (messages s) = true ->
  well_formed (history_sent s ++ [mkMessage assistant reply]) = true.
Proof.
  intros Hs%well_formed_sent. unfold well_formed in *.
  rewrite answered_in_turn_app, Hs. unfold history_sent. by rewrite last_snoc.
Qed.

Lemma well_formed_settle s0 res s :
  well_formed (messages s0) = true -> well_formed (messages s) = true ->
  well_formed (messages (settle_reply s0 res s)) = true.
Proof.
  intros Hs0 Hs. unfold settle_reply.
  destruct (reply_of res); simpl; auto using well_formed_answer.
Qed.

Lemma loading_settle s0 res s : loading (settle_reply s0 res s) = false.
Proof. unfold settle_reply. by destruct (reply_of res). Qed.

(** *** The invariant *)

Lemma chat_inv_init : chat_inv init_world.
Proof. by split. Qed.

Lemma chat_inv_idle w : chat_inv w -> loading (w_state w) = false -> w_pending w = [].
Proof.
  intros [_ _ _ Hp] Hl. destruct (w_pending w) as [|a [|]]; [done| |done].
  destruct Hp as [? _]. congruence.
Qed.

(** A send from an idle panel. *)
Lemma chat_inv_send w ans :
  chat_inv w -> can_send (w_state w) = true ->
  chat_inv (run_task ans (handleSend (w_state w)) w).
Proof.
  intros Hw Hs. pose proof (chat_inv_idle w Hw (can_send_loading _ Hs)) as Hp.
  destruct (handleSend_run (w_state w) ans w Hs) as (a & Ha & Hrun).
  destruct Hw as [Ht Hm Hlog _]. unfold run_task. rewrite Hrun.
  split; simpl; rewrite ?Hp; simpl; auto using well_formed_sent.
  - apply Forall_app. split; [done|]. apply Forall_singleton. left. eauto.
  - split; [done|]. exists (w_state w), None. split_and!; [done..|].
    apply elem_of_app. right. by left.
Qed.

Lemma chat_inv_user w path ev ans h :
  chat_inv w -> chat_event (w_state w) path ev h -> chat_inv (run_task ans h w).
Proof.
  intros Hw [ev' Hk|ev' Hk|ev' Hk Hl|ev' Hk Hl|ev' Hk Hg].
  - by destruct Hw.
  - by destruct Hw.
  - by destruct Hw.
  - unfold handleKeyPress. case_match; [|done].
    pose proof (chat_inv_idle w Hw Hl) as Hp.
    destruct (can_send (w_state w)) eqn:Hs.
    + destruct (handleSend_run (w_state w) ans (emit (ODom PreventDefault) w) Hs)
        as (a & Ha & Hrun).
      destruct Hw as [Ht Hm Hlog _]. unfold run_task. cbn. rewrite Hrun.
      split; simpl; rewrite ?Hp; simpl; auto using well_formed_sent.
      * rewrite !Forall_app, !Forall_singleton. split_and!; [done|by right|].
        left. eauto.
      * split; [done|]. exists (w_state w), None. split_and!; [done..|].
        apply elem_of_app. right. by left.
    + unfold run_task. cbn.
      pose proof (handleSend_refused (w_state w) ans (emit (ODom PreventDefault) w) Hs) as Hr.
      unfold run_task in Hr. rewrite Hr. destruct Hw as [Ht Hm Hlog _].
      split; simpl; rewrite ?Hp; auto.
      rewrite Forall_app, Forall_singleton. split; [done|by right].
  - by apply chat_inv_send.
Qed.

Lemma chat_inv_resume w i a o ans :
  chat_inv w -> w_pending w !! i = Some a ->
  chat_inv (run_task ans (resume a o) (with_pending (delete i) w)).
Proof.
  intros [Ht Hm Hlog Hp] Hi.
  destruct (w_pending w) as [|a' [|]] eqn:Hw; [done| |done].
  destruct i; simplify_eq/=. destruct Hp as (Hl & s0 & ro & Hp & Hs0 & Hreq).
  pose proof (chat_pending_step s0 ro a o ans (with_pending (delete 0) w) Hp) as Hstep.
  unfold run_task.
  destruct ro as [r|]; [|destruct o as [r|e]]; [|destruct Hstep as (a' & Ha' & Hstep)|];
    rewrite Hstep; split; simpl; rewrite ?Hw; simpl;
    auto using well_formed_settle, loading_settle.
  split; [done|]. eauto 10.
Qed.

Lemma chat_inv_step w l w' : chat_inv w -> step w l w' -> chat_inv w'.
Proof.
  intros Hw Hstep. destruct Hstep as [w path ev ans h Hd|w i o ans url init k Hi
    |w i ans r k Hi|w id ans t Ht _|w id ans t Ht _].
  - apply chat_dispatch in Hd. by eapply chat_inv_user.
  - by apply (chat_inv_resume w i (OnFetch url init k) o ans).
  - by apply (chat_inv_resume w i (OnJson r k) (Err (ThrownValue JUndefined)) ans).
  - unfold find_timer in Ht. by rewrite (inv_timers _ Hw) in Ht.
  - unfold find_timer in Ht. by rewrite (inv_timers _ Hw) in Ht.
Qed.

Lemma chat_inv_reachable w : reachable w -> chat_inv w.
Proof. apply invariant_reachable; eauto using chat_inv_init, chat_inv_step. Qed.

(** *** Replies *)

Lemma chat_pending_body_shape s0 r a :
  chat_pending s0 (Some r) a -> exists k, a = OnJson r k.
Proof.
  intros Hp. inversion Hp as [|? a0 ? ? Hp0 Hs]; subst.
  rewrite (chat_pending_reply_shape _ _ Hp0) in Hs.
  inversion Hp0 as [? ? Hg%can_send_guard Hs0|]; subst.
  specialize (Hs0 deny init_world). specialize (Hs deny init_world).
  revert Hs0 Hs. unfold handleSend. rewrite Hg. cbn. intros [= <-]. cbn.
  destruct (ok r); cbn; intros [= <-]; eauto.
Qed.

(** The event that resumes a suspended body: the settled [fetch] while it
    waits for the response, the arrival of the body once it reads it. *)
Lemma chat_step_reply w i a s0 o ans :
  w_pending w !! i = Some a -> chat_pending s0 None a ->
  step_fn (LReply i o ans) w
  = Some (run_task ans (resume a o) (with_pending (delete i) w)).
Proof.
  intros Hi Hp. simpl. rewrite Hi.
  by rewrite (chat_pending_reply_shape _ _ Hp).
Qed.

Lemma chat_step_body w i a s0 r ans :
  w_pending w !! i = Some a -> chat_pending s0 (Some r) a ->
  step_fn (LBody i ans) w
  = Some (with_state
            (settle_reply s0 (ApiClient.call_result "Request failed" (Ok r)))
            (with_pending (delete i) w)).
Proof.
  intros Hi Hp. simpl. rewrite Hi.
  pose proof (chat_pending_step s0 (Some r) a (Ok r) ans
                (with_pending (delete i) w) Hp) as Hstep.
  destruct (chat_pending_body_shape _ _ _ Hp) as [k ->].
  unfold run_task. simpl in Hstep. by rewrite Hstep.
Qed.

Lemma chat_step_rejected w i a s0 e ans :
  w_pending w !! i = Some a -> chat_pending s0 None a ->
  step_fn (LReply i (Err e) ans) w
  = Some (with_state (settle_reply s0 (Err e)) (with_pending (delete i) w)).
Proof.
  intros Hi Hp. rewrite (chat_step_reply w i a s0) by done.
  pose proof (chat_pending_step s0 None a (Err e) ans
                (with_pending (delete i) w) Hp) as Hstep.
  unfold run_task. simpl in Hstep. by rewrite Hstep.
Qed.

Lemma chat_step_response w i a s0 r ans :
  w_pending w !! i = Some a -> chat_pending s0 None a ->
  exists a', chat_pending s0 (Some r) a'
    ∧ step_fn (LReply i (Ok r) ans) w
      = Some (with_pending (fun ps => delete i ps ++ [a']) w).
Proof.
  intros Hi Hp. rewrite (chat_step_reply w i a s0) by done.
  destruct (chat_pending_step s0 None a (Ok r) ans
              (with_pending (delete i) w) Hp) as (a' & Ha' & Hstep).
  exists a'. split; [done|]. unfold run_task. by rewrite Hstep.
Qed.

(** ** The handlers, event by event *)

(** The handlers of the tree are the bodies above. *)
Lemma chat_handlers (P : prog State unit -> Prop) s :
  (forall f, P (set_state f)) -> P clearChat ->
  (forall ev, P (handleKeyPress s ev)) -> P (handleSend s) ->
  every_handler P (Chat s).
Proof.
  intros Hset Hclear Hkey Hsend. unfold Chat. handlers_step. split; [done|].
  repeat (apply Forall_cons; split); [..|done].
  - by apply every_handler_and_then.
  - handlers_step. split; [done|]. apply Forall_singleton.
    case_bool_decide; [done|]. handlers_step.
    repeat (apply Forall_cons; split); try done.
    + handlers_step. apply Forall_fmap, Forall_true. intros m.
      cbn. by case_bool_decide.
    + by destruct (loading s).
  - cbn -[handleKeyPress handleSend clearChat set_state].
    handlers_done.
Qed.

(** C1. A click on the send button of a panel whose input is not blank
    and that is not loading appends the text as a user message, empties
    the input, starts loading, clears the error, and posts exactly one
    request, whose body holds the whole history with the new message, the
    search toggle and [use_semantic: false]; the body of [handleSend] is
    left suspended on that request. *)
Theorem handleSend_posts_history w ev ans :
  kind ev = OnClick -> can_send (w_state w) = true ->
  exists a, chat_pending (w_state w) None a ∧
    step_fn (LUser at_send ev ans) w =
      Some (mkWorld (sent (w_state w)) (w_pending w ++ [a]) (w_timers w)
              (w_next_timer w) (w_log w ++ [chat_request (w_state w)])).
Proof.
  intros Hk Hs. destruct (handleSend_run (w_state w) ans w Hs) as (a & Ha & Hrun).
  exists a. split; [done|]. simpl.
  rewrite (proj2 (chat_dispatch _ _ _ _) (ev_send _ ev Hk Hs)).
  unfold run_task. by rewrite Hrun.
Qed.

(** C7. While the panel is loading, or while its input is blank, the
    send button takes no click, and the Enter key in a blank input only
    has its default action suppressed: no message is added and nothing is
    posted. *)
Theorem handleSend_guard w ev ans :
  can_send (w_state w) = false ->
  step_fn (LUser at_send ev ans) w = None
  ∧ (loading (w_state w) = false ->
     step_fn (LUser at_input (key_press "Enter" false) ans) w
     = Some (emit (ODom PreventDefault) w)).
Proof.
  intros Hs. split.
  - simpl. destruct (dispatch _ _ _) as [h|] eqn:Hd; [|done].
    apply chat_dispatch in Hd. inversion Hd; congruence.
  - intros Hl. simpl.
    rewrite (proj2 (chat_dispatch _ _ _ _) (ev_key _ (key_press "Enter" false) eq_refl Hl)).
    unfold run_task, handleKeyPress. cbn.
    pose proof (handleSend_refused (w_state w) ans (emit (ODom PreventDefault) w) Hs) as Hr.
    exact (f_equal Some Hr).
Qed.

(** ** Replies *)

(** C2. When the body of a successful response has been read, the
    conversation becomes the history that was posted followed by the
    reply as an assistant message, whatever the conversation shows at that
    moment; the panel stops loading, and the input, the search toggle and
    the error are left as they are. *)
Theorem reply_joins_posted_history w i a s0 r v reply ans :
  w_pending w !! i = Some a -> chat_pending s0 (Some r) a ->
  ok r = true -> json r = Ok v -> get_prop v "response" = Ok reply ->
  step_fn (LBody i ans) w =
    Some (mkWorld
            (mkState (history_sent s0 ++ [mkMessage assistant reply])
               (input (w_state w)) (useSearch (w_state w)) false (error (w_state w)))
            (delete i (w_pending w)) (w_timers w) (w_next_timer w) (w_log w)).
Proof.
  intros Hi Hp Hok Hv Hr. rewrite (chat_step_body w i a s0 r) by done.
  unfold settle_reply, reply_of, ApiClient.call_result. by rewrite Hok, Hv, Hr.
Qed.

(** C3. A call that fails leaves the conversation as it is and shows one
    message: when the request is rejected, when the response is not [ok],
    when its body is not JSON, and when the body has no [response] to
    read.  The panel stops loading. *)
Theorem failed_call_keeps_history w i a s0 ans :
  w_pending w !! i = Some a ->
  let failed e :=
    mkWorld
      (mkState (messages (w_state w)) (input (w_state w)) (useSearch (w_state w))
         false (Some (error_message_or e "応答の取得に失敗しました")))
      (delete i (w_pending w)) (w_timers w) (w_next_timer w) (w_log w) in
  (forall e, chat_pending s0 None a ->
     step_fn (LReply i (Err e) ans) w = Some (failed e))
  ∧ (forall r e, chat_pending s0 (Some r) a ->
       reply_of (ApiClient.call_result "Request failed" (Ok r)) = Err e ->
       step_fn (LBody i ans) w = Some (failed e)).
Proof.
  intros Hi failed. split.
  - intros e Hp. by rewrite (chat_step_rejected w i a s0).
  - intros r e Hp He. rewrite (chat_step_body w i a s0 r) by done.
    unfold settle_reply. by rewrite He.
Qed.

(** C8. A whole turn: from a reachable panel whose send button is
    enabled, a click, the response and its body, with no other event in
    between, leave the conversation extended by the question and the
    answer, the input empty, no error, nothing pending, and exactly one
    request in the log. *)
Theorem chat_turn w ev ans r v reply :
  reachable w -> kind ev = OnClick -> can_send (w_state w) = true ->
  ok r = true -> json r = Ok v -> get_prop v "response" = Ok reply ->
  run_trace [LUser at_send ev ans; LReply 0 (Ok r) ans; LBody 0 ans] w =
    Some (mkWorld
            (mkState (messages (w_state w)
                        ++ [mkMessage user (JStr (input (w_state w)));
                            mkMessage assistant reply])
               "" (useSearch (w_state w)) false None)
            [] (w_timers w) (w_next_timer w)
            (w_log w ++ [chat_request (w_state w)])).
Proof.
  intros Hw%chat_inv_reachable Hk Hs Hok Hv Hr.
  pose proof (chat_inv_idle w Hw (can_send_loading _ Hs)) as Hidle. clear Hw.
  destruct w as [s ps ts nt log].
  cbn [w_state w_pending w_timers w_next_timer w_log] in *. subst ps.
  destruct (handleSend_run s ans (mkWorld s [] ts nt log) Hs) as (a & Ha & Hrun).
  cbn [run_trace].
  rewrite (chat_step_user (mkWorld s [] ts nt log) _ _ _ _ (ev_send _ ev Hk Hs)).
  unfold run_task. rewrite Hrun. cbn [settle snd fst].
  match goal with |- context [step_fn _ ?w1] =>
    destruct (chat_step_response w1 0 a s r ans) as (a' & Ha' & ->);
      [done..|]
  end.
  match goal with |- context [step_fn _ ?w2] =>
    rewrite (chat_step_body w2 0 a' s r) by done
  end.
  unfold settle_reply, reply_of, ApiClient.call_result. rewrite Hok, Hv, Hr.
  cbn. unfold history_sent. by rewrite <-app_assoc.
Qed.

(** C6. A conversation cleared while a request is in flight comes back:
    after a send and a click on the clear button the conversation is
    empty, and the reply then restores the whole history that was posted,
    with the answer at its end. *)
Theorem clearChat_undone_by_reply w ev ans r v reply :
  reachable w -> kind ev = OnClick -> can_send (w_state w) = true ->
  ok r = true -> json r = Ok v -> get_prop v "response" = Ok reply ->
  let cleared := [LUser at_send ev ans; LUser at_clear ev ans] in
  messages ∘ w_state <$> run_trace cleared w = Some []
  ∧ messages ∘ w_state
      <$> run_trace (cleared ++ [LReply 0 (Ok r) ans; LBody 0 ans]) w
    = Some (history_sent (w_state w) ++ [mkMessage assistant reply]).
Proof.
  intros Hw%chat_inv_reachable Hk Hs Hok Hv Hr.
  pose proof (chat_inv_idle w Hw (can_send_loading _ Hs)) as Hidle. clear Hw.
  destruct w as [s ps ts nt log].
  cbn [w_state w_pending w_timers w_next_timer w_log] in *. subst ps.
  destruct (handleSend_run s ans (mkWorld s [] ts nt log) Hs) as (a & Ha & Hrun).
  cbn [run_trace app].
  rewrite (chat_step_user (mkWorld s [] ts nt log) _ _ _ _ (ev_send _ ev Hk Hs)).
  unfold run_task. rewrite Hrun. cbn [settle snd fst].
  match goal with |- context [step_fn _ ?w1] =>
    rewrite (chat_step_user w1 _ _ ans _ (ev_clear _ ev Hk))
  end.
  split; [done|].
  match goal with |- context [step_fn _ ?w1] =>
    destruct (chat_step_response w1 0 a s r ans) as (a' & Ha' & ->); [done..|]
  end.
  match goal with |- context [step_fn _ ?w2] =>
    rewrite (chat_step_body w2 0 a' s r) by done
  end.
  unfold settle_reply, reply_of, ApiClient.call_result. by rewrite Hok, Hv, Hr.
Qed.

(** ** Every reachable panel *)

(** C5. At most one request is in flight at any time, and the panel
    shows that it is loading exactly while one is. *)
Theorem chat_one_request_in_flight w :
  reachable w ->
  length (w_pending w) <= 1
  ∧ (loading (w_state w) = true <-> w_pending w ≠ []).
Proof.
  intros [_ _ _ Hp]%chat_inv_reachable.
  destruct (w_pending w) as [|a [|]]; [|destruct Hp as [-> _]|done]; simpl.
  - rewrite Hp. split; [lia|]. by split.
  - split; [lia|]. by split.
Qed.

(** C12. In the conversation every assistant message answers a user
    message: none comes first and none follows another one. *)
Theorem chat_answers_follow_questions w :
  reachable w -> well_formed (messages (w_state w)) = true.
Proof. by intros []%chat_inv_reachable. Qed.

(** C10. Every request the panel has sent is a [POST] to [/ai/chat] made
    from a state whose input was not blank and that was not loading, with
    a well-formed history that ends with that input; and no rejection
    was ever left unhandled. *)
Theorem chat_requests_only w o :
  reachable w -> o ∈ w_log w ->
  match o with
  | OFetch url init =>
      exists s0, can_send s0 = true ∧ well_formed (history_sent s0) = true
                 ∧ OFetch url init = chat_request s0
  | ODom op => op = PreventDefault
  | OConfirm _ _ | OUnhandled _ => False
  end.
Proof.
  intros [_ _ Hlog _]%chat_inv_reachable Ho.
  rewrite Forall_forall in Hlog.
  destruct (Hlog o Ho) as [(s0 & ? & ? & ->)| ->]; [|done].
  exists s0. auto using well_formed_sent.
Qed.

(** C11. While the panel is loading the user can only flip the search
    toggle and clear the conversation: no event starts another request,
    changes the input or stops the loading. *)
Theorem chat_loading_locks_input w path ev ans w' :
  loading (w_state w) = true -> step_fn (LUser path ev ans) w = Some w' ->
  (path = at_search_toggle ∨ path = at_clear)
  ∧ w_log w' = w_log w ∧ w_pending w' = w_pending w
  ∧ loading (w_state w') = true ∧ input (w_state w') = input (w_state w).
Proof.
  intros Hl Hstep. simpl in Hstep.
  destruct (dispatch _ _ _) as [h|] eqn:Hd; [|done]. simplify_eq.
  apply chat_dispatch in Hd.
  pose proof (can_send_loading (w_state w)) as Hs.
  destruct Hd; try congruence; [by split_and!; [left|..]|by split_and!; [right|..]|].
  destruct (can_send (w_state w)); [|done]. specialize (Hs eq_refl). congruence.
Qed.
End chat.
End Chat.

(** ** The theorems at sample worlds *)

Import Chat.

#[local] Existing Instance default_env.

(** The user has typed "hello". *)
Definition typed_hello : world State :=
  mkWorld (mkState [] "hello" true false None) [] [] 0 [].

(** ... and has sent it. *)
Definition sent_hello : world State :=
  default init_world (run_trace [LUser at_send click deny] typed_hello).

(** A reply "hi", a reply without a body, and the response of a backend
    that is down. *)
Definition r_hi : Response :=
  mkResponse true (Ok (JObj [("response", JStr "hi")])).
Definition r_unavailable : Response :=
  mkResponse false (Ok (JObj [("detail", JStr "Service unavailable")])).

(** The response "hi" has arrived, its body is being read. *)
Definition reading_hi : world State :=
  default init_world (run_trace [LReply 0 (Ok r_hi) deny] sent_hello).

Definition reading_unavailable : world State :=
  default init_world (run_trace [LReply 0 (Ok r_unavailable) deny] sent_hello).

(** Solves [chat_pending s ro a] for a body [a] of a sample world. *)
Ltac sample_pending :=
  repeat first
    [ reflexivity
    | apply pending_reply
    | eapply pending_body
    | intros ? ?; reflexivity ].

Lemma typed_hello_reachable : reachable typed_hello.
Proof.
  by apply (run_trace_reachable_from [LUser at_input (change_value "hello") deny]).
Qed.

Lemma sent_hello_reachable : reachable sent_hello.
Proof.
  by apply (run_trace_reachable_from
              [LUser at_input (change_value "hello") deny; LUser at_send click deny]).
Qed.

Lemma handleSend_posts_history_witness :
  exists a, chat_pending (w_state typed_hello) None a ∧
    step_fn (LUser at_send click deny) typed_hello =
      Some (mkWorld (sent (w_state typed_hello)) (w_pending typed_hello ++ [a])
              (w_timers typed_hello) (w_next_timer typed_hello)
              (w_log typed_hello ++ [chat_request (w_state typed_hello)])).
Proof. apply (handleSend_posts_history typed_hello click deny); reflexivity. Defined.

Lemma handleSend_guard_witness :
  step_fn (LUser at_send click deny) init_world = None
  ∧ (loading (w_state init_world) = false ->
     step_fn (LUser at_input (key_press "Enter" false) deny) init_world
     = Some (emit (ODom PreventDefault) init_world)).
Proof. apply (handleSend_guard init_world click deny). reflexivity. Defined.

Lemma reply_joins_posted_history_witness :
  step_fn (LBody 0 deny) reading_hi =
    Some (mkWorld
            (mkState [mkMessage user (JStr "hello"); mkMessage assistant (JStr "hi")]
               "" true false None)
            [] [] 0 [chat_request (w_state typed_hello)]).
Proof.
  eapply (reply_joins_posted_history reading_hi 0 _ (w_state typed_hello) r_hi
            _ (JStr "hi") deny eq_refl); sample_pending.
Defined.

Lemma failed_call_keeps_history_witness :
  step_fn (LReply 0 (Err (new_Error (JStr "Failed to fetch"))) deny) sent_hello =
    Some (mkWorld
            (mkState [mkMessage user (JStr "hello")] "" true false
               (Some "Failed to fetch"))
            [] [] 0 [chat_request (w_state typed_hello)])
  ∧ step_fn (LBody 0 deny) reading_unavailable =
    Some (mkWorld
            (mkState [mkMessage user (JStr "hello")] "" true false
               (Some "Service unavailable"))
            [] [] 0 [chat_request (w_state typed_hello)]).
Proof.
  split.
  - eapply (proj1 (failed_call_keeps_history sent_hello 0 _ (w_state typed_hello)
                     deny eq_refl) (new_Error (JStr "Failed to fetch")));
      sample_pending.
  - eapply (proj2 (failed_call_keeps_history reading_unavailable 0 _
                     (w_state typed_hello) deny eq_refl) r_unavailable
                (new_Error (JStr "Service unavailable")));
      sample_pending.
Defined.

Lemma chat_turn_witness :
  run_trace [LUser at_send click deny; LReply 0 (Ok r_hi) deny; LBody 0 deny]
    typed_hello =
    Some (mkWorld
            (mkState [mkMessage user (JStr "hello"); mkMessage assistant (JStr "hi")]
               "" true false None)
            [] [] 0 [chat_request (w_state typed_hello)]).
Proof.
  by apply (chat_turn typed_hello click deny r_hi (JObj [("response", JStr "hi")])
              (JStr "hi") typed_hello_reachable).
Defined.

Lemma clearChat_undone_by_reply_witness :
  messages ∘ w_state
    <$> run_trace [LUser at_send click deny; LUser at_clear click deny] typed_hello
  = Some []
  ∧ messages ∘ w_state
      <$> run_trace [LUser at_send click deny; LUser at_clear click deny;
                     LReply 0 (Ok r_hi) deny; LBody 0 deny] typed_hello
    = Some [mkMessage user (JStr "hello"); mkMessage assistant (JStr "hi")].
Proof.
  by apply (clearChat_undone_by_reply typed_hello click deny r_hi
              (JObj [("response", JStr "hi")]) (JStr "hi") typed_hello_reachable).
Defined.

Lemma chat_one_request_in_flight_witness :
  length (w_pending sent_hello) <= 1
  ∧ (loading (w_state sent_hello) = true <-> w_pending sent_hello ≠ []).
Proof. exact (chat_one_request_in_flight sent_hello sent_hello_reachable). Defined.

Lemma chat_answers_follow_questions_witness :
  well_formed (messages (w_state sent_hello)) = true.
Proof. exact (chat_answers_follow_questions sent_hello sent_hello_reachable). Defined.

Lemma chat_requests_only_witness :
  exists s0, can_send s0 = true ∧ well_formed (history_sent s0) = true
             ∧ chat_request (w_state typed_hello) = chat_request s0.
Proof.
  apply (chat_requests_only sent_hello (chat_request (w_state typed_hello))
           sent_hello_reachable).
  by left.
Defined.

Lemma chat_loading_locks_input_witness :
  (at_clear = at_search_toggle ∨ at_clear = at_clear)
  ∧ w_log (with_state (setMessages []) sent_hello) = w_log sent_hello
  ∧ w_pending (with_state (setMessages []) sent_hello) = w_pending sent_hello
  ∧ loading (w_state (with_state (setMessages []) sent_hello)) = true
  ∧ input (w_state (with_state (setMessages []) sent_hello))
    = input (w_state sent_hello).
Proof.
  by apply (chat_loading_locks_input sent_hello at_clear click deny).
Defined.
