(* ===== verification/ChatMachine.v ===== *)
(** * What the chat panel promises ([components/Chat.tsx])

    A machine without closures: the hooks of the panel, the request in
    flight with the state it was sent from, and what has been sent.
    [abs_step] is its transition function, one case per thing that can
    happen to the panel.  The theorems show that the panel of [ChatPanel]
    and the machine move in lock step, so that what holds of every run of
    the machine holds of every run of the panel; the typing of the
    conversation is proved that way. *)

From S2P Require Import Prelude Js Web Async Runtime Client ChatPanel.

#[local] Open Scope string_scope.
#[local] Open Scope list_scope.

Module ChatSpec.
Import Chat.

(** ** The machine *)

Record machine : Type := mkMachine {
  hooks : State;
  (** the request in flight: the state it was sent from, and the response
      once it has arrived and its body is being read *)
  flight : option (State * option Response);
  sent_log : list output;
}.

(** What can happen to the panel. *)
Inductive action : Type :=
| Toggle (b : bool)
| Clear
| Edit (v : string)
| Key (k : string) (shift : bool)
| Ask
| Respond (r : Response)
| Reject (e : thrown)
| Deliver.

Definition with_hooks (f : State -> State) (m : machine) : machine :=
  mkMachine (f (hooks m)) (flight m) (sent_log m).

Definition logged (o : output) (m : machine) : machine :=
  mkMachine (hooks m) (flight m) (sent_log m ++ [o]).

Definition landed (s : State) (m : machine) : machine :=
  mkMachine s None (sent_log m).

Definition initial_machine : machine := mkMachine initial None [].

(** A conversation whose contents are all text, as [ChatMessage] declares. *)
Definition is_text (v : jsval) : bool :=
  match v with JStr _ => true | _ => false end.

Definition typed (ms : list ChatMessage) : bool :=
  forallb (fun m => is_text (content m)) ms.

(** Closes a goal [refines w' m'] from [Hr : refines w m] when the two
    sides were changed alike. *)
Ltac solve_refines Hr :=
  let Hs := fresh in let Hlog := fresh in
  destruct Hr as [Hs Hlog ? ? ?]; split; simpl; rewrite ?Hs, ?Hlog; auto.

Section spec.
Context `{Env}.

Definition ask (m : machine) : machine :=
  mkMachine (sent (hooks m)) (Some (hooks m, None))
    (sent_log m ++ [chat_request (hooks m)]).

Definition abs_step (act : action) (m : machine) : option machine :=
  match act with
  | Toggle b => Some (with_hooks (setUseSearch b) m)
  | Clear => Some (with_hooks (fun s => setError None (setMessages [] s)) m)
  | Edit v =>
      if loading (hooks m) then None else Some (with_hooks (setInput v) m)
  | Key k shift =>
      if loading (hooks m) then None
      else if bool_decide (k = "Enter") && negb shift then
        let m' := logged (ODom PreventDefault) m in
        Some (if can_send (hooks m) then ask m' else m')
      else Some m
  | Ask => if can_send (hooks m) then Some (ask m) else None
  | Respond r =>
      match flight m with
      | Some (s0, None) => Some (mkMachine (hooks m) (Some (s0, Some r)) (sent_log m))
      | _ => None
      end
  | Reject e =>
      match flight m with
      | Some (s0, None) => Some (landed (settle_reply s0 (Err e) (hooks m)) m)
      | _ => None
      end
  | Deliver =>
      match flight m with
      | Some (s0, Some r) =>
          Some (landed (settle_reply s0
                          (ApiClient.call_result "Request failed" (Ok r)) (hooks m)) m)
      | _ => None
      end
  end.

(** ** Events of the panel as actions of the machine *)

Definition user_action (path : list nat) (ev : dom_event) : option action :=
  if decide (path = at_search_toggle ∧ kind ev = OnChange)
  then Some (Toggle (target_checked ev))
  else if decide (path = at_clear ∧ kind ev = OnClick) then Some Clear
  else if decide (path = at_input ∧ kind ev = OnChange)
  then Some (Edit (target_value ev))
  else if decide (path = at_input ∧ kind ev = OnKeyPress)
  then Some (Key (key ev) (shiftKey ev))
  else if decide (path = at_send ∧ kind ev = OnClick) then Some Ask
  else None.

Definition action_of (l : label) : option action :=
  match l with
  | LUser path ev _ => user_action path ev
  | LReply 0 (Ok r) _ => Some (Respond r)
  | LReply 0 (Err e) _ => Some (Reject e)
  | LBody 0 _ => Some Deliver
  | _ => None
  end.

(** The machine takes the event [l]. *)
Definition abs_event (l : label) (m : machine) : option machine :=
  action_of l ≫= fun act => abs_step act m.

Fixpoint abs_events (ls : list label) (m : machine) : option machine :=
  match ls with
  | [] => Some m
  | l :: ls' =>
      match abs_event l m with
      | Some m' => abs_events ls' m'
      | None => None
      end
  end.

(** ** The panel and the machine *)

(** The world [w] of the panel is in the state [m] of the machine. *)
Record refines (w : world State) (m : machine) : Prop := {
  ref_state : w_state w = hooks m;
  ref_log : w_log w = sent_log m;
  ref_timers : w_timers w = [];
  ref_loading : loading (hooks m) = match flight m with Some _ => true | None => false end;
  ref_pending :
    match flight m with
    | None => w_pending w = []
    | Some (s0, ro) => exists a, w_pending w = [a] ∧ chat_pending s0 ro a
    end;
}.

(** ** Conforming replies *)

(** The reply of a call, when it has one, is text. *)
Definition text_reply (res : result thrown jsval) : bool :=
  match reply_of res with
  | Ok reply => is_text reply
  | Err _ => true
  end.

(** A response whose reply, when it has one, is text. *)
Definition conforming (r : Response) : bool :=
  text_reply (ApiClient.call_result "Request failed" (Ok r)).

Definition action_conforming (act : action) : bool :=
  match act with
  | Respond r => conforming r
  | _ => true
  end.

Definition label_conforming (l : label) : bool :=
  from_option action_conforming true (action_of l).

Definition typed_machine (m : machine) : bool :=
  typed (messages (hooks m))
  && match flight m with
     | Some (s0, ro) => typed (messages s0) && from_option conforming true ro
     | None => true
     end.

(** ** Events and actions *)

Lemma user_action_event s path ev h :
  chat_event s path ev h ->
  exists act, user_action path ev = Some act
    ∧ match act with
      | Toggle b => h = set_state (setUseSearch b)
      | Clear => h = clearChat
      | Edit v => loading s = false ∧ h = set_state (setInput v)
      | Key k shift =>
          loading s = false ∧ h = handleKeyPress s (key_press k shift)
      | Ask => can_send s = true ∧ h = handleSend s
      | _ => False
      end.
Proof.
  intros [ev' Hk|ev' Hk|ev' Hk Hl|ev' Hk Hl|ev' Hk Hg];
    unfold user_action; rewrite Hk; eexists; (split; [reflexivity|]); done.
Qed.

Lemma event_user_action s path ev act :
  user_action path ev = Some act ->
  match act with
  | Toggle b => chat_event s path ev (set_state (setUseSearch b))
  | Clear => chat_event s path ev clearChat
  | Edit v => loading s = false -> chat_event s path ev (set_state (setInput v))
  | Key k shift => loading s = false -> chat_event s path ev (handleKeyPress s ev)
  | Ask => can_send s = true -> chat_event s path ev (handleSend s)
  | _ => False
  end.
Proof.
  unfold user_action. intros Hact.
  repeat case_decide; destruct_and?; simplify_eq; eauto using chat_event.
Qed.

(** ** The panel follows the machine *)

Lemma refines_init : refines init_world initial_machine.
Proof. by split. Qed.

(** A send, after [pre] has been logged. *)
Lemma refines_ask w m ans :
  refines w m -> can_send (hooks m) = true ->
  refines (run_task ans (handleSend (hooks m)) w) (ask m).
Proof.
  intros [Hs Hlog Ht Hl Hp] Hg.
  destruct (handleSend_run (hooks m) ans w Hg) as (a & Ha & Hrun).
  unfold run_task. rewrite Hrun.
  apply can_send_loading in Hg. rewrite Hg in Hl.
  destruct (flight m) as [[]|] eqn:Hf; [done|].
  split; simpl; rewrite ?Hs, ?Hlog, ?Hp; eauto.
Qed.

Lemma refines_user w m path ev ans h :
  refines w m -> chat_event (w_state w) path ev h ->
  exists act m', user_action path ev = Some act ∧ abs_step act m = Some m'
                 ∧ refines (run_task ans h w) m'.
Proof.
  intros Hr (act & Hact & Hh)%user_action_event. exists act.
  pose proof (ref_state _ _ Hr) as Hs. rewrite Hs in Hh.
  destruct act; try done; simpl.
  - subst h. eexists. split_and!; [done..|]. solve_refines Hr.
  - subst h. eexists. split_and!; [done..|]. solve_refines Hr.
  - destruct Hh as [Hl ->]. rewrite Hl. eexists. split_and!; [done..|].
    solve_refines Hr.
  - destruct Hh as [Hl ->]. rewrite Hl. unfold handleKeyPress. simpl.
    destruct (bool_decide (k = "Enter") && negb shift); [|by eauto].
    eexists. split_and!; [done..|].
    assert (refines (emit (ODom PreventDefault) w) (logged (ODom PreventDefault) m))
      as Hr' by solve_refines Hr.
    destruct (can_send (hooks m)) eqn:Hg.
    + by apply (refines_ask _ _ ans) in Hr'.
    + pose proof (handleSend_refused (hooks m) ans
                    (emit (ODom PreventDefault) w) Hg) as Hq.
      unfold run_task in *. cbn. by rewrite Hq.
  - destruct Hh as [Hg ->]. rewrite Hg. eauto using refines_ask.
Qed.

Lemma refines_resume w m l w' s0 ro a :
  refines w m -> flight m = Some (s0, ro) -> w_pending w = [a] ->
  chat_pending s0 ro a -> step_fn l w = Some w' ->
  (forall path ev ans, l ≠ LUser path ev ans) ->
  exists m', abs_event l m = Some m' ∧ refines w' m'.
Proof.
  intros Hr Hf Hw Ha Hstep Hl. pose proof (ref_timers _ _ Hr) as Ht.
  pose proof (ref_loading _ _ Hr) as Hld. rewrite Hf in Hld.
  assert (w_pending w !! 0 = Some a) as H0 by (by rewrite Hw).
  destruct l as [path ev ans|[|i] o ans|[|i] ans|id ans];
    [by destruct (Hl path ev ans)| |by simpl in Hstep; rewrite Hw in Hstep
    | |by simpl in Hstep; rewrite Hw in Hstep
    |by unfold step_fn, find_timer in Hstep; rewrite Ht in Hstep].
  - destruct ro as [r|].
    { destruct (chat_pending_body_shape _ _ _ Ha) as [k ->].
      simpl in Hstep. by rewrite Hw in Hstep. }
    unfold abs_event. destruct o as [r|e]; simpl; rewrite Hf.
    + destruct (chat_step_response w 0 a s0 r ans H0 Ha) as (a' & Ha' & Hs).
      rewrite Hs in Hstep. simplify_eq. eexists. split; [done|].
      destruct Hr. split; simpl; rewrite ?Hw; eauto.
    + rewrite (chat_step_rejected w 0 a s0 e ans H0 Ha) in Hstep. simplify_eq.
      eexists. split; [done|].
      destruct Hr. split; simpl; rewrite ?Hw; auto using loading_settle with f_equal.
  - destruct ro as [r|].
    2:{ rewrite (chat_pending_reply_shape _ _ Ha) in Hw.
        simpl in Hstep. by rewrite Hw in Hstep. }
    rewrite (chat_step_body w 0 a s0 r ans H0 Ha) in Hstep. simplify_eq.
    unfold abs_event. simpl. rewrite Hf. eexists. split; [done|].
    destruct Hr. split; simpl; rewrite ?Hw; auto using loading_settle with f_equal.
Qed.

Lemma refines_step w m l w' :
  refines w m -> step_fn l w = Some w' ->
  exists m', abs_event l m = Some m' ∧ refines w' m'.
Proof.
  intros Hr Hstep. destruct (flight m) as [[s0 ro]|] eqn:Hf.
  - destruct l as [path ev ans|i o ans|i ans|id ans].
    1:{ simpl in Hstep. destruct (dispatch _ _ _) as [h|] eqn:Hd; [|done].
        apply chat_dispatch in Hd. simplify_eq.
        destruct (refines_user w m path ev ans h Hr Hd) as (act & m' & Hact & ? & ?).
        exists m'. unfold abs_event. simpl. by rewrite Hact. }
    all: pose proof (ref_pending _ _ Hr) as Hp; rewrite Hf in Hp;
      destruct Hp as (a & Hw & Ha); by eapply refines_resume.
  - pose proof (ref_pending _ _ Hr) as Hp. rewrite Hf in Hp.
    pose proof (ref_timers _ _ Hr) as Ht.
    destruct l as [path ev ans|i o ans|i ans|id ans]; simpl in Hstep;
      unfold find_timer in Hstep; rewrite ?Hp, ?Ht in Hstep; try done.
    destruct (dispatch _ _ _) as [h|] eqn:Hd; [|done].
    apply chat_dispatch in Hd. simplify_eq.
    destruct (refines_user w m path ev ans h Hr Hd) as (act & m' & Hact & ? & ?).
    exists m'. unfold abs_event. simpl. by rewrite Hact.
Qed.

(** ** The machine follows the panel *)

Lemma refines_enabled w m l m' :
  refines w m -> abs_event l m = Some m' -> is_Some (step_fn l w).
Proof.
  intros Hr. unfold abs_event. destruct (action_of l) as [act|] eqn:Hact; [|done].
  simpl. intros Hstep. pose proof (ref_pending _ _ Hr) as Hp.
  destruct l as [path ev ans|[|i] [r|e] ans|[|i] ans|id ans];
    simpl in Hact; simplify_eq; unfold abs_step in Hstep.
  - clear Hp. apply (event_user_action (hooks m)) in Hact.
    rewrite <-(ref_state _ _ Hr) in Hact.
    destruct act; try done; simpl in Hstep;
      rewrite <-?(ref_state _ _ Hr) in Hstep; repeat case_match; simplify_eq;
      erewrite chat_step_user; eauto.
  - destruct (flight m) as [[s0 [r'|]]|]; try done. destruct Hp as (a & Hw & Ha).
    erewrite chat_step_reply; [done| |done]. by rewrite Hw.
  - destruct (flight m) as [[s0 [r'|]]|]; try done. destruct Hp as (a & Hw & Ha).
    erewrite chat_step_reply; [done| |done]. by rewrite Hw.
  - destruct (flight m) as [[s0 [r'|]]|]; try done. destruct Hp as (a & Hw & Ha).
    erewrite chat_step_body; [done| |done]. by rewrite Hw.
Qed.

Lemma refines_lock_step w m l :
  refines w m -> option_Forall2 refines (step_fn l w) (abs_event l m).
Proof.
  intros Hr. destruct (step_fn l w) as [w'|] eqn:Hw.
  - destruct (refines_step w m l w' Hr Hw) as (m' & -> & ?). by constructor.
  - destruct (abs_event l m) as [m'|] eqn:Hm; [|constructor].
    destruct (refines_enabled w m l m' Hr Hm) as [? ?]. congruence.
Qed.

Lemma refines_trace ls w m :
  refines w m -> option_Forall2 refines (run_trace ls w) (abs_events ls m).
Proof.
  revert w m. induction ls as [|l ls IH]; intros w m Hr; simpl; [by constructor|].
  destruct (refines_lock_step w m l Hr); [by apply IH|constructor].
Qed.

(** ** Typed conversations *)

#[local] Arguments ApiClient.call_result : simpl never.

Lemma typed_app ms ms' : typed (ms ++ ms') = typed ms && typed ms'.
Proof. apply forallb_app. Qed.

Lemma typed_settle s0 res s :
  typed (messages s0) = true -> typed (messages s) = true ->
  text_reply res = true ->
  typed (messages (settle_reply s0 res s)) = true.
Proof.
  intros Hs0 Hs. unfold settle_reply, history_sent, text_reply.
  destruct (reply_of res); simpl; [|done]. intros Hr.
  by rewrite !typed_app, Hs0; simpl; rewrite Hr.
Qed.

Lemma abs_step_typed act m m' :
  typed_machine m = true -> action_conforming act = true ->
  abs_step act m = Some m' -> typed_machine m' = true.
Proof.
  unfold typed_machine. destruct m as [s f log]. simpl.
  intros [Hm Hf]%andb_true_iff Hact Hstep.
  assert (typed (history_sent s) = true) as Hsent
    by (unfold history_sent; by rewrite typed_app, Hm).
  destruct f as [[s0 [r0|]]|]; simpl in Hf; rewrite ?andb_true_iff in Hf;
    destruct_and?; destruct act; simpl in Hstep;
    repeat match type of Hstep with
           | context [if ?b then _ else _] => destruct b eqn:?
           end;
    simplify_eq; unfold ask, logged, landed, with_hooks; simpl;
    rewrite ?andb_true_iff; split_and?; auto using typed_settle.
Qed.

Lemma abs_events_typed ls m m' :
  typed_machine m = true -> forallb label_conforming ls = true ->
  abs_events ls m = Some m' -> typed_machine m' = true.
Proof.
  revert m. induction ls as [|l ls IH]; intros m Hm; simpl; [by intros _ [= <-]|].
  intros [Hl Hls]%andb_true_iff. unfold abs_event, label_conforming in *.
  destruct (action_of l) as [act|]; simpl in *; [|done].
  destruct (abs_step act m) as [m1|] eqn:Hstep; [|done].
  eauto using abs_step_typed.
Qed.

(** ** The panel is the machine *)

(** C4. The panel and the machine move in lock step: after any
    sequence of events, either both have refused one of them, or the
    panel is in the state of the machine: same hooks, same requests sent,
    no timer, and one suspended [handleSend] exactly when the machine has
    a request in flight, made from the state the machine records. *)
Theorem chat_refines_machine ls :
  option_Forall2 refines (run_trace ls init_world) (abs_events ls initial_machine).
Proof. apply refines_trace, refines_init. Qed.

(** C9. As long as every reply that arrives holds text, every message
    of the conversation holds text, as [ChatMessage] declares. *)
Theorem chat_conversation_typed ls w :
  forallb label_conforming ls = true -> run_trace ls init_world = Some w ->
  typed (messages (w_state w)) = true.
Proof.
  intros Hls Hrun. pose proof (refines_trace ls _ _ refines_init) as Hr.
  rewrite Hrun in Hr. inversion Hr as [? m Hwm Hw Hm|]; subst.
  rewrite (ref_state _ _ Hwm).
  by apply (abs_events_typed ls initial_machine m) in Hls as [? _]%andb_true_iff.
Qed.
End spec.
End ChatSpec.

(** ** The theorems at a sample run *)

Import Chat ChatSpec.

#[local] Existing Instance default_env.

(** The user types "hello" and sends it; the reply "hi" arrives. *)
Definition hello_trace : list label :=
  [LUser at_input (change_value "hello") deny; LUser at_send click deny;
   LReply 0 (Ok r_hi) deny; LBody 0 deny].

Definition answered_hello : world State :=
  mkWorld
    (mkState [mkMessage user (JStr "hello"); mkMessage assistant (JStr "hi")]
       "" true false None)
    [] [] 0 [chat_request (w_state typed_hello)].

Lemma chat_conversation_typed_witness :
  typed (messages (w_state answered_hello)) = true.
Proof. by apply (chat_conversation_typed hello_trace answered_hello). Defined.
