(* ===== verification/AdminPanel.v ===== *)
(** * The administration panel ([components/Admin.tsx])

    The five hooks of [Admin], its five handlers and its two views: the
    login form, and the panel with the three destructive actions.  The
    theorems give what each handler does, show that no destructive request
    leaves the browser without an accepted confirmation, and exhibit what
    requests in flight do to a panel the user has moved on from. *)

From S2P Require Import Prelude Js Web Async Runtime Invariants Client.

#[local] Open Scope string_scope.
#[local] Open Scope list_scope.

Module Admin.

(** ** State *)

(** The [useState] hooks of lines 5 to 9.  [loading] names the action
    that runs: ['auth'], ['search'], ['storage'] or ['all']. *)
Record State : Type := mkState {
  password : string;
  isAuthenticated : bool;
  loading : option string;
  error : option string;
  success : option string;
}.

#[export] Instance State_eq_dec : EqDecision State.
Proof. solve_decision. Defined.

Definition setPassword (v : string) (s : State) : State :=
  mkState v (isAuthenticated s) (loading s) (error s) (success s).
Definition setIsAuthenticated (v : bool) (s : State) : State :=
  mkState (password s) v (loading s) (error s) (success s).
Definition setLoading (v : option string) (s : State) : State :=
  mkState (password s) (isAuthenticated s) v (error s) (success s).
Definition setError (v : option string) (s : State) : State :=
  mkState (password s) (isAuthenticated s) (loading s) v (success s).
Definition setSuccess (v : option string) (s : State) : State :=
  mkState (password s) (isAuthenticated s) (loading s) (error s) v.

Definition initial : State := mkState "" false None None None.

(** The questions of the three confirmation dialogs. *)
Definition confirm_search : string :=
  "ベクトルDB（Azure AI Search）の全データを削除しますか？" +:+ LF
    +:+ "この操作は取り消せません。".
Definition confirm_storage : string :=
  "Blob Storage（S3相当）の全ファイルを削除しますか？" +:+ LF
    +:+ "この操作は取り消せません。".
Definition confirm_all : string :=
  "ベクトルDBとストレージの両方を削除しますか？" +:+ LF
    +:+ "この操作は取り消せません。".

Section admin.
Context `{Env}.

(** ** Handlers *)

Definition handleAuth (s : State) : prog State unit :=
  if str_falsy (trim (password s)) then
    set_state (setError (Some "パスワードを入力してください"))
  else
    set_state (setLoading (Some "auth"));;
    set_state (setError None);;
    (try
       _ ← ApiClient.adminAuth (password s);
       set_state (setIsAuthenticated true);;
       set_state (setSuccess (Some "認証成功"));;
       setTimeout (set_state (setSuccess None)) 3000
     catch err =>
       set_state (setError (Some "パスワードが正しくありません"));;
       set_state (setIsAuthenticated false)
     finally
       set_state (setLoading None))%prog.

Definition handleClearSearch (s : State) : prog State unit :=
  accepted ← confirm confirm_search;
  if negb accepted then mret tt
  else
    set_state (setLoading (Some "search"));;
    set_state (setError None);;
    set_state (setSuccess None);;
    (try
       result ← ApiClient.clearSearch (password s);
       index_name ← settled (get_prop result "index_name");
       set_state (setSuccess (Some
         ("ベクトルDBをクリアしました（インデックス: "
            +:+ to_string index_name +:+ "）")))
     catch err =>
       set_state (setError (Some (error_message_or err "クリアに失敗しました")))
     finally
       set_state (setLoading None))%prog.

Definition handleClearStorage (s : State) : prog State unit :=
  accepted ← confirm confirm_storage;
  if negb accepted then mret tt
  else
    set_state (setLoading (Some "storage"));;
    set_state (setError None);;
    set_state (setSuccess None);;
    (try
       result ← ApiClient.clearStorage (password s);
       deleted_count ← settled (get_prop result "deleted_count");
       set_state (setSuccess (Some
         ("ストレージをクリアしました（削除ファイル数: "
            +:+ to_string deleted_count +:+ "）")))
     catch err =>
       set_state (setError (Some (error_message_or err "クリアに失敗しました")))
     finally
       set_state (setLoading None))%prog.

Definition handleClearAll (s : State) : prog State unit :=
  accepted ← confirm confirm_all;
  if negb accepted then mret tt
  else
    set_state (setLoading (Some "all"));;
    set_state (setError None);;
    set_state (setSuccess None);;
    (try
       _ ← ApiClient.clearSearch (password s);
       storageResult ← ApiClient.clearStorage (password s);
       deleted_count ← settled (get_prop storageResult "deleted_count");
       set_state (setSuccess (Some
         ("全データをクリアしました（削除ファイル数: "
            +:+ to_string deleted_count +:+ "）")))
     catch err =>
       set_state (setError (Some (error_message_or err "クリアに失敗しました")))
     finally
       set_state (setLoading None))%prog.

Definition handleLogout : prog State unit :=
  set_state (setIsAuthenticated false);;
  set_state (setPassword "");;
  set_state (setError None);;
  set_state (setSuccess None).

(** ** The rendered trees *)

Definition error_banner (s : State) : vnode (prog State unit) :=
  and_then (error s) (fun e => VElem "div" [("className", AStr "error")] [] [VText e]).

Definition success_banner (s : State) : vnode (prog State unit) :=
  and_then (success s) (fun m =>
    VElem "div" [("className", AStr "success")] [] [VText m]).

(** The [return] of lines 99 to 129. *)
Definition login_view (s : State) : vnode (prog State unit) :=
  VElem "div" [("className", AStr "admin-container")] []
    [ VElem "div" [("className", AStr "admin-login")] []
        [ VElem "div" [("className", AStr "admin-icon")] []
            [VElem "span" [] [] [VText "🔐"]];
          VElem "h3" [] [] [VText "管理者認証"];
          VElem "p" [] []
            [VText "管理機能にアクセスするにはパスワードを入力してください"];
          error_banner s;
          VElem "div" [("className", AStr "admin-form")] []
            [ VElem "input"
                [("type", AStr "password");
                 ("value", AStr (password s));
                 ("placeholder", AStr "パスワード");
                 ("disabled", ABool (bool_decide (loading s = Some "auth")))]
                [(OnChange, fun e => set_state (setPassword (target_value e)));
                 (OnKeyDown, fun e =>
                    if bool_decide (key e = "Enter") then spawn (handleAuth s)
                    else mret tt)]
                [];
              VElem "button"
                [("className", AStr "btn btn-primary");
                 ("disabled", ABool (bool_decide (loading s = Some "auth")))]
                [(OnClick, fun _ => handleAuth s)]
                [VText (if bool_decide (loading s = Some "auth")
                        then "認証中..." else "ログイン")] ] ] ].

(** One card of the panel, lines 151 to 164 and the two that follow. *)
Definition action_card (s : State) (className icon title about : string)
  (handler : prog State unit) (busy label : string) : vnode (prog State unit) :=
  VElem "div" [("className", AStr className)] []
    [ VElem "div" [("className", AStr "action-icon")] [] [VText icon];
      VElem "div" [("className", AStr "action-info")] []
        [VElem "h5" [] [] [VText title]; VElem "p" [] [] [VText about]];
      VElem "button"
        [("className", AStr "btn btn-danger");
         ("disabled", ABool (bool_decide (loading s ≠ None)))]
        [(OnClick, fun _ => handler)]
        [VText (if bool_decide (loading s = Some busy) then "処理中..." else label)] ].

(** The [return] of lines 132 to 198. *)
Definition panel_view (s : State) : vnode (prog State unit) :=
  VElem "div" [("className", AStr "admin-container")] []
    [ VElem "div" [("className", AStr "admin-header")] []
        [ VElem "h3" [] [] [VText "管理者パネル"];
          VElem "button" [("className", AStr "btn btn-secondary btn-sm")]
            [(OnClick, fun _ => handleLogout)] [VText "ログアウト"] ];
      error_banner s;
      success_banner s;
      VElem "div" [("className", AStr "admin-section")] []
        [ VElem "h4" [] [] [VText "データクリア"];
          VElem "p" [("className", AStr "admin-warning")] []
            [VText "以下の操作は取り消すことができません。実行前に十分ご確認ください。"];
          VElem "div" [("className", AStr "admin-actions")] []
            [ action_card s "admin-action-card" "🔍" "ベクトルDB クリア"
                "Azure AI Searchのインデックスを削除し、再作成します"
                (handleClearSearch s) "search" "クリア";
              action_card s "admin-action-card" "📦" "ストレージ クリア"
                "Azure Blob Storage内の全ファイルを削除します"
                (handleClearStorage s) "storage" "クリア";
              action_card s "admin-action-card all-clear" "⚠️" "全データ クリア"
                "ベクトルDBとストレージの両方を削除します"
                (handleClearAll s) "all" "全削除" ] ] ].

Definition Admin (s : State) : vnode (prog State unit) :=
  if negb (isAuthenticated s) then login_view s else panel_view s.

#[export] Instance admin_component : Component State :=
  {| init := initial; render := Admin |}.

(** Where the controls are: the password field and the login button of
    the form, the logout button and the three actions of the panel. *)
Definition at_password : list nat := [0; 4; 0].
Definition at_login : list nat := [0; 4; 1].
Definition at_logout : list nat := [0; 1].
Definition at_clear_search : list nat := [3; 2; 0; 2].
Definition at_clear_storage : list nat := [3; 2; 1; 2].
Definition at_clear_all : list nat := [3; 2; 2; 2].

(** ** What the handlers promise *)

(** The events the rendered panel reacts to, with what they run. *)
Inductive admin_event (s : State) : list nat -> dom_event -> prog State unit -> Prop :=
| ev_password ev :
    isAuthenticated s = false -> loading s ≠ Some "auth" -> kind ev = OnChange ->
    admin_event s at_password ev (set_state (setPassword (target_value ev)))
| ev_key ev :
    isAuthenticated s = false -> loading s ≠ Some "auth" -> kind ev = OnKeyDown ->
    admin_event s at_password ev
      (if bool_decide (key ev = "Enter") then spawn (handleAuth s) else mret tt)
| ev_login ev :
    isAuthenticated s = false -> loading s ≠ Some "auth" -> kind ev = OnClick ->
    admin_event s at_login ev (handleAuth s)
| ev_logout ev :
    isAuthenticated s = true -> kind ev = OnClick ->
    admin_event s at_logout ev handleLogout
| ev_clear_search ev :
    isAuthenticated s = true -> loading s = None -> kind ev = OnClick ->
    admin_event s at_clear_search ev (handleClearSearch s)
| ev_clear_storage ev :
    isAuthenticated s = true -> loading s = None -> kind ev = OnClick ->
    admin_event s at_clear_storage ev (handleClearStorage s)
| ev_clear_all ev :
    isAuthenticated s = true -> loading s = None -> kind ev = OnClick ->
    admin_event s at_clear_all ev (handleClearAll s).

(** The request of an action, with the password it carries. *)
Definition admin_request (endpoint pw : string) : output :=
  OFetch (API_BASE +:+ endpoint)
    (ApiClient.json_init (Some "POST") (Some (JObj [("password", JStr pw)]))).

(** The hooks when the call of [handleAuth] has settled with [res]: any
    answer that is not an error authenticates, any error is reported as a
    wrong password. *)
Definition auth_settled (res : result thrown jsval) (s : State) : State :=
  match res with
  | Ok _ =>
      setLoading None (setSuccess (Some "認証成功") (setIsAuthenticated true s))
  | Err _ =>
      setLoading None
        (setIsAuthenticated false
           (setError (Some "パスワードが正しくありません") s))
  end.

(** The world when the call of [handleAuth] has settled: after a success,
    a timer is set that removes the success message. *)
Definition auth_landed (res : result thrown jsval) (w : world State) : world State :=
  match res with
  | Ok _ =>
      with_state (setLoading None)
        (add_timer Timeout 3000 (set_state (setSuccess None))
           (with_state (fun s => setSuccess (Some "認証成功")
                                   (setIsAuthenticated true s)) w))
  | Err _ => with_state (auth_settled res) w
  end.

(** The hooks when an action has started. *)
Definition started (busy : string) (s : State) : State :=
  setSuccess None (setError None (setLoading (Some busy) s)).

(** The hooks when a clearing action has settled with [res]: the success
    message built from the field [field] of the answer, or the message of
    the error. *)
Definition clear_settled (before field : string) (res : result thrown jsval)
  (s : State) : State :=
  match res ≫= fun v => get_prop v field with
  | Ok x => setLoading None (setSuccess (Some (before +:+ to_string x +:+ "）")) s)
  | Err e =>
      setLoading None (setError (Some (error_message_or e "クリアに失敗しました")) s)
  end.

(** The two actions that make one request: where their button is, what
    they ask, the name they load under, the endpoint, and how the success
    message is built from the answer. *)
Record clearing : Type := mkClearing {
  c_path : list nat;
  c_confirm : string;
  c_busy : string;
  c_endpoint : string;
  c_before : string;
  c_field : string;
}.

Definition search_action : clearing :=
  mkClearing at_clear_search confirm_search "search" "/admin/clear-search"
    "ベクトルDBをクリアしました（インデックス: " "index_name".

Definition storage_action : clearing :=
  mkClearing at_clear_storage confirm_storage "storage" "/admin/clear-storage"
    "ストレージをクリアしました（削除ファイル数: " "deleted_count".

(** ** Destructive requests *)

(** A request that destroys data. *)
Definition destructive (o : output) : bool :=
  match o with
  | OFetch url _ =>
      bool_decide (url = API_BASE +:+ "/admin/clear-search")
      || bool_decide (url = API_BASE +:+ "/admin/clear-storage")
  | _ => false
  end.

(** The dialogs that allow the request [o]. *)
Definition allows (msg : string) (o : output) : bool :=
  match o with
  | OFetch url _ =>
      bool_decide (url = API_BASE +:+ "/admin/clear-search")
        && bool_decide (msg = confirm_search ∨ msg = confirm_all)
      || bool_decide (url = API_BASE +:+ "/admin/clear-storage")
           && bool_decide (msg = confirm_storage ∨ msg = confirm_all)
  | _ => false
  end.

(** The invariant of the panel: every destructive request of the log
    comes after a dialog for it that the user accepted, and no rejection
    was left unhandled. *)
Definition admin_log (log : list output) : Prop :=
  confirmed destructive allows log ∧ handled log.

Definition admin_inv (s : State) (log : list output) : Prop := admin_log log.

(** ** The events of the panel *)

Lemma admin_listeners s :
  fst <$> listeners (Admin s) =
  if isAuthenticated s
  then [at_logout; at_clear_search; at_clear_storage; at_clear_all]
  else [at_password; at_login].
Proof.
  unfold Admin, login_view, panel_view, error_banner, success_banner, and_then.
  destruct (isAuthenticated s); simpl;
    destruct (error s) as [e|]; try destruct (str_falsy e);
    try (destruct (success s) as [m|]; try destruct (str_falsy m)); reflexivity.
Qed.

Lemma admin_dispatch s path ev h :
  dispatch (Admin s) path ev = Some h <-> admin_event s path ev h.
Proof.
  split.
  - intros Hd. pose proof Hd as (n & f & Hin & _)%dispatch_listener.
    apply (list_elem_of_fmap_2 fst) in Hin. rewrite admin_listeners in Hin.
    revert Hd. unfold dispatch, Admin.
    destruct (isAuthenticated s) eqn:Hauth; simpl in Hin |- *;
      repeat (apply elem_of_cons in Hin as [->|Hin]); try (by apply elem_of_nil in Hin);
      cbn; unfold handler_of, is_disabled; cbn;
      repeat case_bool_decide; try done;
      destruct (kind ev) eqn:?; cbn; intros [= <-];
      constructor; try done; by destruct (loading s).
  - intros [ev' Ha Hl Hk|ev' Ha Hl Hk|ev' Ha Hl Hk|ev' Ha Hk|ev' Ha Hl Hk
           |ev' Ha Hl Hk|ev' Ha Hl Hk];
      unfold dispatch, Admin; rewrite Ha; cbn; unfold is_disabled; cbn;
      rewrite ?Hk, ?Hl; try done;
      by rewrite bool_decide_eq_false_2.
Qed.

Lemma admin_step_user w path ev ans h :
  admin_event (w_state w) path ev h ->
  step_fn (LUser path ev ans) w = Some (run_task ans h w).
Proof. intros Hd%admin_dispatch. simpl. by rewrite Hd. Qed.

(** ** The invariant *)

Lemma admin_log_snoc log o :
  admin_log log -> (forall e, o ≠ OUnhandled e) ->
  (destructive o = true ->
   exists msg, OConfirm msg true ∈ log ∧ allows msg o = true) ->
  admin_log (log ++ [o]).
Proof.
  intros [Hc Hh] Ho Hd. split; [by apply confirmed_snoc|by apply handled_snoc].
Qed.

End admin.

(** Closes the goals [keeps_walk] leaves: the log has grown by dialogs and
    requests, each destructive request after its accepted dialog. *)
Ltac admin_goal :=
  unfold admin_inv in *;
  repeat first
    [ assumption
    | apply admin_log_snoc;
      [ | done
        | let Hd := fresh in
          intros Hd; unfold destructive in Hd; rewrite ?url_eq in Hd;
          first
            [ by vm_compute in Hd
            | clear Hd; eexists; split;
              [in_log|unfold allows; rewrite ?url_eq; by vm_compute] ] ] ].

(** Runs a handler that has just been dispatched, its dialog answered as
    [Hans] says, through the answer [o] to its request. *)
Ltac answered Hans o :=
  unfold run_task; cbn -[step_fn]; rewrite ?Hans; cbn -[step_fn];
  destruct o as [?r|?e]; cbn [answer run_trace];
  erewrite step_fn_reply_last by reflexivity; [|done];
  cbn -[step_fn];
  match goal with |- context [ok ?r] => destruct (ok r) end; cbn -[step_fn];
  erewrite step_fn_body_last by reflexivity;
  unfold run_task, clear_settled, auth_landed, ApiClient.call_result,
    ApiClient.error_of_response;
  cbn -[step_fn];
  match goal with |- context [json ?r] => destruct (json r) as [?v|?e] end;
  cbn; try done;
  match goal with |- context [get_prop ?v ?k] => by destruct (get_prop v k) end.

Section admin_proofs.
Context `{Env}.

Lemma keeps_handleAuth s log :
  admin_inv s log -> keeps admin_inv (handleAuth s) admin_inv s log.
Proof. intros HJ. unfold handleAuth. keeps_walk; admin_goal. Qed.

Lemma keeps_handleClearSearch s log :
  admin_inv s log -> keeps admin_inv (handleClearSearch s) admin_inv s log.
Proof. intros HJ. unfold handleClearSearch. keeps_walk; admin_goal. Qed.

Lemma keeps_handleClearStorage s log :
  admin_inv s log -> keeps admin_inv (handleClearStorage s) admin_inv s log.
Proof. intros HJ. unfold handleClearStorage. keeps_walk; admin_goal. Qed.

Lemma keeps_handleClearAll s log :
  admin_inv s log -> keeps admin_inv (handleClearAll s) admin_inv s log.
Proof. intros HJ. unfold handleClearAll. keeps_walk; admin_goal. Qed.

Lemma keeps_admin_event s log path ev h :
  admin_inv s log -> admin_event s path ev h -> keeps admin_inv h admin_inv s log.
Proof.
  intros HJ [ev' Ha Hl Hk|ev' Ha Hl Hk|ev' Ha Hl Hk|ev' Ha Hk|ev' Ha Hl Hk
            |ev' Ha Hl Hk|ev' Ha Hl Hk];
    auto using keeps_handleAuth, keeps_handleClearSearch,
      keeps_handleClearStorage, keeps_handleClearAll.
  case_bool_decide; [|done]. by apply keeps_handleAuth.
Qed.

Lemma admin_inv_reachable w :
  reachable w -> admin_inv (w_state w) (w_log w).
Proof.
  apply (invariant_by_handlers admin_inv).
  - split; [apply confirmed_nil|apply handled_nil].
  - intros s log path ev h HJ Hd%admin_dispatch. by eapply keeps_admin_event.
Qed.

(** The handlers of the tree are the bodies above. *)
Lemma admin_handlers (P : prog State unit -> Prop) s :
  (forall f, P (set_state f)) -> P (mret tt) ->
  P (spawn (handleAuth s)) -> P (handleAuth s) -> P handleLogout ->
  P (handleClearSearch s) -> P (handleClearStorage s) ->
  P (handleClearAll s) ->
  every_handler P (Admin s).
Proof.
  intros Hset Hret Hspawn Hauth Hout Hsearch Hstorage Hall. unfold Admin.
  destruct (isAuthenticated s); simpl negb; cbv iota.
  - handlers_step. split; [done|].
    repeat (apply Forall_cons; split); [..|done];
      try (by apply every_handler_and_then).
    + cbn -[handleLogout]. handlers_done.
    + cbn -[handleClearSearch handleClearStorage handleClearAll].
      handlers_done.
  - handlers_step. split; [done|]. apply Forall_singleton.
    handlers_step. split; [done|].
    repeat (apply Forall_cons; split); [..|done]; try done;
      try (by apply every_handler_and_then).
    cbn -[handleAuth set_state spawn]. handlers_done. by case_bool_decide.
Qed.

(** ** Logging in *)

(** C14. Submitting a password that is not blank sends it to
    [/admin/auth] exactly once.  When the call has settled the panel has
    stopped loading; any answer that is not an error authenticates, shows
    the success message and sets a timer that removes it; any error,
    whatever its cause, leaves the panel locked and reports a wrong
    password. *)
Theorem handleAuth_round w ev ans o :
  kind ev = OnClick -> isAuthenticated (w_state w) = false ->
  loading (w_state w) ≠ Some "auth" ->
  str_falsy (trim (password (w_state w))) = false ->
  run_trace (LUser at_login ev ans :: answer (length (w_pending w)) o ans) w
  = Some (auth_landed (ApiClient.call_result "Request failed" o)
            (emit (admin_request "/admin/auth" (password (w_state w)))
               (with_state (fun s => setError None (setLoading (Some "auth") s)) w))).
Proof.
  intros Hk Ha Hl Hp. cbn [run_trace].
  rewrite (admin_step_user w _ _ _ _ (ev_login _ ev Ha Hl Hk)).
  unfold handleAuth. answered Hp o.
Qed.

(** C19. Submitting a blank password only shows the message that asks
    for one: nothing is sent and nothing is pending. *)
Theorem handleAuth_blank_password w ev ans :
  kind ev = OnClick -> isAuthenticated (w_state w) = false ->
  loading (w_state w) ≠ Some "auth" ->
  str_falsy (trim (password (w_state w))) = true ->
  step_fn (LUser at_login ev ans) w
  = Some (with_state (setError (Some "パスワードを入力してください")) w).
Proof.
  intros Hk Ha Hl Hp.
  rewrite (admin_step_user w _ _ _ _ (ev_login _ ev Ha Hl Hk)).
  unfold run_task, handleAuth. by rewrite Hp.
Qed.

(** ** The destructive actions *)

(** C17. When the user declines the dialog of a destructive action,
    nothing happens but the dialog: no hook changes and nothing is sent. *)
Theorem destructive_action_declined w ev ans path msg :
  kind ev = OnClick -> isAuthenticated (w_state w) = true ->
  loading (w_state w) = None ->
  (path, msg) ∈ [(at_clear_search, confirm_search);
                 (at_clear_storage, confirm_storage);
                 (at_clear_all, confirm_all)] ->
  ans msg = false ->
  step_fn (LUser path ev ans) w = Some (emit (OConfirm msg false) w).
Proof.
  intros Hk Ha Hl Hin Hans.
  repeat (apply elem_of_cons in Hin as [[= -> ->]|Hin]); [..|by apply elem_of_nil in Hin].
  - rewrite (admin_step_user w _ _ _ _ (ev_clear_search _ ev Ha Hl Hk)).
    unfold run_task. cbn. by rewrite Hans.
  - rewrite (admin_step_user w _ _ _ _ (ev_clear_storage _ ev Ha Hl Hk)).
    unfold run_task. cbn. by rewrite Hans.
  - rewrite (admin_step_user w _ _ _ _ (ev_clear_all _ ev Ha Hl Hk)).
    unfold run_task. cbn. by rewrite Hans.
Qed.

(** C15. Clearing the index, or the storage, once the dialog is
    accepted: the password of the panel is sent to the endpoint of the
    action exactly once, and when the call has settled the panel has
    stopped loading and shows either the success message with the index
    name, or the count of deleted files, that the answer reports, or the
    message of the error. *)
Theorem clear_round w ev ans o act :
  kind ev = OnClick -> isAuthenticated (w_state w) = true ->
  loading (w_state w) = None ->
  act ∈ [search_action; storage_action] -> ans (c_confirm act) = true ->
  run_trace (LUser (c_path act) ev ans :: answer (length (w_pending w)) o ans) w
  = Some (with_state
            (clear_settled (c_before act) (c_field act)
               (ApiClient.call_result "Request failed" o))
            (emit (admin_request (c_endpoint act) (password (w_state w)))
               (emit (OConfirm (c_confirm act) true)
                  (with_state (started (c_busy act)) w)))).
Proof.
  intros Hk Ha Hl Hin Hans. cbn [run_trace].
  repeat (apply elem_of_cons in Hin as [->|Hin]); [..|by apply elem_of_nil in Hin].
  - rewrite (admin_step_user w _ _ _ _ (ev_clear_search _ ev Ha Hl Hk)).
    cbn in Hans. answered Hans o.
  - rewrite (admin_step_user w _ _ _ _ (ev_clear_storage _ ev Ha Hl Hk)).
    cbn in Hans. answered Hans o.
Qed.

(** C16. Clearing everything, once the dialog is accepted: the index
    is cleared first; the storage is cleared only after that call has
    succeeded, with the same password, and the panel then reports the
    count of deleted files or the error of the second call; when the
    first call fails its error is shown and the storage is never asked to
    clear. *)
Theorem clearAll_round w ev ans o1 o2 :
  kind ev = OnClick -> isAuthenticated (w_state w) = true ->
  loading (w_state w) = None -> ans confirm_all = true ->
  let n := length (w_pending w) in
  let settled_with := clear_settled "全データをクリアしました（削除ファイル数: " "deleted_count" in
  let asked :=
    emit (admin_request "/admin/clear-search" (password (w_state w)))
      (emit (OConfirm confirm_all true) (with_state (started "all") w)) in
  match ApiClient.call_result "Request failed" o1 with
  | Err e =>
      run_trace (LUser at_clear_all ev ans :: answer n o1 ans) w
      = Some (with_state (settled_with (Err e)) asked)
  | Ok _ =>
      run_trace (LUser at_clear_all ev ans :: answer n o1 ans ++ answer n o2 ans) w
      = Some (with_state (settled_with (ApiClient.call_result "Request failed" o2))
                (emit (admin_request "/admin/clear-storage" (password (w_state w)))
                   asked))
  end.
Proof.
  intros Hk Ha Hl Hans n settled_with asked. subst n settled_with asked.
  cbn [run_trace]. unfold clear_settled.
  rewrite (admin_step_user w _ _ _ _ (ev_clear_all _ ev Ha Hl Hk)).
  unfold run_task. cbn -[step_fn]. rewrite Hans. cbn -[step_fn].
  answer_step o1; try done.
  answer_step o2; try done.
  by destruct (get_prop _ "deleted_count").
Qed.

(** ** Every reachable panel *)

(** C13. No destructive request leaves the panel without consent:
    every request to clear the index or the storage that a reachable
    panel has sent comes after a dialog for that very action, or for
    clearing everything, that the user accepted; and no rejection was
    ever left unhandled. *)
Theorem destructive_requests_confirmed w :
  reachable w ->
  (forall pre o post, w_log w = pre ++ o :: post -> destructive o = true ->
     exists msg, OConfirm msg true ∈ pre ∧ allows msg o = true)
  ∧ (forall e, OUnhandled e ∉ w_log w).
Proof. apply admin_inv_reachable. Qed.

(** ** Requests in flight and a panel that has moved on *)

(** C18. Logging out does not stop an action: when the user logs out
    while everything is being cleared, the answer to the first call still
    makes the panel send the request that clears the storage, with the
    password the panel no longer shows. *)
Theorem clearAll_outlives_logout w ev ans r v :
  kind ev = OnClick -> isAuthenticated (w_state w) = true ->
  loading (w_state w) = None -> ans confirm_all = true ->
  ok r = true -> json r = Ok v ->
  (fun w' => (isAuthenticated (w_state w'), password (w_state w'), w_log w'))
    <$> run_trace (LUser at_clear_all ev ans :: LUser at_logout ev ans
                     :: answer (length (w_pending w)) (Ok r) ans) w
  = Some (false, "",
          w_log w ++ [OConfirm confirm_all true;
                      admin_request "/admin/clear-search" (password (w_state w));
                      admin_request "/admin/clear-storage" (password (w_state w))]).
Proof.
  intros Hk Ha Hl Hans Hok Hv. cbn [run_trace answer].
  rewrite (admin_step_user w _ _ _ _ (ev_clear_all _ ev Ha Hl Hk)).
  unfold run_task at 1. cbn -[step_fn]. rewrite Hans. cbn -[step_fn].
  erewrite admin_step_user by (by apply ev_logout).
  unfold run_task at 1. cbn -[step_fn].
  erewrite step_fn_reply_last by reflexivity. unfold run_task. cbn -[step_fn].
  rewrite Hok. cbn -[step_fn].
  erewrite step_fn_body_last by reflexivity. unfold run_task. cbn -[step_fn].
  rewrite Hv. cbn. by rewrite <-!app_assoc.
Qed.

(** C21. The timer that removes the message of a successful login
    removes whatever success message is shown when it fires: after a login
    and a successful clearing of the storage, the report of the deleted
    files is on display, and the timer of the login takes it away. *)
Theorem auth_timer_hides_later_success w ev ans r1 v1 r2 v2 count :
  kind ev = OnClick -> isAuthenticated (w_state w) = false ->
  loading (w_state w) ≠ Some "auth" ->
  str_falsy (trim (password (w_state w))) = false -> w_timers w = [] ->
  ok r1 = true -> json r1 = Ok v1 -> ans confirm_storage = true ->
  ok r2 = true -> json r2 = Ok v2 -> get_prop v2 "deleted_count" = Ok count ->
  let n := length (w_pending w) in
  let cleared :=
    LUser at_login ev ans :: answer n (Ok r1) ans
      ++ LUser at_clear_storage ev ans :: answer n (Ok r2) ans in
  success ∘ w_state <$> run_trace cleared w
  = Some (Some ("ストレージをクリアしました（削除ファイル数: " +:+ to_string count +:+ "）"))
  ∧ success ∘ w_state <$> run_trace (cleared ++ [LTimer (w_next_timer w) ans]) w
    = Some None.
Proof.
  intros Hk Ha Hl Hp Ht Hok1 Hv1 Hans Hok2 Hv2 Hc n cleared. subst n cleared.
  cbn [run_trace answer app].
  rewrite (admin_step_user w _ _ _ _ (ev_login _ ev Ha Hl Hk)).
  unfold run_task, handleAuth. rewrite Hp. cbn -[step_fn].
  erewrite step_fn_reply_last by reflexivity. unfold run_task. cbn -[step_fn].
  rewrite Hok1. cbn -[step_fn].
  erewrite step_fn_body_last by reflexivity. unfold run_task. cbn -[step_fn].
  rewrite Hv1. cbn -[step_fn].
  erewrite admin_step_user by (by apply ev_clear_storage).
  unfold run_task. cbn -[step_fn]. rewrite Hans. cbn -[step_fn].
  erewrite step_fn_reply_last by reflexivity. unfold run_task. cbn -[step_fn].
  rewrite Hok2. cbn -[step_fn].
  erewrite step_fn_body_last by reflexivity. unfold run_task. cbn -[step_fn].
  rewrite Hv2. cbn -[step_fn]. rewrite Hc. cbn -[step_fn].
  split; [done|]. cbn. unfold find_timer. cbn. rewrite Ht. cbn.
  by rewrite bool_decide_eq_true_2.
Qed.

(** C20. A login can be submitted twice over: the answer to an action
    that was still running at logout resets [loading], which re-enables the
    login form while the first login is still in flight, so that a second
    click sends a second request. *)
Theorem login_reenabled_by_stale_answer w ev ans pw e :
  kind ev = OnClick -> isAuthenticated (w_state w) = true ->
  loading (w_state w) = None -> ans confirm_search = true ->
  str_falsy (trim pw) = false ->
  let n := length (w_pending w) in
  (fun w' => (length (w_pending w'), loading (w_state w'),
              drop (length (w_log w)) (w_log w')))
    <$> run_trace [LUser at_clear_search ev ans; LUser at_logout ev ans;
                   LUser at_password (change_value pw) ans; LUser at_login ev ans;
                   LReply n (Err e) ans; LUser at_login ev ans] w
  = Some (n + 2, Some "auth",
          [OConfirm confirm_search true;
           admin_request "/admin/clear-search" (password (w_state w));
           admin_request "/admin/auth" pw;
           admin_request "/admin/auth" pw]).
Proof.
  intros Hk Ha Hl Hans Hp n. subst n. cbn [run_trace].
  rewrite (admin_step_user w _ _ _ _ (ev_clear_search _ ev Ha Hl Hk)).
  unfold run_task at 1. cbn -[step_fn]. rewrite Hans. cbn -[step_fn].
  erewrite admin_step_user by (by apply ev_logout).
  unfold run_task at 1. cbn -[step_fn].
  erewrite admin_step_user by (by apply ev_password).
  unfold run_task at 1. cbn -[step_fn].
  erewrite admin_step_user by (by apply ev_login).
  unfold run_task at 1, handleAuth. cbn -[step_fn str_falsy trim].
  rewrite Hp. cbn -[step_fn].
  erewrite step_fn_reply_at by (cbn; by rewrite <-app_assoc).
  unfold run_task at 1. cbn -[step_fn].
  erewrite admin_step_user by (by apply ev_login).
  unfold run_task, handleAuth. cbn -[step_fn str_falsy trim]. rewrite Hp. cbn.
  rewrite !length_app. cbn. f_equal. f_equal; [f_equal; lia|].
  by rewrite <-!app_assoc, drop_app_length.
Qed.
End admin_proofs.
End Admin.

(** ** The theorems at sample worlds *)

Import Admin.

#[local] Existing Instance default_env.

(** The login form with a password typed, and the open panel. *)
Definition login_typed : world State :=
  mkWorld (mkState "secret" false None None None) [] [] 0 [].
Definition panel_open : world State :=
  mkWorld (mkState "secret" true None None None) [] [] 0 [].

(** Answers of the backend. *)
Definition r_ok : Response :=
  mkResponse true (Ok (JObj [("success", JBool true); ("message", JStr "ok")])).
Definition r_deleted : Response :=
  mkResponse true
    (Ok (JObj [("success", JBool true); ("cleared", JBool true);
               ("deleted_count", JNum 3)])).
Definition r_forbidden : Response :=
  mkResponse false (Ok (JObj [("detail", JStr "Forbidden")])).

(** A user logs in and clears the storage. *)
Definition clearing_storage : list label :=
  LUser at_password (change_value "secret") accept
    :: LUser at_login click accept :: answer 0 (Ok r_ok) accept
    ++ LUser at_clear_storage click accept :: answer 0 (Ok r_deleted) accept.

Definition storage_cleared : world State :=
  default init_world (run_trace clearing_storage init_world).

Lemma storage_cleared_reachable : reachable storage_cleared.
Proof.
  apply (run_trace_reachable_from clearing_storage). by vm_compute. Qed.

Lemma handleAuth_round_witness :
  run_trace (LUser at_login click deny :: answer 0 (Ok r_ok) deny) login_typed
  = Some (auth_landed (ApiClient.call_result "Request failed" (Ok r_ok))
            (emit (admin_request "/admin/auth" "secret")
               (with_state (fun s => setError None (setLoading (Some "auth") s))
                  login_typed))).
Proof.
  by apply (handleAuth_round login_typed click deny (Ok r_ok)). Defined.

Lemma handleAuth_blank_password_witness :
  step_fn (LUser at_login click deny) init_world
  = Some (with_state (setError (Some "パスワードを入力してください")) init_world).
Proof.
  by apply (handleAuth_blank_password init_world click deny). Defined.

Lemma destructive_action_declined_witness :
  step_fn (LUser at_clear_all click deny) panel_open
  = Some (emit (OConfirm confirm_all false) panel_open).
Proof.
  apply (destructive_action_declined panel_open click deny at_clear_all confirm_all);
    try done.
  by do 2 right; left.
Defined.

Lemma clear_round_witness :
  run_trace (LUser at_clear_storage click accept :: answer 0 (Ok r_deleted) accept)
    panel_open
  = Some (with_state
            (clear_settled (c_before storage_action) (c_field storage_action)
               (ApiClient.call_result "Request failed" (Ok r_deleted)))
            (emit (admin_request "/admin/clear-storage" "secret")
               (emit (OConfirm confirm_storage true)
                  (with_state (started "storage") panel_open)))).
Proof.
  apply (clear_round panel_open click accept (Ok r_deleted) storage_action);
    try done.
  by right; left.
Defined.

Lemma clearAll_round_witness :
  run_trace (LUser at_clear_all click accept :: answer 0 (Ok r_forbidden) accept)
    panel_open
  = Some (with_state
            (clear_settled "全データをクリアしました（削除ファイル数: " "deleted_count"
               (Err (new_Error (JStr "Forbidden"))))
            (emit (admin_request "/admin/clear-search" "secret")
               (emit (OConfirm confirm_all true)
                  (with_state (started "all") panel_open)))).
Proof.
  by apply (clearAll_round panel_open click accept (Ok r_forbidden) (Ok r_ok)).
Defined.

Lemma destructive_requests_confirmed_witness :
  exists msg,
    OConfirm msg true ∈ [admin_request "/admin/auth" "secret";
                         OConfirm confirm_storage true]
    ∧ allows msg (admin_request "/admin/clear-storage" "secret") = true.
Proof.
  by apply (proj1 (destructive_requests_confirmed storage_cleared
                     storage_cleared_reachable)
              [admin_request "/admin/auth" "secret"; OConfirm confirm_storage true]
              (admin_request "/admin/clear-storage" "secret") []).
Defined.

Lemma clearAll_outlives_logout_witness :
  (fun w' => (isAuthenticated (w_state w'), password (w_state w'), w_log w'))
    <$> run_trace (LUser at_clear_all click accept :: LUser at_logout click accept
                     :: answer 0 (Ok r_ok) accept) panel_open
  = Some (false, "",
          [OConfirm confirm_all true;
           admin_request "/admin/clear-search" "secret";
           admin_request "/admin/clear-storage" "secret"]).
Proof.
  by apply (clearAll_outlives_logout panel_open click accept r_ok
              (JObj [("success", JBool true); ("message", JStr "ok")])).
Defined.

Lemma auth_timer_hides_later_success_witness :
  success ∘ w_state
    <$> run_trace
          (LUser at_login click accept :: answer 0 (Ok r_ok) accept
             ++ LUser at_clear_storage click accept :: answer 0 (Ok r_deleted) accept)
          login_typed
  = Some (Some "ストレージをクリアしました（削除ファイル数: 3）")
  ∧ success ∘ w_state
      <$> run_trace
            ((LUser at_login click accept :: answer 0 (Ok r_ok) accept
                ++ LUser at_clear_storage click accept
                :: answer 0 (Ok r_deleted) accept)
               ++ [LTimer 0 accept])
            login_typed
    = Some None.
Proof.
  by apply (auth_timer_hides_later_success login_typed click accept r_ok
              (JObj [("success", JBool true); ("message", JStr "ok")]) r_deleted
              (JObj [("success", JBool true); ("cleared", JBool true);
                     ("deleted_count", JNum 3)]) (JNum 3)).
Defined.

Lemma login_reenabled_by_stale_answer_witness :
  (fun w' => (length (w_pending w'), loading (w_state w'),
              drop (length (w_log panel_open)) (w_log w')))
    <$> run_trace [LUser at_clear_search click accept; LUser at_logout click accept;
                   LUser at_password (change_value "secret") accept;
                   LUser at_login click accept;
                   LReply 0 (Err (new_Error (JStr "Failed to fetch"))) accept;
                   LUser at_login click accept] panel_open
  = Some (2, Some "auth",
          [OConfirm confirm_search true;
           admin_request "/admin/clear-search" "secret";
           admin_request "/admin/auth" "secret";
           admin_request "/admin/auth" "secret"]).
Proof.
  by apply (login_reenabled_by_stale_answer panel_open click accept "secret"
              (new_Error (JStr "Failed to fetch"))).
Defined.
