(* ===== verification/UploadPanel.v ===== *)
(** * The document panel ([components/DocumentUpload.tsx])

    The eight hooks of [DocumentUpload], its handlers with the interval
    that simulates progress and the timer that resets it, [formatSize],
    and the tree it returns, list of documents included.  The list is held
    as the value the backend sent: a list React cannot render unmounts
    the tree.  The theorems give what an upload, a deletion, a re-index and
    a refresh do for each answer of the backend, the bounds of the
    progress, the consent behind every deletion, and what requests in
    flight at the same time do to the list. *)

From S2P Require Import Prelude Js Web Async Runtime Invariants Client.

#[local] Open Scope string_scope.
#[local] Open Scope list_scope.

(** The formatting of dates, which depends on the browser and its time
    zone: [new Date(v).toLocaleString('ja-JP')]. *)
Class Locale : Type := { toLocaleString : jsval -> string }.

Module DocumentUpload.

(** ** State *)

(** The [useState] hooks of lines 5 to 12.  [documents] holds what
    [setDocuments] was given: the field [documents] of the answer of the
    backend, which is an array of [Document] only if the backend keeps to
    the contract. *)
Record State : Type := mkState {
  uploading : bool;
  uploadProgress : Z;
  error : option string;
  success : option string;
  documents : jsval;
  loading : bool;
  dragging : bool;
  reindexing : bool;
}.

#[export] Instance State_eq_dec : EqDecision State.
Proof. solve_decision. Defined.

Definition setUploading (v : bool) (s : State) : State :=
  mkState v (uploadProgress s) (error s) (success s) (documents s) (loading s)
    (dragging s) (reindexing s).
Definition setUploadProgress (v : Z) (s : State) : State :=
  mkState (uploading s) v (error s) (success s) (documents s) (loading s)
    (dragging s) (reindexing s).
Definition setError (v : option string) (s : State) : State :=
  mkState (uploading s) (uploadProgress s) v (success s) (documents s) (loading s)
    (dragging s) (reindexing s).
Definition setSuccess (v : option string) (s : State) : State :=
  mkState (uploading s) (uploadProgress s) (error s) v (documents s) (loading s)
    (dragging s) (reindexing s).
Definition setDocuments (v : jsval) (s : State) : State :=
  mkState (uploading s) (uploadProgress s) (error s) (success s) v (loading s)
    (dragging s) (reindexing s).
Definition setLoading (v : bool) (s : State) : State :=
  mkState (uploading s) (uploadProgress s) (error s) (success s) (documents s) v
    (dragging s) (reindexing s).
Definition setDragging (v : bool) (s : State) : State :=
  mkState (uploading s) (uploadProgress s) (error s) (success s) (documents s)
    (loading s) v (reindexing s).
Definition setReindexing (v : bool) (s : State) : State :=
  mkState (uploading s) (uploadProgress s) (error s) (success s) (documents s)
    (loading s) (dragging s) v.

Definition initial : State := mkState false 0 None None (JArr []) false false false.

(** The messages built from a file name. *)
Definition uploaded_message (fileName : string) : string :=
  "「" +:+ fileName +:+ "」のアップロードが完了しました！AIによるインデックス登録も完了。".
Definition confirm_delete (fileName : string) : string :=
  "「" +:+ fileName +:+ "」を削除しますか？".
Definition deleted_message (fileName : string) : string :=
  "「" +:+ fileName +:+ "」を削除しました".

(** The question of the dialog of [handleReindex]. *)
Definition confirm_reindex : string :=
  "全ファイルを再インデックスします。" +:+ LF
    +:+ "インデックスが未作成の場合は自動作成されます。" +:+ LF +:+ LF
    +:+ "実行しますか？".

(** ** [formatSize] and [formatDate] *)

(** [formatSize], on the integers: a size below 1024 is shown in bytes,
    one below 1024 * 1024 in KB and any other in MB, both with one
    decimal. *)
Definition formatSize (bytes : Z) : string :=
  if (bytes <? 1024)%Z then to_string (JNum bytes) +:+ " B"
  else if (bytes <? 1024 * 1024)%Z then toFixed1 bytes 1024 +:+ " KB"
  else toFixed1 bytes (1024 * 1024) +:+ " MB".

Definition formatDate `{Locale} (dateStr : jsval) : string :=
  if negb (truthy dateStr) then "不明" else toLocaleString dateStr.

Section upload.
Context `{Env, Locale}.

(** ** Handlers *)

(** No handler reads a hook: each is the same body in every render. *)

Definition loadDocuments : prog State unit :=
  set_state (setLoading true);;
  (try
     result ← ApiClient.listDocuments;
     docs ← settled (get_prop result "documents");
     set_state (setDocuments docs)
   catch err =>
     set_state (setError (Some
       (error_message_or err "ドキュメントの読み込みに失敗しました")))
   finally
     set_state (setLoading false))%prog.

Definition handleFileSelect (file : File) : prog State unit :=
  set_state (setUploading true);;
  set_state (setError None);;
  set_state (setSuccess None);;
  set_state (setUploadProgress 0);;
  progressInterval ← setInterval
    (set_state (fun prev =>
       setUploadProgress (Z.min (uploadProgress prev + 10) 90) prev)) 200;
  (try
     _ ← ApiClient.uploadDocument file;
     set_state (setUploadProgress 100);;
     set_state (setSuccess (Some (uploaded_message (file_name file))));;
     spawn loadDocuments
   catch err =>
     set_state (setError (Some (error_message_or err "アップロードに失敗しました")))
   finally
     clearInterval progressInterval;;
     set_state (setUploading false);;
     setTimeout (set_state (setUploadProgress 0)) 1000;;
     dom ResetFileInput)%prog.

(** [e.target.files?.[0]] and [e.dataTransfer.files?.[0]] are the head of
    the files of the event. *)
Definition handleInputChange (e : dom_event) : prog State unit :=
  match head (files e) with
  | Some file => spawn (handleFileSelect file)
  | None => mret tt
  end.

Definition handleDrop (e : dom_event) : prog State unit :=
  dom PreventDefault;;
  set_state (setDragging false);;
  match head (files e) with
  | Some file => spawn (handleFileSelect file)
  | None => mret tt
  end.

Definition handleDragOver (e : dom_event) : prog State unit :=
  dom PreventDefault;;
  set_state (setDragging true).

Definition handleDragLeave : prog State unit :=
  set_state (setDragging false).

Definition handleDelete (fileName : string) : prog State unit :=
  accepted ← confirm (confirm_delete fileName);
  if negb accepted then mret tt
  else
    (try
       _ ← ApiClient.deleteDocument fileName;
       set_state (setSuccess (Some (deleted_message fileName)));;
       spawn loadDocuments
     catch err =>
       set_state (setError (Some (error_message_or err "削除に失敗しました"))))%prog.

Definition handleReindex : prog State unit :=
  accepted ← confirm confirm_reindex;
  if negb accepted then mret tt
  else
    set_state (setReindexing true);;
    set_state (setError None);;
    set_state (setSuccess None);;
    (try
       result ← ApiClient.reindexAll;
       indexed ← settled (get_prop result "indexed");
       total ← settled (get_prop result "total");
       set_state (setSuccess (Some
         ("再インデックス完了！ " +:+ to_string indexed +:+ "/" +:+ to_string total
            +:+ " ファイルを処理しました")));;
       spawn loadDocuments
     catch err =>
       set_state (setError (Some (error_message_or err "再インデックスに失敗しました")))
     finally
       set_state (setReindexing false))%prog.

(** ** The rendered tree *)

(** The area files are dropped on, lines 123 to 157. *)
Definition upload_area (s : State) : vnode (prog State unit) :=
  VElem "div"
    [("className", AStr ("upload-area " +:+ (if dragging s then "dragging" else "")))]
    [(OnClick, fun _ => dom ClickFileInput);
     (OnDrop, handleDrop);
     (OnDragOver, handleDragOver);
     (OnDragLeave, fun _ => handleDragLeave)]
    [ VElem "input" [("type", AStr "file"); ("disabled", ABool (uploading s))]
        [(OnChange, handleInputChange)] [];
      if uploading s then
        VElem "div" [] []
          [ VElem "div" [("className", AStr "loading-spinner")] [] [];
            VElem "h3" [] [] [VText "AIが処理中..."];
            VElem "p" [] [] [VText "ファイルをアップロード＆インデックス登録しています"];
            if (0 <? uploadProgress s)%Z then
              VElem "div"
                [("className", AStr "progress-bar");
                 ("style", AStyle [("marginTop", "20px")])] []
                [ VElem "div"
                    [("className", AStr "progress-bar-fill");
                     ("style", AStyle [("width", to_string (JNum (uploadProgress s)) +:+ "%")])]
                    [] [] ]
            else VNone ]
      else
        VFrag
          [ VElem "div" [("className", AStr "upload-icon")] [] [VText "🚀"];
            VElem "h3" [] [] [VText "ファイルをドロップまたはクリック"];
            VElem "p" [] [] [VText "あらゆる形式のファイルをAIが自動分析します"];
            VElem "p"
              [("style", AStyle [("marginTop", "10px"); ("fontSize", "12px");
                                 ("opacity", "0.7")])] []
              [VText "PDF / Word / Excel / テキスト / 画像 など"] ] ].

(** The placeholder of an empty list, lines 174 to 178. *)
Definition render_empty : vnode (prog State unit) :=
  VElem "div"
    [("style", AStyle [("textAlign", "center"); ("padding", "40px");
                       ("color", "var(--text-dim)")])] []
    [ VElem "div"
        [("style", AStyle [("fontSize", "48px"); ("marginBottom", "15px");
                           ("opacity", "0.5")])] [] [VText "📭"];
      VElem "p" [] [] [VText "まだファイルがありません"];
      VElem "p" [("style", AStyle [("fontSize", "13px"); ("marginTop", "8px")])] []
        [VText "上のエリアからファイルをアップロードしてください"] ].

(** One document of the list, lines 181 to 195.  Reading a field of a
    [doc] that is [null] or [undefined] throws, and so does React on a
    name that is an object.  The text of a size that is not a number is
    left as the value. *)
Definition render_document (doc : jsval)
  : result thrown (vnode (prog State unit)) :=
  doc_name ← get_prop doc "name";
  doc_size ← get_prop doc "size";
  doc_last_modified ← get_prop doc "last_modified";
  if negb (valid_child doc_name) then
    Err (ErrorObj "Error" "Objects are not valid as a React child")
  else
    Ok (VElem "div" [("className", AStr "document-item")] []
          [ VElem "div" [] []
              [ VElem "div" [("className", AStr "name")] []
                  [VText "📄 "; VExpr doc_name];
                VElem "div" [("className", AStr "meta")] []
                  [ match doc_size with
                    | JNum bytes => VText (formatSize bytes)
                    | _ => VExpr doc_size
                    end;
                    VText " • ";
                    VText (formatDate doc_last_modified) ] ];
            VElem "button" [("className", AStr "btn btn-danger btn-sm")]
              [(OnClick, fun _ => handleDelete (to_string doc_name))]
              [VText "🗑️ 削除"] ]).

(** [documents.length === 0 ? ... : documents.map(...)], line 173: only
    an array has a [map]. *)
Definition documents_list (s : State) : result thrown (vnode (prog State unit)) :=
  len ← js_length (documents s);
  if bool_decide (len = JNum 0) then Ok render_empty
  else match documents s with
       | JArr docs => VFrag <$> mapM render_document docs
       | _ => Err (ErrorObj "TypeError" "documents.map is not a function")
       end.

(** The section of the list with its two buttons, lines 159 to 199. *)
Definition documents_section (s : State) (list : vnode (prog State unit))
  : vnode (prog State unit) :=
  VElem "div" [("className", AStr "documents-section")] []
    [ VElem "div" [("className", AStr "section-header")] []
        [ VElem "h3" [] [] [VText "📂 アップロード済みファイル"];
          VElem "div" [("style", AStyle [("display", "flex"); ("gap", "8px")])] []
            [ VElem "button"
                [("className", AStr "btn btn-primary btn-sm");
                 ("disabled", ABool (reindexing s))]
                [(OnClick, fun _ => handleReindex)]
                [VText (if reindexing s then "⏳ 処理中..." else "⚡ 再インデックス")];
              VElem "button"
                [("className", AStr "btn btn-secondary btn-sm");
                 ("disabled", ABool (loading s))]
                [(OnClick, fun _ => loadDocuments)]
                [VText (if loading s then "読込中..." else "📋 一覧更新")] ] ];
      VElem "div" [("className", AStr "documents-list")] [] [list] ].

(** The [return] of lines 118 to 201, or the exception rendering ends
    with. *)
Definition DocumentUpload_render (s : State)
  : result thrown (vnode (prog State unit)) :=
  list ← documents_list s;
  Ok (VElem "div" [("className", AStr "fade-in")] []
        [ and_then (error s) (fun e =>
            VElem "div" [("className", AStr "error")] [] [VText e]);
          and_then (success s) (fun m =>
            VElem "div" [("className", AStr "success")] [] [VText m]);
          upload_area s;
          documents_section s list ]).

(** What is on the page: an exception in rendering leaves nothing of the
    tree (there is no error boundary). *)
Definition DocumentUpload (s : State) : vnode (prog State unit) :=
  match DocumentUpload_render s with
  | Ok tree => tree
  | Err _ => VNone
  end.

#[export] Instance upload_component : Component State :=
  {| init := initial; render := DocumentUpload |}.

(** Where the controls are in the tree. *)
Definition at_area : list nat := [2].
Definition at_file : list nat := [2; 0].
Definition at_reindex : list nat := [3; 0; 1; 0].
Definition at_refresh : list nat := [3; 0; 1; 1].
Definition at_delete (i : nat) : list nat := [3; 1; 0; i; 1].

(** ** What the handlers promise *)

(** The panel is on the page: rendering it has not thrown. *)
Definition rendered (s : State) : Prop := exists list, documents_list s = Ok list.

(** The requests of the panel. *)
Definition upload_request (file : File) : output :=
  OFetch (API_BASE +:+ "/documents/upload")
    {| method := Some "POST"; headers := None;
       body := Some (BodyForm [("file", file)]) |}.
Definition list_request : output :=
  OFetch (API_BASE +:+ "/documents") (ApiClient.json_init None None).
Definition delete_request (fileName : string) : output :=
  OFetch (API_BASE +:+ "/documents/" +:+ encodeURIComponent fileName)
    (ApiClient.json_init (Some "DELETE") None).
Definition reindex_request : output :=
  OFetch (API_BASE +:+ "/admin/reindex-all") (ApiClient.json_init (Some "POST") None).

(** What the events on the fixed controls run. *)
Definition area_handler (ev : dom_event) : option (prog State unit) :=
  match kind ev with
  | OnClick => Some (dom ClickFileInput)
  | OnDrop => Some (handleDrop ev)
  | OnDragOver => Some (handleDragOver ev)
  | OnDragLeave => Some handleDragLeave
  | _ => None
  end.

(** The progress shown is a multiple of ten between 0 and 100. *)
Definition progress_ok (s : State) : Prop :=
  (0 <= uploadProgress s <= 100)%Z ∧ (uploadProgress s mod 10 = 0)%Z.

(** What the panel may do after the outputs [pre]: delete a document, or
    re-index, only once the user has accepted the dialog that asks for
    it; and never leave a rejection unhandled. *)
Definition consented (pre : list output) (o : output) : Prop :=
  match o with
  | OFetch url init =>
      (method init = Some "DELETE" ->
       exists fileName,
         url = API_BASE +:+ "/documents/" +:+ encodeURIComponent fileName
         ∧ OConfirm (confirm_delete fileName) true ∈ pre)
      ∧ (url = API_BASE +:+ "/admin/reindex-all" ->
         OConfirm confirm_reindex true ∈ pre)
  | OUnhandled _ => False
  | _ => True
  end.

Definition upload_inv (s : State) (log : list output) : Prop :=
  progress_ok s ∧ each_after consented log.

(** The hooks when a call of [loadDocuments] has settled with [res]. *)
Definition list_settled (res : result thrown jsval) (s : State) : State :=
  setLoading false
    match res ≫= fun v => get_prop v "documents" with
    | Ok docs => setDocuments docs s
    | Err e =>
        setError (Some (error_message_or e "ドキュメントの読み込みに失敗しました")) s
    end.

(** The callback of the interval that simulates progress. *)
Definition progress_tick : prog State unit :=
  set_state (fun prev => setUploadProgress (Z.min (uploadProgress prev + 10) 90) prev).

(** The world when the upload of a file has started, the suspended
    upload apart (the theorems use it once that body has ended). *)
Definition upload_started (file : File) (w : world State) : world State :=
  emit (upload_request file)
    (add_timer Interval 200 progress_tick
       (with_state
          (fun s => setUploadProgress 0
                      (setSuccess None (setError None (setUploading true s))))
          w)).

(** The same for a file dropped on the area. *)
Definition dropped (file : File) (w : world State) : world State :=
  upload_started file (with_state (setDragging false) (emit (ODom PreventDefault) w)).

(** The world when an upload whose interval is [id] has ended. *)
Definition upload_ended (id : timer_id) (w : world State) : world State :=
  emit (ODom ResetFileInput)
    (add_timer Timeout 1000 (set_state (setUploadProgress 0))
       (with_state (setUploading false) (remove_timer id w))).

(** The row of a document, as [render_document] gives it for a value of
    the interface [Document]. *)
Definition render_row (d : Document) : vnode (prog State unit) :=
  VElem "div" [("className", AStr "document-item")] []
    [ VElem "div" [] []
        [ VElem "div" [("className", AStr "name")] []
            [VText "📄 "; VExpr (JStr (name d))];
          VElem "div" [("className", AStr "meta")] []
            [ VText (formatSize (size d));
              VText " • ";
              VText (formatDate (from_option JStr JNull (last_modified d))) ] ];
      VElem "button" [("className", AStr "btn btn-danger btn-sm")]
        [(OnClick, fun _ => handleDelete (name d))]
        [VText "🗑️ 削除"] ].

Definition typed_list (docs : list Document) : vnode (prog State unit) :=
  match docs with
  | [] => render_empty
  | _ => VFrag (render_row <$> docs)
  end.

(** The hooks when a deletion, or a re-index, has settled. *)
Definition delete_failed (e : thrown) (s : State) : State :=
  setError (Some (error_message_or e "削除に失敗しました")) s.

(** The hooks when a re-index has started. *)
Definition reindex_started (s : State) : State :=
  setSuccess None (setError None (setReindexing true s)).

(** The counts an answer to the re-index reports. *)
Definition reindex_counts (res : result thrown jsval) : result thrown (jsval * jsval) :=
  v ← res; indexed ← get_prop v "indexed"; total ← get_prop v "total";
  Ok (indexed, total).

Definition reindexed_message (indexed total : jsval) : string :=
  "再インデックス完了！ " +:+ to_string indexed +:+ "/" +:+ to_string total
    +:+ " ファイルを処理しました".

(** The text of [tenths] tenths. *)
Definition show_tenths (tenths : Z) : string :=
  to_string (JNum (tenths / 10)) +:+ "." +:+ to_string (JNum (tenths mod 10)).

(** ** Events, handler by handler *)

Lemma dispatch_area s ev :
  rendered s -> dispatch (DocumentUpload s) at_area ev = area_handler ev.
Proof.
  intros [list Hl]. unfold DocumentUpload, DocumentUpload_render. rewrite Hl.
  unfold area_handler. cbn. by destruct (kind ev).
Qed.

Lemma dispatch_file s ev :
  rendered s ->
  dispatch (DocumentUpload s) at_file ev
  = if uploading s then None
    else if bool_decide (kind ev = OnChange) then Some (handleInputChange ev) else None.
Proof.
  intros [list Hl]. unfold DocumentUpload, DocumentUpload_render. rewrite Hl.
  cbn. unfold is_disabled. cbn. destruct (uploading s); [done|]. by destruct (kind ev).
Qed.

Lemma dispatch_reindex s ev :
  rendered s ->
  dispatch (DocumentUpload s) at_reindex ev
  = if reindexing s then None
    else if bool_decide (kind ev = OnClick) then Some handleReindex else None.
Proof.
  intros [list Hl]. unfold DocumentUpload, DocumentUpload_render. rewrite Hl.
  cbn. unfold is_disabled. cbn. destruct (reindexing s); [done|]. by destruct (kind ev).
Qed.

Lemma dispatch_refresh s ev :
  rendered s ->
  dispatch (DocumentUpload s) at_refresh ev
  = if loading s then None
    else if bool_decide (kind ev = OnClick) then Some loadDocuments else None.
Proof.
  intros [list Hl]. unfold DocumentUpload, DocumentUpload_render. rewrite Hl.
  cbn. unfold is_disabled. cbn. destruct (loading s); [done|]. by destruct (kind ev).
Qed.

End upload.

(** Closes a goal on the log that [keeps_walk] leaves: the log has grown
    by dialogs and requests, each deletion and each re-index after its
    accepted dialog. *)
Ltac upload_log_goal :=
  repeat (apply each_after_snoc; [|cbn; try done]); try assumption;
  try (split;
       [ first [done|intros _; eexists; split; [reflexivity|in_log]]
       | first [intros Hu%String.app_inj; by cbn in Hu|intros _; in_log] ]).

(** Closes the goals [keeps_walk] leaves for the invariant of the panel. *)
Ltac upload_goal :=
  repeat match goal with
         | H : upload_inv _ _ |- _ => destruct H as [[? ?] ?]
         end;
  split; [split; cbn in *; Z.div_mod_to_equations; lia|upload_log_goal].

Section upload_proofs.
Context `{Env, Locale}.

Lemma keeps_loadDocuments s log :
  upload_inv s log -> keeps upload_inv loadDocuments upload_inv s log.
Proof. intros HJ. unfold loadDocuments. keeps_walk; upload_goal. Qed.

Lemma keeps_handleFileSelect file s log :
  upload_inv s log -> keeps upload_inv (handleFileSelect file) upload_inv s log.
Proof. intros HJ. unfold handleFileSelect, loadDocuments. keeps_walk; upload_goal. Qed.

Lemma keeps_handleDelete fileName s log :
  upload_inv s log -> keeps upload_inv (handleDelete fileName) upload_inv s log.
Proof.
  intros HJ. unfold handleDelete, loadDocuments. keeps_walk; upload_goal.
Qed.

Lemma keeps_handleReindex s log :
  upload_inv s log -> keeps upload_inv handleReindex upload_inv s log.
Proof.
  intros HJ. unfold handleReindex, loadDocuments. keeps_walk; upload_goal.
Qed.

Lemma keeps_handleDrop ev s log :
  upload_inv s log -> keeps upload_inv (handleDrop ev) upload_inv s log.
Proof.
  intros HJ. unfold handleDrop, handleFileSelect, loadDocuments.
  keeps_walk; upload_goal.
Qed.

Lemma keeps_handleInputChange ev s log :
  upload_inv s log -> keeps upload_inv (handleInputChange ev) upload_inv s log.
Proof.
  intros HJ. unfold handleInputChange, handleFileSelect, loadDocuments.
  keeps_walk; upload_goal.
Qed.

(** The handlers of the tree are the bodies above. *)
Section handlers.
Variable P : prog State unit -> Prop.
Hypothesis Hclick : P (dom ClickFileInput).
Hypothesis Hdrop : forall ev, P (handleDrop ev).
Hypothesis Hover : forall ev, P (handleDragOver ev).
Hypothesis Hleave : P handleDragLeave.
Hypothesis Hchange : forall ev, P (handleInputChange ev).
Hypothesis Hreindex : P handleReindex.
Hypothesis Hload : P loadDocuments.
Hypothesis Hdelete : forall fileName, P (handleDelete fileName).

Lemma render_document_handlers doc node :
  render_document doc = Ok node -> every_handler P node.
Proof.
  unfold render_document.
  destruct (get_prop doc "name") as [doc_name|]; [|done].
  destruct (get_prop doc "size") as [doc_size|]; [|done].
  destruct (get_prop doc "last_modified") as [doc_last_modified|]; [|done].
  cbn -[handleDelete]. destruct (valid_child doc_name); [|done]. intros [= <-].
  cbn -[handleDelete]. handlers_done. by destruct doc_size.
Qed.

Lemma documents_list_handlers s list :
  documents_list s = Ok list -> every_handler P list.
Proof.
  unfold documents_list.
  destruct (js_length (documents s)) as [len|]; [|done]. cbn.
  case_bool_decide; [by intros [= <-]|].
  destruct (documents s) as [| | | | |docs|]; try done.
  destruct (mapM render_document docs) as [nodes|] eqn:Hnodes; [|done].
  intros [= <-]. apply every_handler_children, Forall_forall. intros node Hnode.
  apply mapM_Ok in Hnodes.
  apply list_elem_of_lookup in Hnode as [i Hi].
  destruct (Forall2_lookup_r _ _ _ _ _ Hnodes Hi) as (doc & _ & Hdoc).
  by eapply render_document_handlers.
Qed.

Lemma upload_area_handlers s : every_handler P (upload_area s).
Proof.
  unfold upload_area. handlers_step. split; [handlers_done|].
  repeat (apply Forall_cons_2); [handlers_done| |done].
  by destruct (uploading s), (0 <? uploadProgress s)%Z.
Qed.

Lemma render_handlers s tree :
  DocumentUpload_render s = Ok tree -> every_handler P tree.
Proof.
  unfold DocumentUpload_render.
  destruct (documents_list s) as [list|e] eqn:Hl; [|done]. intros [= <-].
  handlers_step. split; [done|].
  repeat (apply Forall_cons_2); [..|done]; try (by apply every_handler_and_then).
  - apply upload_area_handlers.
  - apply documents_list_handlers in Hl. unfold documents_section.
    cbn -[handleReindex loadDocuments]. handlers_done.
Qed.

Lemma upload_handlers s : every_handler P (DocumentUpload s).
Proof.
  unfold DocumentUpload.
  destruct (DocumentUpload_render s) as [tree|] eqn:Ht; [|done].
  by eapply render_handlers.
Qed.
End handlers.

Lemma keeps_handlers s log :
  upload_inv s log ->
  every_handler (fun h => keeps upload_inv h upload_inv s log) (DocumentUpload s).
Proof.
  intros HJ.
  apply upload_handlers;
    auto using keeps_handleDrop, keeps_handleInputChange, keeps_handleReindex,
      keeps_loadDocuments, keeps_handleDelete;
    intros; keeps_walk; upload_goal.
Qed.

(** The invariant holds in every reachable world. *)
Lemma upload_inv_reachable w :
  reachable w -> upload_inv (w_state w) (w_log w).
Proof.
  apply (invariant_by_handlers upload_inv).
  - split; [by split|apply each_after_nil].
  - intros s log path ev h HJ Hd.
    by apply (dispatch_every_handler _ _ _ _ _ (keeps_handlers s log HJ) Hd).
Qed.

Lemma upload_step_user w path ev ans h :
  dispatch (DocumentUpload (w_state w)) path ev = Some h ->
  step_fn (LUser path ev ans) w = Some (run_task ans h w).
Proof. intros Hd. simpl. by rewrite Hd. Qed.

Lemma documents_list_typed s docs :
  documents s = JArr (document_to_js <$> docs) ->
  documents_list s = Ok (typed_list docs).
Proof.
  intros Hd. unfold documents_list. rewrite Hd. destruct docs as [|d docs]; [done|].
  cbn -[mapM]. rewrite bool_decide_eq_false_2 by (intros [=]; lia).
  change (document_to_js d :: (document_to_js <$> docs))
    with (document_to_js <$> d :: docs).
  assert (mapM render_document (document_to_js <$> d :: docs)
          = Ok (render_row <$> d :: docs)) as ->; [|done].
  apply mapM_Ok, Forall2_fmap, Forall_Forall2_diag, Forall_true. done.
Qed.

Lemma typed_rendered s docs :
  documents s = JArr (document_to_js <$> docs) -> rendered s.
Proof. intros Hd. eexists. by apply documents_list_typed. Qed.

Lemma node_at_list s list :
  documents_list s = Ok list -> node_at [3; 1; 0] (DocumentUpload s) = Some list.
Proof. intros Hl. unfold DocumentUpload, DocumentUpload_render. by rewrite Hl. Qed.

Lemma dispatch_delete s docs i d ev :
  documents s = JArr (document_to_js <$> docs) -> docs !! i = Some d ->
  kind ev = OnClick ->
  dispatch (DocumentUpload s) (at_delete i) ev = Some (handleDelete (name d)).
Proof.
  intros Hd Hi Hk. unfold dispatch.
  change (at_delete i) with ([3; 1; 0] ++ [i; 1]).
  rewrite node_at_app, (node_at_list s _ (documents_list_typed s docs Hd)).
  destruct docs as [|d0 docs]; [done|]. unfold typed_list.
  cbn [mbind option_bind node_at children_of].
  rewrite list_lookup_fmap, Hi. cbn. by rewrite Hk.
Qed.

Lemma rendered_documents s s' :
  documents s' = documents s -> rendered s -> rendered s'.
Proof. intros Hd [list Hl]. exists list. unfold documents_list in *. by rewrite Hd. Qed.

Lemma step_drop w ev ans file :
  kind ev = OnDrop -> head (files ev) = Some file -> rendered (w_state w) ->
  step_fn (LUser at_area ev ans) w
  = Some (run_task ans (handleFileSelect file)
            (with_state (setDragging false) (emit (ODom PreventDefault) w))).
Proof.
  intros Hk Hf Hr. rewrite (upload_step_user w _ _ _ (handleDrop ev)).
  - unfold run_task, handleDrop. by rewrite Hf.
  - rewrite dispatch_area by done. unfold area_handler. by rewrite Hk.
Qed.

Lemma toFixed1_nearest a b tenths :
  (0 < b)%Z -> (b * (2 * tenths - 1) <= 20 * a < b * (2 * tenths + 1))%Z ->
  toFixed1 a b = show_tenths tenths.
Proof.
  intros Hb Ht. unfold toFixed1, show_tenths. cbn.
  replace ((20 * a + b) / (2 * b))%Z with tenths; [done|].
  apply Z.div_unique with (20 * a + b - 2 * b * tenths)%Z; lia.
Qed.

(** ** The theorems *)

(** C0. An upload from a drop to its end.  The drop suppresses the
    default action, shows the spinner and sends the file once, with an
    interval that simulates progress.  When the call fails, the error of
    the backend is shown, the list of documents is left as it is and no
    list is requested; when it succeeds, the progress is set to 100, the
    success message names the file and the list is requested once and
    replaced by the answer.  Either way the interval is cleared, the
    spinner removed, the file input reset and a timer set that puts the
    progress back to 0. *)
Theorem upload_round w ev ans file o1 o2 :
  kind ev = OnDrop -> head (files ev) = Some file -> rendered (w_state w) ->
  let n := length (w_pending w) in
  match ApiClient.call_result "Upload failed" o1 with
  | Err e =>
      run_trace (LUser at_area ev ans :: answer n o1 ans) w
      = Some (upload_ended (w_next_timer w)
                (with_state
                   (setError (Some (error_message_or e "アップロードに失敗しました")))
                   (dropped file w)))
  | Ok _ =>
      run_trace (LUser at_area ev ans :: answer n o1 ans ++ answer n o2 ans) w
      = Some (with_state (list_settled (ApiClient.call_result "Request failed" o2))
                (upload_ended (w_next_timer w)
                   (emit list_request
                      (with_state
                         (fun s => setLoading true
                                     (setSuccess (Some (uploaded_message (file_name file)))
                                        (setUploadProgress 100 s)))
                         (dropped file w)))))
  end.
Proof.
  intros Hk Hf Hr n. subst n. cbn [run_trace].
  rewrite (upload_step_user w _ _ _ (handleDrop ev))
    by (rewrite dispatch_area by done; unfold area_handler; by rewrite Hk).
  unfold run_task, handleDrop, list_settled. rewrite Hf. cbn -[step_fn].
  answer_step o1; try done.
  answer_step o2; try done.
  all: by destruct (get_prop _ "documents").
Qed.
(** ** Lists that keep to the contract *)

(** C0. A deletion from the click to its end.  The button of the
    [i]-th row asks the user about the document of that row and, once the
    user accepts, sends one [DELETE] for its name.  When the call fails the
    error is shown and the list is left as it is; when it succeeds the
    success message names the document and the list is requested once and
    replaced by the answer. *)
Theorem delete_round w ev ans docs i d o1 o2 :
  kind ev = OnClick -> documents (w_state w) = JArr (document_to_js <$> docs) ->
  docs !! i = Some d -> ans (confirm_delete (name d)) = true ->
  let n := length (w_pending w) in
  let asked :=
    emit (delete_request (name d)) (emit (OConfirm (confirm_delete (name d)) true) w) in
  match ApiClient.call_result "Request failed" o1 with
  | Err e =>
      run_trace (LUser (at_delete i) ev ans :: answer n o1 ans) w
      = Some (with_state (delete_failed e) asked)
  | Ok _ =>
      run_trace (LUser (at_delete i) ev ans :: answer n o1 ans ++ answer n o2 ans) w
      = Some (with_state
                (fun s => list_settled (ApiClient.call_result "Request failed" o2)
                            (setLoading true
                               (setSuccess (Some (deleted_message (name d))) s)))
                (emit list_request asked))
  end.
Proof.
  intros Hk Hd Hi Hans n asked. subst n asked. cbn [run_trace].
  rewrite (upload_step_user w _ _ _ _ (dispatch_delete _ _ _ _ _ Hd Hi Hk)).
  unfold run_task, handleDelete, list_settled, delete_failed. cbn -[step_fn].
  rewrite Hans. cbn -[step_fn].
  answer_step o1; try done.
  answer_step o2; try done.
  all: by destruct (get_prop _ "documents").
Qed.
(** C0. A re-index from the click to its end: once the user accepts
    the dialog, one [POST] to [/admin/reindex-all]; the counts of the answer
    are reported and the list is requested and replaced, or the error is
    shown; the button is enabled again either way. *)
Theorem reindex_round w ev ans o1 o2 :
  kind ev = OnClick -> rendered (w_state w) -> reindexing (w_state w) = false ->
  ans confirm_reindex = true ->
  let n := length (w_pending w) in
  let asked :=
    emit reindex_request
      (emit (OConfirm confirm_reindex true) (with_state reindex_started w)) in
  match reindex_counts (ApiClient.call_result "Request failed" o1) with
  | Err e =>
      run_trace (LUser at_reindex ev ans :: answer n o1 ans) w
      = Some (with_state
                (fun s => setReindexing false
                            (setError (Some (error_message_or e
                                               "再インデックスに失敗しました")) s))
                asked)
  | Ok (indexed, total) =>
      run_trace (LUser at_reindex ev ans :: answer n o1 ans ++ answer n o2 ans) w
      = Some (with_state
                (fun s => list_settled (ApiClient.call_result "Request failed" o2)
                            (setReindexing false
                               (setLoading true
                                  (setSuccess (Some (reindexed_message indexed total)) s))))
                (emit list_request asked))
  end.
Proof.
  intros Hk Hr Hl Hans n asked. subst n asked. cbn [run_trace].
  rewrite (upload_step_user w _ _ _ handleReindex)
    by (by rewrite dispatch_reindex, Hl, Hk).
  unfold run_task, handleReindex, list_settled, reindex_counts. cbn -[step_fn].
  rewrite Hans. cbn -[step_fn].
  answer_step o1; try done.
  destruct (get_prop v "indexed") as [indexed|]; [|done].
  destruct (get_prop v "total") as [total|]; [|done]. cbn -[step_fn].
  answer_step o2; try done.
  all: by destruct (get_prop _ "documents").
Qed.
(** ** Requests in flight at the same time *)

(** C0. A refresh of the list: one [GET] to [/documents]; the list of
    documents becomes the field [documents] of the answer, whatever that
    is, or the error is shown and the list is left as it is; the loading
    flag is reset either way. *)
Theorem refresh_round w ev ans o :
  kind ev = OnClick -> rendered (w_state w) -> loading (w_state w) = false ->
  run_trace (LUser at_refresh ev ans :: answer (length (w_pending w)) o ans) w
  = Some (with_state (list_settled (ApiClient.call_result "Request failed" o))
            (emit list_request (with_state (setLoading true) w))).
Proof.
  intros Hk Hr Hl. cbn [run_trace].
  rewrite (upload_step_user w _ _ _ loadDocuments)
    by (by rewrite dispatch_refresh, Hl, Hk).
  unfold run_task, list_settled. cbn -[step_fn].
  answer_step o; try done.
  all: by destruct (get_prop _ "documents").
Qed.
(** C0. In every reachable state the progress is a multiple of ten
    between 0 and 100, whatever uploads, ticks of their intervals and
    timers have interleaved. *)
Theorem progress_bounded w :
  reachable w ->
  (0 <= uploadProgress (w_state w) <= 100)%Z
  ∧ (uploadProgress (w_state w) mod 10 = 0)%Z.
Proof. intros Hw. by destruct (upload_inv_reachable w Hw). Qed.

(** C0. Every [DELETE] a reachable panel has sent names, in its path,
    a document the user agreed to delete in a dialog shown before; every
    re-index requested comes after its dialog was accepted; and no
    rejection is ever left unhandled. *)
Theorem deletions_confirmed w :
  reachable w ->
  (forall pre url init post,
     w_log w = pre ++ OFetch url init :: post -> method init = Some "DELETE" ->
     exists fileName,
       url = API_BASE +:+ "/documents/" +:+ encodeURIComponent fileName
       ∧ OConfirm (confirm_delete fileName) true ∈ pre)
  ∧ (forall pre init post,
       w_log w = pre ++ OFetch (API_BASE +:+ "/admin/reindex-all") init :: post ->
       OConfirm confirm_reindex true ∈ pre)
  ∧ (forall e, OUnhandled e ∉ w_log w).
Proof.
  intros Hw. destruct (upload_inv_reachable w Hw) as [_ Hlog]. split_and!.
  - intros pre url init post Heq. by destruct (Hlog _ _ _ Heq).
  - intros pre init post Heq. destruct (Hlog _ _ _ Heq) as [_ Hre]. by apply Hre.
  - intros e [i Hi]%list_elem_of_lookup.
    apply take_drop_middle in Hi. by destruct (Hlog _ _ _ (eq_sym Hi)).
Qed.

(** C0. The panel does not take one file at a time.  While a file is
    uploading, the file input is disabled, but a second file dropped on the
    area starts a second upload beside the first; and the end of the first
    upload removes the spinner and enables the input while the second is
    still in flight. *)
Theorem drop_during_upload w ev1 ev2 change ans f1 f2 e :
  kind ev1 = OnDrop -> head (files ev1) = Some f1 ->
  kind ev2 = OnDrop -> head (files ev2) = Some f2 ->
  kind change = OnChange -> rendered (w_state w) ->
  let n := length (w_pending w) in
  let seen w' :=
    (uploading (w_state w'), length (w_pending w'),
     drop (length (w_log w)) (w_log w')) in
  run_trace [LUser at_area ev1 ans; LUser at_file change ans] w = None
  ∧ seen <$> run_trace [LUser at_area ev1 ans; LUser at_area ev2 ans] w
    = Some (true, S (S n),
            [ODom PreventDefault; upload_request f1;
             ODom PreventDefault; upload_request f2])
  ∧ seen <$> run_trace [LUser at_area ev1 ans; LUser at_area ev2 ans;
                        LReply n (Err e) ans] w
    = Some (false, S n,
            [ODom PreventDefault; upload_request f1;
             ODom PreventDefault; upload_request f2; ODom ResetFileInput]).
Proof.
  intros Hk1 Hf1 Hk2 Hf2 Hc Hr n seen. subst n seen. cbn [run_trace].
  rewrite (step_drop w ev1 ans f1) by done.
  unfold run_task. cbn -[step_fn].
  split_and!.
  - cbn. by rewrite dispatch_file.
  - rewrite (step_drop _ ev2 ans f2) by done.
    unfold run_task. cbn. rewrite !length_app. cbn.
    repeat f_equal; [lia|]. by rewrite <-!app_assoc, drop_app_length.
  - rewrite (step_drop _ ev2 ans f2) by done.
    unfold run_task at 1. cbn -[step_fn].
    erewrite step_fn_reply_at by (cbn; by rewrite <-app_assoc).
    unfold run_task. cbn. rewrite !length_app. cbn.
    repeat f_equal; [lia|]. by rewrite <-!app_assoc, drop_app_length.
Qed.
Lemma step_refresh w ev ans :
  kind ev = OnClick -> rendered (w_state w) -> loading (w_state w) = false ->
  step_fn (LUser at_refresh ev ans) w = Some (run_task ans loadDocuments w).
Proof.
  intros Hk Hr Hl. apply upload_step_user. by rewrite dispatch_refresh, Hl, Hk.
Qed.

(** C0. The list shown is that of the answer that arrived last, not
    of the request that was sent last.  A refresh is requested, then a file
    is uploaded, which requests the list again: when the answer to the
    second request arrives first, the list shows its documents, and the
    answer to the first request then replaces them, under the message that
    the upload has succeeded. *)
Theorem stale_list_overwrites w click dropping ans file rU vU rA rB docsA docsB :
  kind click = OnClick -> kind dropping = OnDrop -> head (files dropping) = Some file ->
  rendered (w_state w) -> loading (w_state w) = false ->
  ok rU = true -> json rU = Ok vU ->
  ok rA = true -> json rA = Ok (JObj [("documents", docsA)]) ->
  ok rB = true -> json rB = Ok (JObj [("documents", docsB)]) ->
  let n := length (w_pending w) in
  let uploaded :=
    [LUser at_refresh click ans; LUser at_area dropping ans]
      ++ answer (S n) (Ok rU) ans in
  (fun w' => (documents (w_state w'), success (w_state w')))
    <$> run_trace (uploaded ++ answer (S n) (Ok rB) ans) w
  = Some (docsB, Some (uploaded_message (file_name file)))
  ∧ (fun w' => (documents (w_state w'), success (w_state w')))
      <$> run_trace (uploaded ++ answer (S n) (Ok rB) ans ++ answer n (Ok rA) ans) w
    = Some (docsA, Some (uploaded_message (file_name file))).
Proof.
  intros Hc Hd Hf Hr Hl HokU HvU HokA HvA HokB HvB n uploaded. subst n uploaded.
  cbn [run_trace answer app].
  rewrite step_refresh by done. unfold run_task at 1. cbn -[step_fn].
  rewrite (step_drop _ dropping ans file) by done.
  unfold run_task at 1. cbn -[step_fn].
  reply_last. unfold run_task at 1. cbn -[step_fn]. rewrite HokU. cbn -[step_fn].
  body_last. unfold run_task at 1. cbn -[step_fn]. rewrite HvU. cbn -[step_fn].
  reply_last. unfold run_task at 1. cbn -[step_fn]. rewrite HokB. cbn -[step_fn].
  body_last. unfold run_task at 1. cbn -[step_fn]. rewrite HvB. cbn -[step_fn].
  split; [done|].
  reply_last. unfold run_task at 1. cbn -[step_fn]. rewrite HokA. cbn -[step_fn].
  body_last. unfold run_task at 1. cbn -[step_fn]. rewrite HvA. done.
Qed.
(** ** A list that React cannot render *)

(** C0. An answer to the refresh whose [documents] is [null] or
    missing is stored as it is, without an error message, and rendering it
    throws: nothing of the panel is left on the page and no event is
    accepted any more. *)
Theorem list_without_array_unmounts w ev ans r v docs e :
  kind ev = OnClick -> rendered (w_state w) -> loading (w_state w) = false ->
  ok r = true -> json r = Ok v -> get_prop v "documents" = Ok docs ->
  js_length docs = Err e ->
  exists w',
    run_trace (LUser at_refresh ev ans :: answer (length (w_pending w)) (Ok r) ans) w
    = Some w'
    ∧ documents (w_state w') = docs ∧ error (w_state w') = error (w_state w)
    ∧ DocumentUpload (w_state w') = VNone
    ∧ forall path ev' ans', step_fn (LUser path ev' ans') w' = None.
Proof.
  intros Hk Hr Hl Hok Hv Hdocs Hlen. eexists. split.
  - rewrite refresh_round by done. reflexivity.
  - unfold ApiClient.call_result, ApiClient.error_of_response, list_settled.
    rewrite Hok, Hv. cbn. rewrite Hdocs. cbn. split_and!; [done..| |].
    + unfold DocumentUpload, DocumentUpload_render, documents_list. cbn.
      by rewrite Hlen.
    + intros path ev' ans'. cbn.
      unfold DocumentUpload, DocumentUpload_render, documents_list. cbn.
      rewrite Hlen. cbn. unfold dispatch. by destruct path.
Qed.

(** C0. [formatSize] shows a size below 1024 in bytes, and any other
    in KB, below 1024 * 1024, or in MB, rounded to the nearest tenth of the
    unit, a half upwards. *)
Theorem formatSize_rounds bytes tenths :
  let unit := if (bytes <? 1024 * 1024)%Z then 1024%Z else (1024 * 1024)%Z in
  (unit * (2 * tenths - 1) <= 20 * bytes < unit * (2 * tenths + 1))%Z ->
  formatSize bytes =
    if (bytes <? 1024)%Z then to_string (JNum bytes) +:+ " B"
    else show_tenths tenths +:+ (if (bytes <? 1024 * 1024)%Z then " KB" else " MB").
Proof.
  intros unit Ht. subst unit. unfold formatSize.
  destruct (bytes <? 1024)%Z; [done|].
  destruct (bytes <? 1024 * 1024)%Z; by rewrite (toFixed1_nearest _ _ tenths).
Qed.
End upload_proofs.
End DocumentUpload.

(** ** The theorems at sample worlds *)

Import DocumentUpload.

#[local] Existing Instance default_env.

(** A browser that shows a date as the backend wrote it. *)
#[local] Instance plain_dates : Locale := {| toLocaleString := to_string |}.

(** A file, the list that holds it, and answers of the backend. *)
Definition report : File := mkFile "report.pdf".
Definition listed : list Document :=
  [mkDocument "report.pdf" 1048575 (Some "2024-05-01T09:00:00Z");
   mkDocument "notes.txt" 12 None].
Definition r_uploaded : Response :=
  mkResponse true (Ok (JObj [("file_name", JStr "report.pdf")])).
Definition r_documents (docs : list Document) : Response :=
  mkResponse true (Ok (JObj [("documents", JArr (document_to_js <$> docs))])).
Definition r_empty : Response := mkResponse true (Ok (JObj [])).
Definition r_too_large : Response :=
  mkResponse false (Ok (JObj [("detail", JStr "File too large")])).
Definition r_reindexed : Response :=
  mkResponse true (Ok (JObj [("indexed", JNum 2); ("total", JNum 2)])).

(** The panel with two documents listed. *)
Definition two_listed : world State :=
  mkWorld (setDocuments (JArr (document_to_js <$> listed)) initial) [] [] 0 [].

(** A file is dropped, the interval ticks twice, the second document is
    deleted. *)
Definition busy_trace : list label :=
  [LUser at_refresh click accept; LReply 0 (Ok (r_documents listed)) accept;
   LBody 0 accept;
   LUser at_area (drop_files [report]) accept; LTimer 0 accept; LTimer 0 accept;
   LUser (at_delete 1) click accept].

Definition busy : world State := default init_world (run_trace busy_trace init_world).

Lemma busy_reachable : reachable busy.
Proof. apply (run_trace_reachable_from busy_trace). by vm_compute. Qed.

Lemma init_rendered : rendered (w_state (init_world (S := State))).
Proof. by eexists. Qed.

Lemma upload_round_witness :
  run_trace (LUser at_area (drop_files [report]) deny :: answer 0 (Ok r_too_large) deny)
    init_world
  = Some (upload_ended 0
            (with_state (setError (Some "File too large")) (dropped report init_world))).
Proof.
  by apply (upload_round init_world (drop_files [report]) deny report
              (Ok r_too_large) (Ok r_empty) eq_refl eq_refl init_rendered).
Defined.

Lemma delete_round_witness :
  run_trace (LUser (at_delete 1) click accept :: answer 0 (Ok r_too_large) accept)
    two_listed
  = Some (with_state (delete_failed (new_Error (JStr "File too large")))
            (emit (delete_request "notes.txt")
               (emit (OConfirm (confirm_delete "notes.txt") true) two_listed))).
Proof.
  by apply (delete_round two_listed click accept listed 1
              (mkDocument "notes.txt" 12 None) (Ok r_too_large) (Ok r_empty)).
Defined.

Lemma reindex_round_witness :
  run_trace (LUser at_reindex click accept
               :: answer 0 (Ok r_reindexed) accept
               ++ answer 0 (Ok (r_documents listed)) accept) init_world
  = Some (with_state
            (fun s => list_settled (Ok (JObj [("documents",
                                              JArr (document_to_js <$> listed))]))
                        (setReindexing false
                           (setLoading true
                              (setSuccess (Some (reindexed_message (JNum 2) (JNum 2)))
                                 s))))
            (emit list_request
               (emit reindex_request
                  (emit (OConfirm confirm_reindex true)
                     (with_state reindex_started init_world))))).
Proof.
  by apply (reindex_round init_world click accept (Ok r_reindexed)
              (Ok (r_documents listed)) eq_refl init_rendered).
Defined.

Lemma refresh_round_witness :
  run_trace (LUser at_refresh click deny :: answer 0 (Ok (r_documents listed)) deny)
    init_world
  = Some (emit list_request two_listed).
Proof.
  by apply (refresh_round init_world click deny (Ok (r_documents listed)) eq_refl
              init_rendered).
Defined.

Lemma progress_bounded_witness :
  (0 <= uploadProgress (w_state busy) <= 100)%Z
  ∧ (uploadProgress (w_state busy) mod 10 = 0)%Z.
Proof. exact (progress_bounded busy busy_reachable). Defined.

Lemma deletions_confirmed_witness :
  exists fileName,
    API_BASE +:+ "/documents/notes.txt"
    = API_BASE +:+ "/documents/" +:+ encodeURIComponent fileName
    ∧ OConfirm (confirm_delete fileName) true
      ∈ [list_request; ODom PreventDefault; upload_request report;
         OConfirm (confirm_delete "notes.txt") true].
Proof.
  by apply (proj1 (deletions_confirmed busy busy_reachable)
              [list_request; ODom PreventDefault; upload_request report;
               OConfirm (confirm_delete "notes.txt") true]
              (API_BASE +:+ "/documents/notes.txt")
              (ApiClient.json_init (Some "DELETE") None) []).
Defined.

Lemma drop_during_upload_witness :
  run_trace [LUser at_area (drop_files [report]) deny;
             LUser at_file (change_files [report]) deny] init_world = None
  ∧ (fun w' => (uploading (w_state w'), length (w_pending w'), w_log w'))
      <$> run_trace [LUser at_area (drop_files [report]) deny;
                     LUser at_area (drop_files [mkFile "notes.txt"]) deny] init_world
    = Some (true, 2,
            [ODom PreventDefault; upload_request report;
             ODom PreventDefault; upload_request (mkFile "notes.txt")])
  ∧ (fun w' => (uploading (w_state w'), length (w_pending w'), w_log w'))
      <$> run_trace [LUser at_area (drop_files [report]) deny;
                     LUser at_area (drop_files [mkFile "notes.txt"]) deny;
                     LReply 0 (Err (new_Error (JStr "Failed to fetch"))) deny]
            init_world
    = Some (false, 1,
            [ODom PreventDefault; upload_request report;
             ODom PreventDefault; upload_request (mkFile "notes.txt");
             ODom ResetFileInput]).
Proof.
  by apply (drop_during_upload init_world (drop_files [report])
              (drop_files [mkFile "notes.txt"]) (change_files [report]) deny report
              (mkFile "notes.txt") (new_Error (JStr "Failed to fetch"))
              eq_refl eq_refl eq_refl eq_refl eq_refl init_rendered).
Defined.

Lemma stale_list_overwrites_witness :
  (fun w' => (documents (w_state w'), success (w_state w')))
    <$> run_trace
          (([LUser at_refresh click deny; LUser at_area (drop_files [report]) deny]
              ++ answer 1 (Ok r_uploaded) deny)
             ++ answer 1 (Ok (r_documents listed)) deny) init_world
  = Some (JArr (document_to_js <$> listed), Some (uploaded_message "report.pdf"))
  ∧ (fun w' => (documents (w_state w'), success (w_state w')))
      <$> run_trace
            (([LUser at_refresh click deny; LUser at_area (drop_files [report]) deny]
                ++ answer 1 (Ok r_uploaded) deny)
               ++ answer 1 (Ok (r_documents listed)) deny
               ++ answer 0 (Ok (r_documents [])) deny) init_world
    = Some (JArr [], Some (uploaded_message "report.pdf")).
Proof.
  by apply (stale_list_overwrites init_world click (drop_files [report]) deny report
              r_uploaded (JObj [("file_name", JStr "report.pdf")])
              (r_documents []) (r_documents listed) (JArr []) (JArr (document_to_js <$> listed))
              eq_refl eq_refl eq_refl init_rendered).
Defined.

Lemma list_without_array_unmounts_witness :
  exists w',
    run_trace (LUser at_refresh click deny :: answer 0 (Ok r_empty) deny) init_world
    = Some w'
    ∧ documents (w_state w') = JUndefined ∧ error (w_state w') = None
    ∧ DocumentUpload (w_state w') = VNone
    ∧ forall path ev' ans', step_fn (LUser path ev' ans') w' = None.
Proof.
  by apply (list_without_array_unmounts init_world click deny r_empty (JObj [])
              JUndefined
              (ErrorObj "TypeError"
                 "Cannot read properties of undefined (reading 'length')")
              eq_refl init_rendered).
Defined.

Lemma formatSize_rounds_witness : formatSize 1048575 = "1024.0 KB".
Proof. apply (formatSize_rounds 1048575 10240). simpl. lia. Defined.
