(* ===== verification/AppShell.v ===== *)
(** * The application ([App.tsx])

    [App] holds one hook, the sub-page shown, and mounts one child at a
    time: [Chat] on the main page, [DocumentUpload] or [Admin] on a
    sub-page.  The hooks of a child live as long as it is mounted: leaving
    the page drops them, coming back mounts a new child with its initial
    hooks.  What an unmounted child still has in flight goes on running,
    but its setters no longer do anything.  The theorems give what
    navigation does to the conversation and to the replies in flight, show
    that a child inside [App] behaves as the child alone, and extend the
    consent behind destructive requests to the whole application. *)

From S2P Require Import Prelude Js Web Async Runtime Invariants Embedding Client.
From S2P Require Import ChatPanel AdminPanel UploadPanel.

#[local] Open Scope string_scope.
#[local] Open Scope list_scope.

Module App.

(** ** State *)

(** [type SubPageType = 'upload' | 'admin' | null]: [null] is [None]. *)
Inductive SubPageType : Type := upload | admin.

#[export] Instance SubPageType_eq_dec : EqDecision SubPageType.
Proof. solve_decision. Defined.

(** The hooks of the child that is mounted. *)
Inductive Child : Type :=
| ChatHooks (c : Chat.State)
| UploadHooks (c : DocumentUpload.State)
| AdminHooks (c : Admin.State).

(** The state of the application: the child that is mounted, which tells
    the value of the hook [subPage], and the number of children mounted
    before it, which tells one mounting of a component from the next. *)
Record State : Type := mkState {
  mounts : nat;
  child : Child;
}.

Definition subPage (s : State) : option SubPageType :=
  match child s with
  | ChatHooks _ => None
  | UploadHooks _ => Some upload
  | AdminHooks _ => Some admin
  end.

(** The child a page shows, as it is mounted. *)
Definition mount (page : option SubPageType) : Child :=
  match page with
  | None => ChatHooks Chat.initial
  | Some upload => UploadHooks DocumentUpload.initial
  | Some admin => AdminHooks Admin.initial
  end.

(** [setSubPage]: a change of page unmounts the child and mounts that of
    the new page. *)
Definition setSubPage (page : option SubPageType) (s : State) : State :=
  if decide (subPage s = page) then s else mkState (S (mounts s)) (mount page).

Definition initial : State := mkState 0 (mount None).

(** What a setter of the child mounted as number [m] does: it sets the
    hooks of that child as long as it is mounted, and nothing after. *)
Definition chat_upd (m : nat) (f : Chat.State -> Chat.State) (s : State) : State :=
  match child s with
  | ChatHooks c => if decide (mounts s = m) then mkState m (ChatHooks (f c)) else s
  | _ => s
  end.
Definition upload_upd (m : nat) (f : DocumentUpload.State -> DocumentUpload.State)
  (s : State) : State :=
  match child s with
  | UploadHooks c => if decide (mounts s = m) then mkState m (UploadHooks (f c)) else s
  | _ => s
  end.
Definition admin_upd (m : nat) (f : Admin.State -> Admin.State) (s : State) : State :=
  match child s with
  | AdminHooks c => if decide (mounts s = m) then mkState m (AdminHooks (f c)) else s
  | _ => s
  end.

Section app.
Context `{Env, Locale}.

(** ** Handlers *)

Definition handleBack : prog State unit :=
  set_state (setSubPage None).

(** ** The rendered tree *)

(** The sub-page, lines 17 to 32: [child_tree] is the tree of the child
    of the page. *)
Definition sub_page (page : SubPageType) (child_tree : vnode (prog State unit))
  : vnode (prog State unit) :=
  VElem "div" [("className", AStr "app")] []
    [ VElem "header" [("className", AStr "header header-compact")] []
        [ VElem "button" [("className", AStr "back-button")]
            [(OnClick, fun _ => handleBack)] [VText "← 戻る"];
          VElem "h1" [] [] [VText "社内検索AI"];
          VElem "div" [("className", AStr "header-spacer")] [] [] ];
      VElem "div" [("className", AStr "panel")] []
        [ if bool_decide (page = upload) then child_tree else VNone;
          if bool_decide (page = admin) then child_tree else VNone ] ].

(** The main page, lines 36 to 63. *)
Definition main_page (chat_tree : vnode (prog State unit)) : vnode (prog State unit) :=
  VElem "div" [("className", AStr "app")] []
    [ VElem "header" [("className", AStr "header")] []
        [ VElem "div" [("className", AStr "ai-icon")] [] [];
          VElem "h1" [] [] [VText "社内検索AI"];
          VElem "p" [] [] [VText "社内ドキュメントをAIで検索・質問"] ];
      VElem "div" [("className", AStr "sub-nav")] []
        [ VElem "button" [("className", AStr "sub-nav-btn")]
            [(OnClick, fun _ => set_state (setSubPage (Some upload)))]
            [VText "📁 ドキュメント管理"];
          VElem "button" [("className", AStr "sub-nav-btn")]
            [(OnClick, fun _ => set_state (setSubPage (Some admin)))]
            [VText "⚙️ 設定"] ];
      VElem "div" [("className", AStr "panel main-panel")] [] [chat_tree] ].

(** What [App] returns, or the exception rendering its child ends with. *)
Definition App_render (s : State) : result thrown (vnode (prog State unit)) :=
  match child s with
  | ChatHooks c =>
      Ok (main_page (vnode_map (prog_lift (chat_upd (mounts s))) (Chat.Chat c)))
  | UploadHooks c =>
      tree ← DocumentUpload.DocumentUpload_render c;
      Ok (sub_page upload (vnode_map (prog_lift (upload_upd (mounts s))) tree))
  | AdminHooks c =>
      Ok (sub_page admin (vnode_map (prog_lift (admin_upd (mounts s))) (Admin.Admin c)))
  end.

(** What is on the page: an exception in rendering leaves nothing of the
    tree. *)
Definition App (s : State) : vnode (prog State unit) :=
  match App_render s with
  | Ok tree => tree
  | Err _ => VNone
  end.

#[export] Instance app_component : Component State :=
  {| init := initial; render := App |}.

(** Where the controls are: the two buttons of the main page, the back
    button of a sub-page, and the trees of the children. *)
Definition at_nav_upload : list nat := [1; 0].
Definition at_nav_admin : list nat := [1; 1].
Definition at_back : list nat := [0; 0].
Definition at_chat : list nat := [2; 0].
Definition at_upload : list nat := [1; 0].
Definition at_admin : list nat := [1; 1].

(** ** What the handlers promise *)

(** The application with a child mounted as number [m]. *)
Definition with_chat (m : nat) (c : Chat.State) : State := mkState m (ChatHooks c).
Definition with_upload (m : nat) (c : DocumentUpload.State) : State :=
  mkState m (UploadHooks c).
Definition with_admin (m : nat) (c : Admin.State) : State := mkState m (AdminHooks c).

(** The button of the main page that opens a sub-page. *)
Definition at_nav (page : SubPageType) : list nat :=
  match page with upload => at_nav_upload | admin => at_nav_admin end.

(** The log of the application: no request that destroys data without
    the consent of the user, and no rejection left unhandled. *)
Definition app_log (log : list output) : Prop :=
  Admin.admin_log log ∧ each_after DocumentUpload.consented log.

End app.

(** Closes the goals [keeps_walk] leaves. *)
Ltac app_goal :=
  repeat match goal with
         | H : app_log _ |- _ => destruct H
         end;
  split; [Admin.admin_goal|DocumentUpload.upload_log_goal].

Section app_proofs.
Context `{Env, Locale}.
#[local] Existing Instances Chat.chat_component Admin.admin_component
  DocumentUpload.upload_component.

(** ** Children in the application *)

Lemma chat_upd_mounted m f c : chat_upd m f (with_chat m c) = with_chat m (f c).
Proof. unfold chat_upd, with_chat. simpl. by rewrite decide_True. Qed.

Lemma upload_upd_mounted m f c : upload_upd m f (with_upload m c) = with_upload m (f c).
Proof. unfold upload_upd, with_upload. simpl. by rewrite decide_True. Qed.

Lemma admin_upd_mounted m f c : admin_upd m f (with_admin m c) = with_admin m (f c).
Proof. unfold admin_upd, with_admin. simpl. by rewrite decide_True. Qed.

Lemma chat_upd_unmounted m m' f c :
  m' ≠ m -> chat_upd m f (with_chat m' c) = with_chat m' c.
Proof. intros Hm. unfold chat_upd, with_chat. simpl. by rewrite decide_False. Qed.

Lemma dispatch_chat m c path ev :
  dispatch (App (with_chat m c)) (at_chat ++ path) ev
  = prog_lift (chat_upd m) <$> dispatch (Chat.Chat c) path ev.
Proof.
  rewrite <-dispatch_vnode_map. by apply dispatch_under.
Qed.

Lemma dispatch_upload m c path ev :
  dispatch (App (with_upload m c)) (at_upload ++ path) ev
  = prog_lift (upload_upd m) <$> dispatch (DocumentUpload.DocumentUpload c) path ev.
Proof.
  rewrite <-dispatch_vnode_map. unfold App, App_render, DocumentUpload.DocumentUpload.
  simpl. destruct (DocumentUpload.DocumentUpload_render c) as [tree|]; simpl.
  - by apply (dispatch_under _ at_upload).
  - unfold dispatch. by destruct path.
Qed.

Lemma dispatch_admin m c path ev :
  dispatch (App (with_admin m c)) (at_admin ++ path) ev
  = prog_lift (admin_upd m) <$> dispatch (Admin.Admin c) path ev.
Proof.
  rewrite <-dispatch_vnode_map. by apply dispatch_under.
Qed.

(** ** Navigation *)

Lemma app_step_user w path ev ans h :
  dispatch (App (w_state w)) path ev = Some h ->
  step_fn (LUser path ev ans) w = Some (run_task ans h w).
Proof. intros Hd. simpl. by rewrite Hd. Qed.

Lemma step_nav w m c ev ans page :
  kind ev = OnClick -> w_state w = with_chat m c ->
  step_fn (LUser (at_nav page) ev ans) w
  = Some (with_state (fun _ => mkState (S m) (mount (Some page))) w).
Proof.
  intros Hk Hw. destruct w as [s ps ts nt log]. simpl in Hw. subst s.
  rewrite (app_step_user _ _ _ _ (set_state (setSubPage (Some page)))).
  - by destruct page.
  - destruct page; unfold dispatch; cbn; by rewrite Hk.
Qed.

Lemma step_back w m page ev ans :
  kind ev = OnClick -> w_state w = mkState m (mount (Some page)) ->
  step_fn (LUser at_back ev ans) w
  = Some (with_state (fun _ => with_chat (S m) Chat.initial) w).
Proof.
  intros Hk Hw. destruct w as [s ps ts nt log]. simpl in Hw. subst s.
  rewrite (app_step_user _ _ _ _ handleBack).
  - by destruct page.
  - destruct page; unfold dispatch; cbn; by rewrite Hk.
Qed.

(** ** The log of the application *)

#[local] Abbreviation kept_by h c log :=
  (keeps (fun _ => app_log) h (fun _ => app_log) c log).

Lemma keeps_chat_handlers c log :
  app_log log ->
  every_handler (fun h => kept_by h c log) (Chat.Chat c).
Proof.
  intros HL. apply Chat.chat_handlers; intros;
    unfold Chat.clearChat, Chat.handleKeyPress, Chat.handleSend;
    keeps_walk; app_goal.
Qed.
Lemma keeps_admin_handlers c log :
  app_log log ->
  every_handler (fun h => kept_by h c log) (Admin.Admin c).
Proof.
  intros HL. apply Admin.admin_handlers; intros;
    unfold Admin.handleAuth, Admin.handleLogout, Admin.handleClearSearch,
      Admin.handleClearStorage, Admin.handleClearAll;
    keeps_walk; app_goal.
Qed.

Lemma keeps_upload_handlers c tree log :
  app_log log -> DocumentUpload.DocumentUpload_render c = Ok tree ->
  every_handler (fun h => kept_by h c log) tree.
Proof.
  intros HL. apply DocumentUpload.render_handlers; intros;
    unfold DocumentUpload.handleDrop, DocumentUpload.handleDragOver,
      DocumentUpload.handleDragLeave, DocumentUpload.handleInputChange,
      DocumentUpload.handleReindex, DocumentUpload.handleDelete,
      DocumentUpload.handleFileSelect, DocumentUpload.loadDocuments;
    keeps_walk; app_goal.
Qed.

(** Every handler of the tree of the application keeps the log. *)
Lemma keeps_app_handlers s log :
  app_log log -> every_handler (fun h => kept_by h s log) (App s).
Proof.
  intros HL.
  assert (forall tag attrs (f : State -> State) cs,
    every_handler (fun h => kept_by h s log)
      (VElem tag attrs [(OnClick, fun _ => set_state f)] [VText cs])) as Hbutton.
  { intros. handlers_step. split; [|by apply Forall_singleton].
    apply Forall_singleton. intros ev. exact HL. }
  unfold App, App_render. destruct s as [m [c|c|c]]; cbn [child mounts].
  - unfold main_page. handlers_step. split; [done|].
    repeat apply Forall_cons_2; [by cbn; handlers_done| | |done].
    + handlers_step. split; [done|]. repeat apply Forall_cons_2; auto.
    + handlers_step. split; [done|]. apply Forall_singleton.
      apply every_handler_vnode_map.
      eapply every_handler_impl; [|by apply keeps_chat_handlers].
      intros h. by apply keeps_prog_lift.
  - destruct (DocumentUpload.DocumentUpload_render c) as [tree|] eqn:Ht; [|done].
    cbn [mbind result_bind]. unfold sub_page. handlers_step. split; [done|].
    repeat apply Forall_cons_2; [| |done].
    + handlers_step. split; [done|].
      repeat apply Forall_cons_2; try apply (Hbutton _ _ (setSubPage None));
        by cbn; handlers_done.
    + handlers_step. split; [done|]. repeat apply Forall_cons_2; [|done..].
      rewrite bool_decide_eq_true_2 by done. apply every_handler_vnode_map.
      eapply every_handler_impl; [|by eapply keeps_upload_handlers].
      intros h. by apply keeps_prog_lift.
  - unfold sub_page. handlers_step. split; [done|].
    repeat apply Forall_cons_2; [| |done].
    + handlers_step. split; [done|].
      repeat apply Forall_cons_2; try apply (Hbutton _ _ (setSubPage None));
        by cbn; handlers_done.
    + handlers_step. split; [done|]. repeat apply Forall_cons_2; [done| |done].
      rewrite bool_decide_eq_true_2 by done. apply every_handler_vnode_map.
      eapply every_handler_impl; [|by apply keeps_admin_handlers].
      intros h. by apply keeps_prog_lift.
Qed.

Lemma app_log_reachable (w : world State) : reachable w -> app_log (w_log w).
Proof.
  apply (invariant_by_handlers (fun _ : State => app_log)).
  - split; [split; [apply confirmed_nil|apply handled_nil]|apply each_after_nil].
  - intros s log path ev h HL Hd.
    by apply (dispatch_every_handler _ _ _ _ _ (keeps_app_handlers s log HL) Hd).
Qed.

(** ** The theorems *)

(** C0. No request that destroys data leaves the application without
    consent, whatever the user navigates and whatever is still in flight
    from a panel that is no longer on the page: every request to clear the
    index or the storage comes after an accepted dialog for it, every
    [DELETE] names a document the user agreed to delete, every re-index
    was confirmed, and no rejection is ever left unhandled. *)
Theorem app_requests_consented (w : world State) :
  reachable w ->
  (forall pre o post,
     w_log w = pre ++ o :: post -> Admin.destructive o = true ->
     exists msg, OConfirm msg true ∈ pre ∧ Admin.allows msg o = true)
  ∧ (forall pre url init post,
       w_log w = pre ++ OFetch url init :: post -> method init = Some "DELETE" ->
       exists fileName,
         url = API_BASE +:+ "/documents/" +:+ encodeURIComponent fileName
         ∧ OConfirm (DocumentUpload.confirm_delete fileName) true ∈ pre)
  ∧ (forall pre init post,
       w_log w = pre ++ OFetch (API_BASE +:+ "/admin/reindex-all") init :: post ->
       OConfirm DocumentUpload.confirm_reindex true ∈ pre)
  ∧ (forall e, OUnhandled e ∉ w_log w).
Proof.
  intros Hw. destruct (app_log_reachable w Hw) as [[Hadmin Hhandled] Hlog].
  split_and!; [done| | |done].
  - intros pre url init post Heq. by destruct (Hlog _ _ _ Heq).
  - intros pre init post Heq. destruct (Hlog _ _ _ Heq) as [_ Hre]. by apply Hre.
Qed.

(** C0. A child inside the application moves as the child alone: for
    any sequence of events, the application that holds a chat, a document
    panel or an administration panel, and nothing left over from earlier
    pages, is after the events on the tree of the child where the child
    alone is after them, and refuses them when the child does. *)
Theorem children_run_in_app m :
  (forall ls (w : world Chat.State),
     run_trace (label_under at_chat <$> ls) (embed (chat_upd m) (with_chat m) w)
     = embed (chat_upd m) (with_chat m) <$> run_trace ls w)
  ∧ (forall ls (w : world DocumentUpload.State),
       run_trace (label_under at_upload <$> ls) (embed (upload_upd m) (with_upload m) w)
       = embed (upload_upd m) (with_upload m) <$> run_trace ls w)
  ∧ (forall ls (w : world Admin.State),
       run_trace (label_under at_admin <$> ls) (embed (admin_upd m) (with_admin m) w)
       = embed (admin_upd m) (with_admin m) <$> run_trace ls w).
Proof.
  split_and!; intros ls w; apply run_trace_embed;
    first [ apply chat_upd_mounted | apply upload_upd_mounted | apply admin_upd_mounted
          | apply dispatch_chat | apply dispatch_upload | apply dispatch_admin ].
Qed.

(** C0. Leaving the main page forgets the conversation: after a visit
    to a sub-page and back, the chat is a new one with its initial hooks,
    whatever the conversation was. *)
Theorem navigation_forgets_conversation w m c ev ans page :
  kind ev = OnClick -> w_state w = with_chat m c ->
  run_trace [LUser (at_nav page) ev ans; LUser at_back ev ans] w
  = Some (with_state (fun _ => with_chat (S (S m)) Chat.initial) w).
Proof.
  intros Hk Hw. cbn [run_trace].
  rewrite (step_nav w m c) by done. by rewrite (step_back _ (S m) page).
Qed.

(** C0. A reply that arrives after the user has left the main page and
    come back is dropped: the request was sent, the chat on the page is a
    new one, and the answer, or the failure, changes nothing in it. *)
Theorem reply_after_navigation_dropped w m c click ans page o :
  kind click = OnClick -> w_state w = with_chat m c -> Chat.can_send c = true ->
  let n := length (w_pending w) in
  let seen w' := (w_state w', length (w_pending w'), drop (length (w_log w)) (w_log w')) in
  seen <$> run_trace
             ([LUser (at_chat ++ Chat.at_send) click ans; LUser (at_nav page) click ans;
               LUser at_back click ans] ++ answer n o ans) w
  = Some (with_chat (S (S m)) Chat.initial, n, [Chat.chat_request c]).
Proof.
  intros Hk Hw Hc n seen. subst n seen. destruct w as [s ps ts nt log].
  simpl in Hw. subst s. cbn [run_trace app].
  rewrite (app_step_user _ _ _ _ (prog_lift (chat_upd m) (Chat.handleSend c))).
  2:{ cbn [w_state]. rewrite dispatch_chat.
      by rewrite (proj2 (Chat.chat_dispatch _ _ _ _) (Chat.ev_send c click Hk Hc)). }
  unfold run_task at 1, Chat.handleSend.
  rewrite (proj1 (Chat.can_send_guard _) Hc). cbn -[step_fn chat_upd with_chat].
  unfold with_state, with_pending, emit.
  cbn [w_state w_pending w_timers w_next_timer w_log].
  rewrite !chat_upd_mounted.
  erewrite (step_nav _ m) by done. erewrite (step_back _ (S m) page) by done.
  cbn -[step_fn chat_upd with_chat].
  destruct o as [r|e]; cbn [answer run_trace].
  - reply_last. unfold run_task. cbn -[step_fn chat_upd with_chat].
    destruct (ok r); cbn -[step_fn chat_upd with_chat].
    + body_last. unfold run_task.
      destruct (json r) as [v|e]; cbn -[chat_upd with_chat];
        [destruct (get_prop v "response"); cbn -[chat_upd with_chat]|];
        rewrite ?chat_upd_unmounted by lia; cbn;
        by rewrite drop_app_length.
    + body_last. unfold run_task.
      destruct (json r) as [v|e]; cbn -[chat_upd with_chat];
        [destruct (get_prop v "detail"); cbn -[chat_upd with_chat]|];
        rewrite ?chat_upd_unmounted by lia; cbn;
        by rewrite drop_app_length.
  - reply_last. unfold run_task. cbn -[chat_upd with_chat].
    rewrite ?chat_upd_unmounted by lia. cbn. by rewrite drop_app_length.
Qed.
End app_proofs.
End App.
